(** * speak: streaming segmentation and transcription orchestration

    A shallow embedding of the capture-side and orchestration code of the
    Linux build (ring_buffer.h, vad.h/vad.cpp, audio_engine.cpp,
    whisper_context.cpp, transcription_result.h, performance_monitor.h,
    transcription_pipeline.h/.cpp) together with the properties the design
    document states about them.

    Conventions.
    - A C++ [float] is an IEEE-754 binary32 value and a [double] a binary64
      value; both are represented by [spec_float] and computed with the
      operations of [SpecFloat] at the matching precision, rounding to
      nearest even.  Every arithmetic operation is rounded on its own, in
      the precision of its C++ type: products and sums are not fused.
    - [int], [int64_t] and [size_t] quantities are integers of [Z]; signed
      overflow is undefined in C++ and is not modelled, conversions to
      [size_t] are written out where the code performs them.
    - [std::vector<float>] is [list F32.t], [std::string] is [string].
    - Member functions take the object and return the updated object; code
      that talks to the outside (recognizer, keystroke output, callbacks)
      appends to an event log kept in the pipeline state. *)

From Stdlib Require Import ZArith List Bool Lia Ascii String Sorted.
From Stdlib Require Import Floats.SpecFloat.
Import ListNotations.

Local Open Scope list_scope.
Local Open Scope Z_scope.

(* ================================================================== *)
(** ** Floating-point values *)

(** binary32: the C++ [float]. *)
Module F32.
Definition prec : Z := 24.
Definition emax : Z := 128.
Definition t := spec_float.

Definition zero : t := S754_zero false.
Definition one : t := S754_finite false 8388608 (-23).

Definition add : t -> t -> t := SFadd prec emax.
Definition sub : t -> t -> t := SFsub prec emax.
Definition mul : t -> t -> t := SFmul prec emax.
Definition div : t -> t -> t := SFdiv prec emax.
Definition sqrt : t -> t := SFsqrt prec emax.

(** [x < y] and [x >= y]; both are false when an operand is NaN. *)
Definition ltb (x y : t) : bool := SFltb x y.
Definition geb (x y : t) : bool := SFleb y x.
Definition eqb (x y : t) : bool := SFeqb x y.

(** [static_cast<float>(n)] for an integer [n]. *)
Definition of_Z (n : Z) : t := binary_normalize prec emax n 0 false.

(** A well-formed binary32 datum. *)
Definition valid (x : t) : bool := valid_binary prec emax x.

Definition is_finite (x : t) : bool :=
  match x with
  | S754_zero _ | S754_finite _ _ _ => true
  | _ => false
  end.
End F32.

(** binary64: the C++ [double]. *)
Module F64.
Definition prec : Z := 53.
Definition emax : Z := 1024.
Definition t := spec_float.

Definition zero : t := S754_zero false.

Definition add : t -> t -> t := SFadd prec emax.
Definition sub : t -> t -> t := SFsub prec emax.
Definition mul : t -> t -> t := SFmul prec emax.
Definition div : t -> t -> t := SFdiv prec emax.

Definition ltb (x y : t) : bool := SFltb x y.
Definition leb (x y : t) : bool := SFleb x y.
Definition eqb (x y : t) : bool := SFeqb x y.

(** [static_cast<double>(n)] for an integer [n]. *)
Definition of_Z (n : Z) : t := binary_normalize prec emax n 0 false.

(** Truncation toward zero of a finite value, as an integer. *)
Definition trunc (x : t) : option Z :=
  match x with
  | S754_zero _ => Some 0
  | S754_finite s m e =>
      let v := match e with
               | Z0 => Zpos m
               | Zpos p => Zpos m * Z.pow_pos 2 p
               | Zneg p => Zpos m / Z.pow_pos 2 p
               end in
      Some (if s then - v else v)
  | _ => None
  end.

(** [static_cast<size_t>(x)] with a 64-bit [size_t]: defined only when
    the truncated value is representable, undefined behaviour (no
    result) otherwise. *)
Definition to_size_t (x : t) : option Z :=
  match trunc x with
  | Some v => if (0 <=? v) && (v <? 2 ^ 64) then Some v else None
  | None => None
  end.

(** [static_cast<int64_t>(x)]. *)
Definition to_int64 (x : t) : option Z :=
  match trunc x with
  | Some v => if (- 2 ^ 63 <=? v) && (v <? 2 ^ 63) then Some v else None
  | None => None
  end.

(** [static_cast<float>(x)]: rounding of a double to binary32. *)
Definition to_f32 (x : t) : F32.t :=
  match x with
  | S754_finite s m e =>
      binary_normalize F32.prec F32.emax (if s then Zneg m else Zpos m) e s
  | _ => x
  end.
End F64.

(** [static_cast<size_t>(n)] for an [int] [n]: reduction modulo 2^64. *)
Definition size_t_of_int (n : Z) : Z := n mod 2 ^ 64.

(* ================================================================== *)
(** ** ring_buffer.h *)

Module RingBuffer.

(** The lock only serialises [append] and [drain]; each call is one
    atomic transition of the state below. *)
Record t := mk { samples_ : list F32.t }.

Definition empty : t := mk [].

Definition append (b : t) (data : list F32.t) : t :=
  mk (samples_ b ++ data).

(** [drain] swaps the store out: the result is the old contents, the
    buffer is left empty (the reserved capacity is not observable). *)
Definition drain (b : t) : list F32.t * t :=
  (samples_ b, mk []).

Definition count (b : t) : Z := Z.of_nat (List.length (samples_ b)).

Definition duration (b : t) : F64.t :=
  F64.div (F64.of_Z (count b)) (F64.of_Z 16000).

(** A run of [append] calls, in order. *)
Definition appends (b : t) (chunks : list (list F32.t)) : t :=
  fold_left append chunks b.

End RingBuffer.

(* ================================================================== *)
(** ** vad.h / vad.cpp *)

Module VAD.

Inductive State := silence | speech_onset | speaking | speech_offset.

Record t := mk {
  state : State;
  is_speaking : bool;
  is_enabled : bool;
  speech_threshold : F32.t;
  silence_threshold : F32.t;
  min_speech_duration_ms : Z;
  min_silence_duration_ms : Z;
  pre_speech_padding_ms : Z;
  post_speech_padding_ms : Z;
  active_sample_rate_ : Z;
  pre_speech_buf_ : list F32.t;
  onset_buf_ : list F32.t;
  post_speech_buf_ : list F32.t;
  speech_sample_count_ : Z;
  silence_sample_count_ : Z
}.

(** Field assignments. *)
Definition set_state (x : State) (v : t) : t :=
  mk x (is_speaking v) (is_enabled v) (speech_threshold v)
     (silence_threshold v) (min_speech_duration_ms v)
     (min_silence_duration_ms v) (pre_speech_padding_ms v)
     (post_speech_padding_ms v) (active_sample_rate_ v)
     (pre_speech_buf_ v) (onset_buf_ v) (post_speech_buf_ v)
     (speech_sample_count_ v) (silence_sample_count_ v).

Definition set_is_speaking (x : bool) (v : t) : t :=
  mk (state v) x (is_enabled v) (speech_threshold v)
     (silence_threshold v) (min_speech_duration_ms v)
     (min_silence_duration_ms v) (pre_speech_padding_ms v)
     (post_speech_padding_ms v) (active_sample_rate_ v)
     (pre_speech_buf_ v) (onset_buf_ v) (post_speech_buf_ v)
     (speech_sample_count_ v) (silence_sample_count_ v).

Definition set_active_sample_rate (x : Z) (v : t) : t :=
  mk (state v) (is_speaking v) (is_enabled v) (speech_threshold v)
     (silence_threshold v) (min_speech_duration_ms v)
     (min_silence_duration_ms v) (pre_speech_padding_ms v)
     (post_speech_padding_ms v) x
     (pre_speech_buf_ v) (onset_buf_ v) (post_speech_buf_ v)
     (speech_sample_count_ v) (silence_sample_count_ v).

Definition set_pre_speech_buf (x : list F32.t) (v : t) : t :=
  mk (state v) (is_speaking v) (is_enabled v) (speech_threshold v)
     (silence_threshold v) (min_speech_duration_ms v)
     (min_silence_duration_ms v) (pre_speech_padding_ms v)
     (post_speech_padding_ms v) (active_sample_rate_ v)
     x (onset_buf_ v) (post_speech_buf_ v)
     (speech_sample_count_ v) (silence_sample_count_ v).

Definition set_onset_buf (x : list F32.t) (v : t) : t :=
  mk (state v) (is_speaking v) (is_enabled v) (speech_threshold v)
     (silence_threshold v) (min_speech_duration_ms v)
     (min_silence_duration_ms v) (pre_speech_padding_ms v)
     (post_speech_padding_ms v) (active_sample_rate_ v)
     (pre_speech_buf_ v) x (post_speech_buf_ v)
     (speech_sample_count_ v) (silence_sample_count_ v).

Definition set_post_speech_buf (x : list F32.t) (v : t) : t :=
  mk (state v) (is_speaking v) (is_enabled v) (speech_threshold v)
     (silence_threshold v) (min_speech_duration_ms v)
     (min_silence_duration_ms v) (pre_speech_padding_ms v)
     (post_speech_padding_ms v) (active_sample_rate_ v)
     (pre_speech_buf_ v) (onset_buf_ v) x
     (speech_sample_count_ v) (silence_sample_count_ v).

Definition set_speech_sample_count (x : Z) (v : t) : t :=
  mk (state v) (is_speaking v) (is_enabled v) (speech_threshold v)
     (silence_threshold v) (min_speech_duration_ms v)
     (min_silence_duration_ms v) (pre_speech_padding_ms v)
     (post_speech_padding_ms v) (active_sample_rate_ v)
     (pre_speech_buf_ v) (onset_buf_ v) (post_speech_buf_ v)
     x (silence_sample_count_ v).

Definition set_silence_sample_count (x : Z) (v : t) : t :=
  mk (state v) (is_speaking v) (is_enabled v) (speech_threshold v)
     (silence_threshold v) (min_speech_duration_ms v)
     (min_silence_duration_ms v) (pre_speech_padding_ms v)
     (post_speech_padding_ms v) (active_sample_rate_ v)
     (pre_speech_buf_ v) (onset_buf_ v) (post_speech_buf_ v)
     (speech_sample_count_ v) x.

(** The detector as constructed (member initialisers of vad.h):
    thresholds 0.007f and 0.003f. *)
Definition initial : t :=
  mk silence false true
     (S754_finite false 15032386 (-31)) (S754_finite false 12884902 (-32))
     60 600 200 300 16000 [] [] [] 0 0.

(** [int] division truncates toward zero.  (The C++ forms the product
    in [int]; the model is exact for as long as the product fits
    32 bits, see [VADRun.fits].) *)
Definition pre_speech_max_samples (v : t) : Z :=
  Z.quot (pre_speech_padding_ms v * active_sample_rate_ v) 1000.
Definition post_speech_max_samples (v : t) : Z :=
  Z.quot (post_speech_padding_ms v * active_sample_rate_ v) 1000.
Definition min_speech_samples (v : t) : Z :=
  Z.quot (min_speech_duration_ms v * active_sample_rate_ v) 1000.
Definition min_silence_samples (v : t) : Z :=
  Z.quot (min_silence_duration_ms v * active_sample_rate_ v) 1000.

Definition len (l : list F32.t) : Z := Z.of_nat (List.length l).

Definition compute_rms (data : list F32.t) : F32.t :=
  match data with
  | [] => F32.zero
  | _ =>
      let sum := fold_left (fun s x => F32.add s (F32.mul x x)) data F32.zero in
      F32.sqrt (F32.div sum (F32.of_Z (len data)))
  end.

(** Appends to the rolling pre-speech window and drops the oldest
    samples beyond the configured maximum.  (With a negative maximum
    the C++ [erase] runs past the end, which is undefined; the model
    then drops everything.  What is said of whole runs of an engine
    assumes a maximum that is not negative, see [VADRun.configured].) *)
Definition append_to_pre_speech (v : t) (data : list F32.t) : t :=
  let buf := pre_speech_buf_ v ++ data in
  let max := pre_speech_max_samples v in
  if len buf >? max
  then set_pre_speech_buf (skipn (Z.to_nat (len buf - max)) buf) v
  else set_pre_speech_buf buf v.

Definition reset (v : t) : t :=
  set_silence_sample_count 0
    (set_speech_sample_count 0
      (set_post_speech_buf []
        (set_onset_buf []
          (set_pre_speech_buf []
            (set_is_speaking false
              (set_state silence v)))))).

(** One frame.  [output] is the vector the caller accumulates into; the
    result is the updated detector and the updated vector. *)
Definition process_frame (v : t) (frame : list F32.t) (output : list F32.t)
  : t * list F32.t :=
  let rms := compute_rms frame in
  match state v with
  | silence =>
      if F32.geb rms (speech_threshold v) then
        (set_onset_buf frame
           (set_speech_sample_count (len frame)
              (set_state speech_onset v)), output)
      else
        (append_to_pre_speech v frame, output)
  | speech_onset =>
      if F32.geb rms (speech_threshold v) then
        let v1 := set_speech_sample_count (speech_sample_count_ v + len frame) v in
        let v2 := set_onset_buf (onset_buf_ v1 ++ frame) v1 in
        if speech_sample_count_ v2 >=? min_speech_samples v2 then
          let v3 := set_is_speaking true (set_state speaking v2) in
          let out := (output ++ pre_speech_buf_ v3) ++ onset_buf_ v3 in
          (set_onset_buf [] (set_pre_speech_buf [] v3), out)
        else (v2, output)
      else
        let v1 := append_to_pre_speech v (onset_buf_ v) in
        let v2 := append_to_pre_speech v1 frame in
        (set_state silence
           (set_speech_sample_count 0
              (set_onset_buf [] v2)), output)
  | speaking =>
      if F32.ltb rms (silence_threshold v) then
        (set_post_speech_buf frame
           (set_silence_sample_count (len frame)
              (set_state speech_offset v)), output)
      else
        (v, output ++ frame)
  | speech_offset =>
      if F32.ltb rms (silence_threshold v) then
        let v1 := set_silence_sample_count (silence_sample_count_ v + len frame) v in
        let v2 := set_post_speech_buf (post_speech_buf_ v1 ++ frame) v1 in
        if silence_sample_count_ v2 >=? min_silence_samples v2 then
          let padding :=
            Z.min (size_t_of_int (post_speech_max_samples v2))
                  (len (post_speech_buf_ v2)) in
          let out := output ++ firstn (Z.to_nat padding) (post_speech_buf_ v2) in
          (set_pre_speech_buf []
             (set_is_speaking false
                (set_state silence
                   (set_silence_sample_count 0
                      (set_post_speech_buf [] v2)))), out)
        else (v2, output)
      else
        let out := (output ++ post_speech_buf_ v) ++ frame in
        (set_state speaking
           (set_silence_sample_count 0
              (set_post_speech_buf [] v)), out)
  end.

(** The frame loop of [process]: [fuel] bounds the iterations (the loop
    makes no progress when the frame size is not positive). *)
Fixpoint process_loop (fuel : nat) (frame_size : Z) (v : t)
         (rest : list F32.t) (output : list F32.t) : option (t * list F32.t) :=
  match rest with
  | [] => Some (v, output)
  | _ :: _ =>
      match fuel with
      | O => None
      | S fuel' =>
          let n := Z.to_nat (Z.min (size_t_of_int frame_size) (len rest)) in
          let '(v', output') := process_frame v (firstn n rest) output in
          process_loop fuel' frame_size v' (skipn n rest) output'
      end
  end.

Definition process (fuel : nat) (v : t) (samples : list F32.t) (sample_rate : Z)
  : option (t * list F32.t) :=
  if negb (is_enabled v) then Some (v, samples)
  else
    let v1 := set_active_sample_rate sample_rate v in
    let frame_size := Z.quot (sample_rate * 30) 1000 in
    process_loop fuel frame_size v1 samples [].

(** A run of frames through [process_frame], accumulating the output. *)
Fixpoint process_frames (v : t) (frames : list (list F32.t)) (output : list F32.t)
  : t * list F32.t :=
  match frames with
  | [] => (v, output)
  | f :: fs =>
      let '(v', output') := process_frame v f output in
      process_frames v' fs output'
  end.

End VAD.

(* ================================================================== *)
(** ** audio_engine.h / audio_engine.cpp *)

Module AudioEngine.

Record t := mk {
  pa_ : bool;                (* a capture stream is open *)
  vad_ : VAD.t;
  buffer_ : RingBuffer.t;
  hardware_sr_ : F64.t;
  running_ : bool;
  collecting_ : bool
}.

(** 48000.0 and 16000.0 *)
Definition rate_48000 : F64.t := Eval vm_compute in F64.of_Z 48000.
Definition rate_16000 : F64.t := Eval vm_compute in F64.of_Z 16000.

Definition initial : t :=
  mk false VAD.initial RingBuffer.empty rate_48000 false false.

Definition len (l : list F32.t) : Z := Z.of_nat (List.length l).

(** One pass of the interpolation loop body, for output index [i].
    No result stands for undefined behaviour: a conversion to [size_t]
    out of range, or a read past the end of [input]. *)
Definition interpolate (input : list F32.t) (ratio : F64.t) (i : Z)
  : option F32.t :=
  let src_idx := F64.mul (F64.of_Z i) ratio in
  match F64.to_size_t src_idx with
  | None => None
  | Some idx0 =>
      let frac := F64.to_f32 (F64.sub src_idx (F64.of_Z idx0)) in
      let idx1 := Z.min ((idx0 + 1) mod 2 ^ 64) (len input - 1) in
      match nth_error input (Z.to_nat idx0), nth_error input (Z.to_nat idx1) with
      | Some x0, Some x1 =>
          Some (F32.add (F32.mul x0 (F32.sub F32.one frac)) (F32.mul x1 frac))
      | _, _ => None
      end
  end.

(** [for (i = first; i < first + n; ++i) output[i] = ...] *)
Fixpoint resample_loop (input : list F32.t) (ratio : F64.t) (first : Z) (n : nat)
  : option (list F32.t) :=
  match n with
  | O => Some []
  | S n' =>
      match interpolate input ratio first with
      | None => None
      | Some y =>
          match resample_loop input ratio (first + 1) n' with
          | None => None
          | Some ys => Some (y :: ys)
          end
      end
  end.

Definition is_nil (l : list F32.t) : bool :=
  match l with [] => true | _ => false end.

Definition resample (input : list F32.t) (from to : F64.t) : option (list F32.t) :=
  if F64.eqb from to || is_nil input then Some input
  else
    let ratio := F64.div from to in
    match F64.to_size_t (F64.div (F64.of_Z (len input)) ratio) with
    | None => None
    | Some out_count =>
        if out_count =? 0 then Some []
        else resample_loop input ratio 0 (Z.to_nat out_count)
    end.

Definition resample_public (a : t) (input : list F32.t) : option (list F32.t) :=
  resample input (hardware_sr_ a) rate_16000.

(** [prepare]: [dev_ok] tells whether the capture provider opened the
    stream; the stream is always requested at 48000 Hz. *)
Definition prepare (dev_ok : bool) (a : t) : t :=
  if pa_ a then a
  else if dev_ok
       then mk true (vad_ a) (buffer_ a) rate_48000 true (collecting_ a)
       else a.

Definition start_recording (dev_ok : bool) (a : t) : t :=
  let a1 := if negb (pa_ a) then prepare dev_ok a else a in
  mk (pa_ a1) (VAD.reset (vad_ a1)) (snd (RingBuffer.drain (buffer_ a1)))
     (hardware_sr_ a1) (running_ a1) true.

Definition stop_recording (a : t) : option (t * list F32.t) :=
  let '(raw, buf) := RingBuffer.drain (buffer_ a) in
  let a1 := mk (pa_ a) (VAD.reset (vad_ a)) buf (hardware_sr_ a) (running_ a) false in
  if is_nil raw then Some (a1, [])
  else
    match resample raw (hardware_sr_ a) rate_16000 with
    | None => None
    | Some resampled => Some (a1, resampled)
    end.

Definition release (a : t) : t :=
  mk false (vad_ a) (buffer_ a) (hardware_sr_ a) false false.

End AudioEngine.

(* ================================================================== *)
(** ** std::string operations used by the pipeline *)

Module Str.

Local Open Scope string_scope.

Definition size (s : string) : Z := Z.of_nat (String.length s).

Definition empty (s : string) : bool :=
  match s with EmptyString => true | _ => false end.

Definition front (s : string) : option ascii :=
  match s with EmptyString => None | String c _ => Some c end.

Fixpoint back (s : string) : option ascii :=
  match s with
  | EmptyString => None
  | String c EmptyString => Some c
  | String _ s' => back s'
  end.

Fixpoint pop_back (s : string) : string :=
  match s with
  | EmptyString => EmptyString
  | String _ EmptyString => EmptyString
  | String c s' => String c (pop_back s')
  end.

(** [s.substr(pos)] for [pos <= s.size()]. *)
Fixpoint substr (s : string) (pos : nat) : string :=
  match pos, s with
  | O, _ => s
  | S _, EmptyString => EmptyString
  | S pos', String _ s' => substr s' pos'
  end.

(** [s.find(p)]: position of the first occurrence, [None] for [npos]. *)
Fixpoint find (s p : string) : option nat :=
  if String.prefix p s then Some O
  else match s with
       | EmptyString => None
       | String _ s' => option_map S (find s' p)
       end.

(** [std::tolower] on an [unsigned char] in the "C" locale (the program
    never calls [setlocale]). *)
Definition tolower (c : ascii) : ascii :=
  let n := nat_of_ascii c in
  if (65 <=? n)%nat && (n <=? 90)%nat then ascii_of_nat (n + 32) else c.

Fixpoint map (f : ascii -> ascii) (s : string) : string :=
  match s with
  | EmptyString => EmptyString
  | String c s' => String (f c) (map f s')
  end.

(** The two characters the pipeline strips: space and line feed. *)
Definition is_blank (c : ascii) : bool :=
  Ascii.eqb c " " || Ascii.eqb c "010".

(** [while (!s.empty() && blank(s.front())) s.erase(s.begin());] *)
Fixpoint strip_front (s : string) : string :=
  match s with
  | EmptyString => EmptyString
  | String c s' => if is_blank c then strip_front s' else s
  end.

(** [while (!s.empty() && blank(s.back())) s.pop_back();], one
    iteration per unit of [fuel]. *)
Fixpoint strip_back_loop (fuel : nat) (s : string) : string :=
  match fuel with
  | O => s
  | S fuel' =>
      match back s with
      | Some c => if is_blank c then strip_back_loop fuel' (pop_back s) else s
      | None => s
      end
  end.

Definition strip_back (s : string) : string :=
  strip_back_loop (String.length s) s.

Definition strip (s : string) : string := strip_back (strip_front s).

End Str.

(* ================================================================== *)
(** ** transcription_result.h *)

Record TranscriptionSegment := mkSegment {
  text : string;
  start_time : Z;
  end_time : Z
}.

Record TranscriptionResult := mkResult {
  segments : list TranscriptionSegment;
  audio_duration_ms : F64.t;
  transcription_time_ms : F64.t;
  model_name : string
}.

(** The value-initialised result [{}]. *)
Definition empty_result : TranscriptionResult :=
  mkResult [] F64.zero F64.zero EmptyString.

Definition full_text (r : TranscriptionResult) : string :=
  fold_left (fun out s => String.append out (text s)) (segments r) EmptyString.

Definition real_time_factor (r : TranscriptionResult) : F64.t :=
  if F64.leb (audio_duration_ms r) F64.zero then F64.zero
  else F64.div (transcription_time_ms r) (audio_duration_ms r).

(* ================================================================== *)
(** ** performance_monitor.h *)

Module PerformanceMonitor.

Record t := mk {
  last_ : TranscriptionResult;
  total_ : Z;
  rtf_sum_ : F64.t
}.

Definition initial : t := mk empty_result 0 F64.zero.

Definition record (m : t) (r : TranscriptionResult) : t :=
  mk r (total_ m + 1) (F64.add (rtf_sum_ m) (real_time_factor r)).

End PerformanceMonitor.

(* ================================================================== *)
(** ** settings.h (the fields the modelled code reads) *)

Inductive OutputMode := type_mode | paste_mode.
Inductive TranscriptionMode := buffered | continuous.

Record Settings := mkSettings {
  no_context : bool;
  initial_prompt : string;
  output_mode : OutputMode;
  type_speed_ms : Z;
  restore_clipboard : bool;
  keep_mic_warm : bool;
  transcription_mode : TranscriptionMode
}.

Definition default_settings : Settings :=
  mkSettings true EmptyString type_mode 5 true true continuous.

(* ================================================================== *)
(** ** whisper_context.h / whisper_context.cpp *)

Module WhisperContext.

(** What [transcribe] decides about the recognizer parameters; every
    other parameter is copied from the settings unchanged. *)
Record params := mkParams {
  p_no_context : bool;
  p_initial_prompt : option string
}.

(** What one [whisper_full] run reports back: its return code, the
    segments it then exposes (text pointer, t0 and t1 in units of 10 ms)
    and the wall-clock time the call took, in milliseconds. *)
Record run := mkRun {
  status : Z;
  raw_segments : list (option string * Z * Z);
  elapsed_ms : F64.t
}.

(** The recognizer itself is opaque. *)
Definition recognizer := params -> list F32.t -> run.

Record t := mk {
  settings_ : Settings;
  model_name_ : string
}.

Definition make_params (c : t) (context_prompt : option string) : params :=
  mkParams
    (match context_prompt with None => no_context (settings_ c) | Some _ => false end)
    (match context_prompt with
     | Some p => Some p
     | None => if Str.empty (initial_prompt (settings_ c)) then None
               else Some (initial_prompt (settings_ c))
     end).

Definition segment_of_raw (r : option string * Z * Z) : TranscriptionSegment :=
  let '(txt, t0, t1) := r in
  mkSegment (match txt with Some s => s | None => EmptyString end)
            (t0 * 10) (t1 * 10).

Definition transcribe (whisper_full : recognizer) (c : t)
           (samples : list F32.t) (context_prompt : option string)
  : TranscriptionResult :=
  let r := whisper_full (make_params c context_prompt) samples in
  let audio_ms := F64.div (F64.of_Z (Z.of_nat (List.length samples))) (F64.of_Z 16) in
  if negb (status r =? 0)
  then mkResult [] audio_ms (elapsed_ms r) (model_name_ c)
  else mkResult (List.map segment_of_raw (raw_segments r))
                audio_ms (elapsed_ms r) (model_name_ c).

End WhisperContext.

(* ================================================================== *)
(** ** transcription_pipeline.h / transcription_pipeline.cpp *)

Module Pipeline.

Local Open Scope string_scope.
Local Open Scope Z_scope.

Definition HALLUCINATION_PATTERNS : list string :=
  [ "thank you"; "thanks for watching"; "thanks for listening";
    "please subscribe"; "like and subscribe"; "see you next time";
    "bye bye"; "goodbye"; "the end" ].

Definition MAX_CHUNK_SAMPLES : Z := 480000.
Definition MIN_SAMPLES : Z := 8000.
Definition CONTINUOUS_MIN_SAMPLES : Z := 24000.

(** [static_cast<int>(n)] for a [size_t] [n], 32-bit two's complement. *)
Definition int_of_size_t (n : Z) : Z := (n + 2 ^ 31) mod 2 ^ 32 - 2 ^ 31.

(** What the pipeline does to the outside world, in order.  The two
    hooks are optional in the code ([if (on_transcription_start) ...]);
    the log records the points at which an installed hook is called. *)
Inductive event :=
| EvTranscriptionStart                      (* on_transcription_start hook *)
| EvTranscriptionEnd                        (* on_transcription_end hook *)
| EvRecognize (samples : list F32.t) (prompt : option string)
                                            (* ctx_->transcribe(samples, prompt) *)
| EvType (text : string) (delay_ms : Z).    (* TextOutput::type *)

Record t := mk {
  audio_ : AudioEngine.t;
  perf_ : PerformanceMonitor.t;
  settings_ : Settings;
  ctx_ : option WhisperContext.t;
  current_model_ : option string;           (* models_.current() name *)
  last_context_text_ : string;
  recording_ : bool;
  transcribing_ : bool;
  did_output_ : bool;
  continuous_running_ : bool;
  silence_frame_count_ : Z;
  log : list event
}.

Definition initial : t :=
  mk AudioEngine.initial PerformanceMonitor.initial default_settings
     None None "" false false false false 0 [].

Definition set_audio (x : AudioEngine.t) (p : t) : t :=
  mk x (perf_ p) (settings_ p) (ctx_ p) (current_model_ p)
     (last_context_text_ p) (recording_ p) (transcribing_ p) (did_output_ p)
     (continuous_running_ p) (silence_frame_count_ p) (log p).
Definition set_perf (x : PerformanceMonitor.t) (p : t) : t :=
  mk (audio_ p) x (settings_ p) (ctx_ p) (current_model_ p)
     (last_context_text_ p) (recording_ p) (transcribing_ p) (did_output_ p)
     (continuous_running_ p) (silence_frame_count_ p) (log p).
Definition set_last_context_text (x : string) (p : t) : t :=
  mk (audio_ p) (perf_ p) (settings_ p) (ctx_ p) (current_model_ p)
     x (recording_ p) (transcribing_ p) (did_output_ p)
     (continuous_running_ p) (silence_frame_count_ p) (log p).
Definition set_recording (x : bool) (p : t) : t :=
  mk (audio_ p) (perf_ p) (settings_ p) (ctx_ p) (current_model_ p)
     (last_context_text_ p) x (transcribing_ p) (did_output_ p)
     (continuous_running_ p) (silence_frame_count_ p) (log p).
Definition set_transcribing (x : bool) (p : t) : t :=
  mk (audio_ p) (perf_ p) (settings_ p) (ctx_ p) (current_model_ p)
     (last_context_text_ p) (recording_ p) x (did_output_ p)
     (continuous_running_ p) (silence_frame_count_ p) (log p).
Definition set_did_output (x : bool) (p : t) : t :=
  mk (audio_ p) (perf_ p) (settings_ p) (ctx_ p) (current_model_ p)
     (last_context_text_ p) (recording_ p) (transcribing_ p) x
     (continuous_running_ p) (silence_frame_count_ p) (log p).
Definition set_continuous_running (x : bool) (p : t) : t :=
  mk (audio_ p) (perf_ p) (settings_ p) (ctx_ p) (current_model_ p)
     (last_context_text_ p) (recording_ p) (transcribing_ p) (did_output_ p)
     x (silence_frame_count_ p) (log p).
Definition set_silence_frame_count (x : Z) (p : t) : t :=
  mk (audio_ p) (perf_ p) (settings_ p) (ctx_ p) (current_model_ p)
     (last_context_text_ p) (recording_ p) (transcribing_ p) (did_output_ p)
     (continuous_running_ p) x (log p).
Definition emit (e : event) (p : t) : t :=
  mk (audio_ p) (perf_ p) (settings_ p) (ctx_ p) (current_model_ p)
     (last_context_text_ p) (recording_ p) (transcribing_ p) (did_output_ p)
     (continuous_running_ p) (silence_frame_count_ p) (log p ++ [e])%list.

Definition is_hallucination (text : string) : bool :=
  let lower := Str.strip (Str.map Str.tolower text) in
  if Str.size lower <? 3 then true
  else existsb (fun pattern =>
                  match Str.find lower pattern with
                  | Some _ => true
                  | None => false
                  end) HALLUCINATION_PATTERNS.

(** Both output modes end in [TextOutput::type]; [paste] uses the
    default delay of 5 ms. *)
Definition output_text (p : t) (text : string) : t :=
  let p1 := set_did_output true p in
  match output_mode (settings_ p1) with
  | type_mode => emit (EvType text (type_speed_ms (settings_ p1))) p1
  | paste_mode => emit (EvType text 5) p1
  end.

(** [static_cast<int64_t>(static_cast<double>(offset) / 16.0)].  The
    conversion is defined for every offset the loop produces (see
    [offset_ms_chunk]); 0 stands for the undefined case. *)
Definition offset_ms (offset : Z) : Z :=
  match F64.to_int64 (F64.div (F64.of_Z offset) (F64.of_Z 16)) with
  | Some v => v
  | None => 0
  end.

Definition rebase (off_ms : Z) (seg : TranscriptionSegment) : TranscriptionSegment :=
  mkSegment (text seg) (start_time seg + off_ms) (end_time seg + off_ms).

Section WithRecognizer.

Variable whisper_full : WhisperContext.recognizer.

(** The chunk loop of [transcribe_chunked]: [rest] is the part of the
    samples from [offset] on.  Every pass consumes at least one
    sample, so a [fuel] of the number of samples always suffices.
    Returns the collected segments and the updated log. *)
Fixpoint chunk_loop (fuel : nat) (c : WhisperContext.t) (offset : Z)
         (rest : list F32.t) (all_segments : list TranscriptionSegment)
         (lg : list event) : list TranscriptionSegment * list event :=
  match rest, fuel with
  | [], _ => (all_segments, lg)
  | _, O => (all_segments, lg)
  | _, S fuel' =>
      let n := Z.to_nat (Z.min MAX_CHUNK_SAMPLES (Z.of_nat (List.length rest))) in
      let chunk := firstn n rest in
      let chunk_result := WhisperContext.transcribe whisper_full c chunk None in
      let off := offset_ms offset in
      chunk_loop fuel' c (offset + Z.of_nat n) (skipn n rest)
                 (all_segments ++ List.map (rebase off) (segments chunk_result))%list
                 (lg ++ [EvRecognize chunk None])%list
  end.

(** [clock_ms] is the elapsed wall-clock time measured around the
    loop. *)
Definition transcribe_chunked (clock_ms : F64.t) (p : t) (c : WhisperContext.t)
           (samples : list F32.t) : t * TranscriptionResult :=
  let total_audio_ms :=
    F64.div (F64.of_Z (Z.of_nat (List.length samples))) (F64.of_Z 16) in
  let '(all_segments, lg) :=
    chunk_loop (List.length samples) c 0 samples [] (log p) in
  let name := match current_model_ p with Some n => n | None => "unknown" end in
  (mk (audio_ p) (perf_ p) (settings_ p) (ctx_ p) (current_model_ p)
      (last_context_text_ p) (recording_ p) (transcribing_ p) (did_output_ p)
      (continuous_running_ p) (silence_frame_count_ p) lg,
   mkResult all_segments total_audio_ms clock_ms name).

Definition transcribe_and_output (clock_ms : F64.t) (p : t) (samples : list F32.t)
  : t * TranscriptionResult :=
  match ctx_ p with
  | None => (p, empty_result)
  | Some c =>
      let p1 := emit EvTranscriptionStart (set_transcribing true p) in
      let '(p2, result) :=
        if int_of_size_t (Z.of_nat (List.length samples)) >? MAX_CHUNK_SAMPLES
        then transcribe_chunked clock_ms p1 c samples
        else (emit (EvRecognize samples None) p1,
              WhisperContext.transcribe whisper_full c samples None) in
      let p3 := set_transcribing false
                  (set_perf (PerformanceMonitor.record (perf_ p2) result) p2) in
      let text := Str.strip (full_text result) in
      let p4 := if Str.empty text then p3 else output_text p3 text in
      (emit EvTranscriptionEnd p4, result)
  end.

(** The monitor thread is joined inside [stop_continuous_monitor];
    in this sequential model only the flag changes. *)
Definition start_continuous_monitor (p : t) : t :=
  set_continuous_running true (set_silence_frame_count 0 p).

Definition stop_continuous_monitor (p : t) : t :=
  set_continuous_running false p.

Definition start_recording (dev_ok : bool) (p : t) : t :=
  if recording_ p then p
  else
    let p1 := set_did_output false (set_last_context_text "" p) in
    let p2 := set_audio (AudioEngine.start_recording dev_ok (audio_ p1)) p1 in
    let p3 := set_recording true p2 in
    match transcription_mode (settings_ p3) with
    | continuous => start_continuous_monitor p3
    | buffered => p3
    end.

(** No result stands for undefined behaviour inside the resampler. *)
Definition stop_recording_and_transcribe (clock_ms : F64.t) (p : t)
  : option (t * TranscriptionResult) :=
  if negb (recording_ p) then Some (p, empty_result)
  else
    let p1 := stop_continuous_monitor p in
    match AudioEngine.stop_recording (audio_ p1) with
    | None => None
    | Some (a, samples) =>
        let a1 := if negb (keep_mic_warm (settings_ p1))
                  then AudioEngine.release a else a in
        let p2 := set_recording false (set_audio a1 p1) in
        if int_of_size_t (Z.of_nat (List.length samples)) <? MIN_SAMPLES
        then Some (p2, empty_result)
        else Some (transcribe_and_output clock_ms p2 samples)
    end.

(** The context hint of the next recognizer call. *)
Definition next_prompt (context : string) : option string :=
  if Str.empty context then None
  else
    let start := if Str.size context >? 200 then Str.size context - 200 else 0 in
    Some (Str.substr context (Z.to_nat start)).

(** The rolling context after an accepted text. *)
Definition commit_context (context text : string) : string :=
  let c := context ++ (" " ++ text) in
  if Str.size c >? 500 then Str.substr c (Z.to_nat (Str.size c - 300)) else c.

(** What the capture thread did since the previous pass of the
    monitor loop: the samples it appended to the ring buffer and the
    [is_speaking] flag the detector now shows. *)
Record tick := mkTick {
  captured : list F32.t;
  speaking_now : bool
}.

Definition apply_tick (tk : tick) (a : AudioEngine.t) : AudioEngine.t :=
  AudioEngine.mk (AudioEngine.pa_ a)
    (VAD.set_is_speaking (speaking_now tk) (AudioEngine.vad_ a))
    (RingBuffer.append (AudioEngine.buffer_ a) (captured tk))
    (AudioEngine.hardware_sr_ a) (AudioEngine.running_ a)
    (AudioEngine.collecting_ a).

(** The second half of a pass of [continuous_loop], from
    [transcribing_ = true] on: the recognizer call with the context hint,
    the filter, and the commit of an accepted text. *)
Definition transcribe_flush (c : WhisperContext.t) (resampled : list F32.t) (p : t) : t :=
  let p := emit EvTranscriptionStart (set_transcribing true p) in
  let prompt := next_prompt (last_context_text_ p) in
  let result := WhisperContext.transcribe whisper_full c resampled prompt in
  let p := set_transcribing false (emit (EvRecognize resampled prompt) p) in
  let text := Str.strip (full_text result) in
  if Str.empty text || is_hallucination text
  then emit EvTranscriptionEnd p
  else
    let p := set_last_context_text
               (commit_context (last_context_text_ p) text) p in
    let p := set_perf (PerformanceMonitor.record (perf_ p) result) p in
    let p := output_text p (text ++ " ") in
    emit EvTranscriptionEnd p.

(** One pass of the body of [continuous_loop], after the sleep and
    with [continuous_running_] still set.  No result stands for
    undefined behaviour in a float-to-integer conversion or in the
    resampler. *)
Definition continuous_iteration (tk : tick) (p0 : t) : option t :=
  let p := set_audio (apply_tick tk (audio_ p0)) p0 in
  let vad := AudioEngine.vad_ (audio_ p) in
  let buf_count := RingBuffer.count (AudioEngine.buffer_ (audio_ p)) in
  let p := if VAD.is_speaking vad
           then set_silence_frame_count 0 p
           else set_silence_frame_count (silence_frame_count_ p + 1) p in
  let hw := AudioEngine.hardware_sr_ (audio_ p) in
  let pause_detected := (buf_count >? 0) && (silence_frame_count_ p >=? 3) in
  match F64.to_size_t hw with
  | None => None
  | Some hw_n =>
    let buffer_full := buf_count >? (hw_n * 25) mod 2 ^ 64 in
    if (negb pause_detected && negb buffer_full) || transcribing_ p then Some p
    else
      match F64.to_size_t
              (F64.div (F64.mul (F64.of_Z CONTINUOUS_MIN_SAMPLES) hw)
                       (F64.of_Z 16000)) with
      | None => None
      | Some min_raw =>
        if buf_count <? min_raw then Some p
        else
          let '(raw, buf) := RingBuffer.drain (AudioEngine.buffer_ (audio_ p)) in
          let a := audio_ p in
          let p := set_audio
                     (AudioEngine.mk (AudioEngine.pa_ a) (AudioEngine.vad_ a) buf
                        (AudioEngine.hardware_sr_ a) (AudioEngine.running_ a)
                        (AudioEngine.collecting_ a)) p in
          match AudioEngine.resample_public (audio_ p) raw with
          | None => None
          | Some resampled =>
            match ctx_ p with
            | None => Some p
            | Some c => Some (transcribe_flush c resampled p)
            end
          end
      end
  end.

(** Passes of the monitor loop, one per tick, for as long as
    [continuous_running_] is set. *)
Fixpoint continuous_loop (tks : list tick) (p : t) : option t :=
  match tks with
  | [] => Some p
  | tk :: tks' =>
      if negb (continuous_running_ p) then Some p
      else
        match continuous_iteration tk p with
        | None => None
        | Some p' => continuous_loop tks' p'
        end
  end.

End WithRecognizer.

End Pipeline.

(* ================================================================== *)
(** ** audio_engine.cpp: the capture thread *)
Module Capture.
Import AudioEngine.

(** The number of samples of one read. *)
Definition FRAME : Z := 4096.

(** [static_cast<int>(x)] for a double [x]: defined when the truncated
    value fits 32 bits, undefined behaviour (no result) otherwise. *)
Definition int_of_double (x : F64.t) : option Z :=
  match F64.trunc x with
  | Some v => if (- 2 ^ 31 <=? v) && (v <? 2 ^ 31) then Some v else None
  | None => None
  end.

(** [std::min(1.0f, rms)]: [rms] when [rms < 1.0f], else [1.0f]. *)
Definition min_one (rms : F32.t) : F32.t :=
  if F32.ltb rms F32.one then rms else F32.one.

(** The level stored in [audio_level_] for the samples of one read. *)
Definition level (buf : list F32.t) : F32.t :=
  let sum_sq := fold_left (fun s x => F32.add s (F32.mul x x)) buf F32.zero in
  min_one (F32.sqrt (F32.div sum_sq (F32.of_Z FRAME))).

(** One pass of the body of [capture_loop] after a successful read of
    [buf] (FRAME samples): the new engine and the level stored.  No
    result stands for undefined behaviour in the conversion of the rate
    or for a detector loop that does not end. *)
Definition capture_pass (buf : list F32.t) (a : t) : option (t * F32.t) :=
  let lvl := level buf in
  if negb (collecting_ a) then Some (a, lvl)
  else
    match int_of_double (hardware_sr_ a) with
    | None => None
    | Some rate =>
        match VAD.process (List.length buf) (vad_ a) buf rate with
        | None => None
        | Some (v, filtered) =>
            let b := if is_nil filtered then buffer_ a
                     else RingBuffer.append (buffer_ a) filtered in
            Some (mk (pa_ a) v b (hardware_sr_ a) (running_ a) (collecting_ a), lvl)
        end
    end.

(** [capture_loop] over the reads that succeed, for as long as
    [running_] is set. *)
Fixpoint capture_loop (bufs : list (list F32.t)) (a : t) : option t :=
  match bufs with
  | [] => Some a
  | buf :: bufs' =>
      if negb (running_ a) then Some a
      else
        match capture_pass buf a with
        | None => None
        | Some (a', _) => capture_loop bufs' a'
        end
  end.

End Capture.

(* ================================================================== *)
(** ** transcription_pipeline.cpp: shutdown *)
Module PipelineOps.
Import Pipeline.

Definition set_ctx (x : option WhisperContext.t) (p : t) : t :=
  mk (audio_ p) (perf_ p) (settings_ p) x (current_model_ p)
     (last_context_text_ p) (recording_ p) (transcribing_ p) (did_output_ p)
     (continuous_running_ p) (silence_frame_count_ p) (log p).

(** [shutdown]: the monitor is stopped, the model released, the capture
    stream closed. *)
Definition shutdown (p : t) : t :=
  let p1 := stop_continuous_monitor p in
  let p2 := set_ctx None p1 in
  set_audio (AudioEngine.release (audio_ p2)) p2.

End PipelineOps.

(* ================================================================== *)
(** ** hotkey_manager.h / hotkey_manager.cpp: the event loop *)
Module HotkeyManager.

Record t := mk {
  primary_keycode_ : Z;
  send_keycode_ : Z;
  key_down_ : bool;
  active_was_send_ : bool
}.





End HotkeyManager.

(* ================================================================== *)
(** ** settings.h: the thread count *)
Module SettingsFns.


End SettingsFns.

(* ================================================================== *)
(** ** settings.h / settings.cpp: the settings file *)
Module SettingsJson.

Local Open Scope string_scope.

Inductive SamplingStrategy := greedy | beam_search.

(** [struct Settings], every field. *)
Record t := mk {
  strategy : SamplingStrategy;
  temperature : F32.t;
  best_of : Z;
  beam_size : Z;
  language : string;
  translate : bool;
  thread_count : Z;
  use_gpu : bool;
  flash_attention : bool;
  no_context : bool;
  single_segment : bool;
  no_timestamps : bool;
  token_timestamps : bool;
  suppress_blank : bool;
  suppress_non_speech_tokens : bool;
  initial_prompt : string;
  entropy_threshold : F32.t;
  logprob_threshold : F32.t;
  no_speech_threshold : F32.t;
  vad_enabled : bool;
  vad_speech_threshold : F32.t;
  vad_silence_threshold : F32.t;
  vad_min_speech_ms : Z;
  vad_min_silence_ms : Z;
  vad_pre_padding_ms : Z;
  vad_post_padding_ms : Z;
  output_mode : OutputMode;
  type_speed_ms : Z;
  restore_clipboard : bool;
  send_return_delay_ms : Z;
  hotkey_keysym : Z;
  send_hotkey_keysym : Z;
  keep_mic_warm : bool;
  transcription_mode : TranscriptionMode;
  release_delay_ms : Z;
  launch_at_login : bool
}.

(** The literals 2.4f, -1.0f, 0.6f, 0.007f and 0.003f: the binary32
    values nearest to the decimal fractions. *)
Definition lit_2_4 : F32.t := Eval vm_compute in F32.div (F32.of_Z 24) (F32.of_Z 10).
Definition lit_m1 : F32.t := Eval vm_compute in F32.of_Z (-1).
Definition lit_0_6 : F32.t := Eval vm_compute in F32.div (F32.of_Z 6) (F32.of_Z 10).
Definition lit_0_007 : F32.t := Eval vm_compute in F32.div (F32.of_Z 7) (F32.of_Z 1000).
Definition lit_0_003 : F32.t := Eval vm_compute in F32.div (F32.of_Z 3) (F32.of_Z 1000).

(** The member initialisers of settings.h. *)
Definition defaults : t :=
  mk greedy F32.zero 5 5 "en" false 0 true true
     true false false false true true ""
     lit_2_4 lit_m1 lit_0_6
     true lit_0_007 lit_0_003
     30 600 200 300
     type_mode 5 true 200
     65481 65480 true
     continuous 300 false.

Section WithJson.

(** The JSON library is used through its interface only: a type of
    values, what assigning a C++ value to [j[k]] stores, and what
    [get_to] reads back (no result when it throws). *)
Variable value : Type.
Variable of_string : string -> value.
Variable of_bool : bool -> value.
Variable of_int : Z -> value.
Variable of_uint : Z -> value.
Variable of_float : F32.t -> value.
Variable get_string : value -> option string.
Variable get_bool : value -> option bool.
Variable get_int : value -> option Z.
Variable get_uint : value -> option Z.
Variable get_float : value -> option F32.t.

(** A JSON object: its keys with their values, the newest entry of a
    key first. *)
Definition object := list (string * value).

(** [j.contains(k)] and [j.at(k)]. *)
Fixpoint lookup (k : string) (j : object) : option value :=
  match j with
  | [] => None
  | (k', v) :: j' => if String.eqb k k' then Some v else lookup k j'
  end.

(** [j[k] = v]. *)
Definition set (k : string) (v : value) (j : object) : object := (k, v) :: j.

(** The lambda [get] of [load]: [if (j.contains(k)) j.at(k).get_to(v)],
    [v] holding [dflt] before.  No result when [get_to] throws. *)
Definition get {T : Type} (conv : value -> option T) (j : object) (k : string)
           (dflt : T) : option T :=
  match lookup k j with
  | None => Some dflt
  | Some v => conv v
  end.

Notation "x <- e ;; f" :=
  (match e with Some x => f | None => None end)
    (at level 61, e at next level, right associativity).

(** [Settings::load].  [file] is what the settings file holds: nothing
    when it cannot be opened or parsed, else the object parsed (an object
    with no keys stands for a JSON value that is not an object).  No
    result when a [get_to] throws. *)
Definition load (file : option object) : option t :=
  match file with
  | None => Some defaults
  | Some j =>
      let s := defaults in
      strat <- get get_string j "strategy" "" ;;
      temperature' <- get get_float j "temperature" (temperature s) ;;
      best_of' <- get get_int j "best_of" (best_of s) ;;
      beam_size' <- get get_int j "beam_size" (beam_size s) ;;
      language' <- get get_string j "language" (language s) ;;
      translate' <- get get_bool j "translate" (translate s) ;;
      thread_count' <- get get_int j "thread_count" (thread_count s) ;;
      use_gpu' <- get get_bool j "use_gpu" (use_gpu s) ;;
      flash_attention' <- get get_bool j "flash_attention" (flash_attention s) ;;
      no_context' <- get get_bool j "no_context" (no_context s) ;;
      single_segment' <- get get_bool j "single_segment" (single_segment s) ;;
      no_timestamps' <- get get_bool j "no_timestamps" (no_timestamps s) ;;
      token_timestamps' <- get get_bool j "token_timestamps" (token_timestamps s) ;;
      suppress_blank' <- get get_bool j "suppress_blank" (suppress_blank s) ;;
      suppress_nst' <- get get_bool j "suppress_non_speech_tokens"
                           (suppress_non_speech_tokens s) ;;
      initial_prompt' <- get get_string j "initial_prompt" (initial_prompt s) ;;
      entropy' <- get get_float j "entropy_threshold" (entropy_threshold s) ;;
      logprob' <- get get_float j "logprob_threshold" (logprob_threshold s) ;;
      no_speech' <- get get_float j "no_speech_threshold" (no_speech_threshold s) ;;
      vad_enabled' <- get get_bool j "vad_enabled" (vad_enabled s) ;;
      vad_speech' <- get get_float j "vad_speech_threshold" (vad_speech_threshold s) ;;
      vad_silence' <- get get_float j "vad_silence_threshold" (vad_silence_threshold s) ;;
      vad_min_speech' <- get get_int j "vad_min_speech_ms" (vad_min_speech_ms s) ;;
      vad_min_silence' <- get get_int j "vad_min_silence_ms" (vad_min_silence_ms s) ;;
      vad_pre' <- get get_int j "vad_pre_padding_ms" (vad_pre_padding_ms s) ;;
      vad_post' <- get get_int j "vad_post_padding_ms" (vad_post_padding_ms s) ;;
      mode <- get get_string j "output_mode" "" ;;
      type_speed' <- get get_int j "type_speed_ms" (type_speed_ms s) ;;
      restore' <- get get_bool j "restore_clipboard" (restore_clipboard s) ;;
      send_return' <- get get_int j "send_return_delay_ms" (send_return_delay_ms s) ;;
      hotkey' <- get get_uint j "hotkey_keysym" (hotkey_keysym s) ;;
      send_hotkey' <- get get_uint j "send_hotkey_keysym" (send_hotkey_keysym s) ;;
      keep_warm' <- get get_bool j "keep_mic_warm" (keep_mic_warm s) ;;
      tmode <- get get_string j "transcription_mode" "" ;;
      release' <- get get_int j "release_delay_ms" (release_delay_ms s) ;;
      launch' <- get get_bool j "launch_at_login" (launch_at_login s) ;;
      Some (mk (if String.eqb strat "beam_search" then beam_search else strategy s)
               temperature' best_of' beam_size' language' translate'
               thread_count' use_gpu' flash_attention'
               no_context' single_segment' no_timestamps' token_timestamps'
               suppress_blank' suppress_nst' initial_prompt'
               entropy' logprob' no_speech'
               vad_enabled' vad_speech' vad_silence'
               vad_min_speech' vad_min_silence' vad_pre' vad_post'
               (if String.eqb mode "type" then type_mode else output_mode s)
               type_speed' restore' send_return'
               hotkey' send_hotkey' keep_warm'
               (if String.eqb tmode "buffered" then buffered else transcription_mode s)
               release' launch')
  end.

(** The object [Settings::save] writes. *)
Definition save (s : t) : object :=
  let j := [] in
  let j := set "strategy"
             (of_string (match strategy s with
                         | beam_search => "beam_search"
                         | greedy => "greedy"
                         end)) j in
  let j := set "temperature" (of_float (temperature s)) j in
  let j := set "best_of" (of_int (best_of s)) j in
  let j := set "beam_size" (of_int (beam_size s)) j in
  let j := set "language" (of_string (language s)) j in
  let j := set "translate" (of_bool (translate s)) j in
  let j := set "thread_count" (of_int (thread_count s)) j in
  let j := set "use_gpu" (of_bool (use_gpu s)) j in
  let j := set "flash_attention" (of_bool (flash_attention s)) j in
  let j := set "no_context" (of_bool (no_context s)) j in
  let j := set "single_segment" (of_bool (single_segment s)) j in
  let j := set "no_timestamps" (of_bool (no_timestamps s)) j in
  let j := set "token_timestamps" (of_bool (token_timestamps s)) j in
  let j := set "suppress_blank" (of_bool (suppress_blank s)) j in
  let j := set "suppress_non_speech_tokens"
             (of_bool (suppress_non_speech_tokens s)) j in
  let j := set "initial_prompt" (of_string (initial_prompt s)) j in
  let j := set "entropy_threshold" (of_float (entropy_threshold s)) j in
  let j := set "logprob_threshold" (of_float (logprob_threshold s)) j in
  let j := set "no_speech_threshold" (of_float (no_speech_threshold s)) j in
  let j := set "vad_enabled" (of_bool (vad_enabled s)) j in
  let j := set "vad_speech_threshold" (of_float (vad_speech_threshold s)) j in
  let j := set "vad_silence_threshold" (of_float (vad_silence_threshold s)) j in
  let j := set "vad_min_speech_ms" (of_int (vad_min_speech_ms s)) j in
  let j := set "vad_min_silence_ms" (of_int (vad_min_silence_ms s)) j in
  let j := set "vad_pre_padding_ms" (of_int (vad_pre_padding_ms s)) j in
  let j := set "vad_post_padding_ms" (of_int (vad_post_padding_ms s)) j in
  let j := set "output_mode"
             (of_string (match output_mode s with
                         | type_mode => "type"
                         | paste_mode => "paste"
                         end)) j in
  let j := set "type_speed_ms" (of_int (type_speed_ms s)) j in
  let j := set "restore_clipboard" (of_bool (restore_clipboard s)) j in
  let j := set "send_return_delay_ms" (of_int (send_return_delay_ms s)) j in
  let j := set "hotkey_keysym" (of_uint (hotkey_keysym s)) j in
  let j := set "send_hotkey_keysym" (of_uint (send_hotkey_keysym s)) j in
  let j := set "keep_mic_warm" (of_bool (keep_mic_warm s)) j in
  let j := set "transcription_mode"
             (of_string (match transcription_mode s with
                         | buffered => "buffered"
                         | continuous => "continuous"
                         end)) j in
  let j := set "release_delay_ms" (of_int (release_delay_ms s)) j in
  let j := set "launch_at_login" (of_bool (launch_at_login s)) j in
  j.

End WithJson.

End SettingsJson.

(* ================================================================== *)
(** ** transcription_pipeline.cpp: the detector's settings *)
Module VadSettings.

(** [apply_vad_settings], on the detector that [audio_.vad()] hands
    out: the switch, the two thresholds and the four durations are
    copied from the settings; the state and the private members stay. *)
Definition apply_vad_settings (s : SettingsJson.t) (v : VAD.t) : VAD.t :=
  VAD.mk (VAD.state v) (VAD.is_speaking v)
    (SettingsJson.vad_enabled s)
    (SettingsJson.vad_speech_threshold s) (SettingsJson.vad_silence_threshold s)
    (SettingsJson.vad_min_speech_ms s) (SettingsJson.vad_min_silence_ms s)
    (SettingsJson.vad_pre_padding_ms s) (SettingsJson.vad_post_padding_ms s)
    (VAD.active_sample_rate_ v)
    (VAD.pre_speech_buf_ v) (VAD.onset_buf_ v) (VAD.post_speech_buf_ v)
    (VAD.speech_sample_count_ v) (VAD.silence_sample_count_ v).

End VadSettings.

(* ================================================================== *)
(** ** Vocabulary of the stated properties *)

(** The last [n] elements of a list (all of it when it is shorter). *)
Definition keep_last {A : Type} (n : Z) (l : list A) : list A :=
  skipn (List.length l - Z.to_nat n) l.

Module VADSpec.
Import VAD.

(** Two detectors carry the same configuration. *)
Definition same_config (v v' : t) : Prop :=
  is_enabled v' = is_enabled v /\
  speech_threshold v' = speech_threshold v /\
  silence_threshold v' = silence_threshold v /\
  min_speech_duration_ms v' = min_speech_duration_ms v /\
  min_silence_duration_ms v' = min_silence_duration_ms v /\
  pre_speech_padding_ms v' = pre_speech_padding_ms v /\
  post_speech_padding_ms v' = post_speech_padding_ms v /\
  active_sample_rate_ v' = active_sample_rate_ v.

(** The frame's RMS lies strictly between the two thresholds. *)
Definition between (v : t) (frame : list F32.t) : Prop :=
  F32.ltb (silence_threshold v) (compute_rms frame) = true /\
  F32.ltb (compute_rms frame) (speech_threshold v) = true.

(** What the design document prescribes for a frame inside the band
    between the two thresholds, by entering state only: in silence the
    frame joins the pre-speech window; in speech onset the pending run is
    a false alarm and is merged back into the pre-speech window; in
    speaking the
    frame is emitted; in speech offset speech has resumed and the pending
    silence run and the frame are emitted. *)
Definition band_step (v : t) (frame output : list F32.t) : t * list F32.t :=
  match state v with
  | silence => (append_to_pre_speech v frame, output)
  | speech_onset =>
      (set_state silence
         (set_speech_sample_count 0
            (set_onset_buf []
               (append_to_pre_speech (append_to_pre_speech v (onset_buf_ v)) frame))),
       output)
  | speaking => (v, output ++ frame)
  | speech_offset =>
      (set_state speaking
         (set_silence_sample_count 0 (set_post_speech_buf [] v)),
       output ++ post_speech_buf_ v ++ frame)
  end.

(** A detector in speech offset at 1 kHz with a 2 ms silence
    confirmation and 1 ms of post padding, one silent sample pending. *)
Definition offset_example : t :=
  mk speech_offset true true (speech_threshold initial) (silence_threshold initial)
     60 2 200 1 1000 [] [] [F32.zero] 0 1.

(** The sample 0.005f: its RMS lies between the default thresholds. *)
Definition low_level : F32.t :=
  Eval vm_compute in F32.div (F32.of_Z 5) (F32.of_Z 1000).

(** The states a detector can rest in. *)
Definition settled (s : State) : Prop := s = silence \/ s = speaking.

End VADSpec.

Module StrSpec.

Local Open Scope string_scope.

(** Whitespace, as [isspace] has it in the C locale: space, horizontal
    tab, line feed, vertical tab, form feed and carriage return. *)
Definition is_whitespace (c : ascii) : bool :=
  let n := nat_of_ascii c in
  (n =? 32)%nat || ((9 <=? n)%nat && (n <=? 13)%nat).

(** Space and line feed, and nothing else. *)
Definition is_space_or_line_feed (c : ascii) : bool :=
  let n := nat_of_ascii c in
  (n =? 32)%nat || (n =? 10)%nat.

(** Every character of [s] is one that [blank] accepts. *)
Fixpoint all_blank (blank : ascii -> bool) (s : string) : bool :=
  match s with
  | EmptyString => true
  | String c s' => blank c && all_blank blank s'
  end.

(** [t] is [s] without the characters accepted by [blank] that surround
    it. *)
Definition trimmed_of (blank : ascii -> bool) (s t : string) : Prop :=
  exists l r,
    s = l ++ t ++ r /\ all_blank blank l = true /\ all_blank blank r = true /\
    (forall c, Str.front t = Some c -> blank c = false) /\
    (forall c, Str.back t = Some c -> blank c = false).

(** The number of characters of a UTF-8 text: its bytes that do not
    continue a character (those outside 0x80 to 0xBF). *)
Fixpoint characters (s : string) : nat :=
  match s with
  | EmptyString => O
  | String c s' =>
      let n := nat_of_ascii c in
      ((if (128 <=? n)%nat && (n <=? 191)%nat then 0 else 1) + characters s')%nat
  end.

(** [p] occurs in [s] as a substring. *)
Definition contains (s p : string) : Prop := exists a b, s = a ++ p ++ b.


(** Case folding of the 26 letters. *)
Fixpoint fold_with (uppers lowers : string) (c : ascii) : ascii :=
  match uppers, lowers with
  | String u uppers', String l lowers' =>
      if Ascii.eqb c u then l else fold_with uppers' lowers' c
  | _, _ => c
  end.

Definition fold_char : ascii -> ascii :=
  fold_with "ABCDEFGHIJKLMNOPQRSTUVWXYZ" "abcdefghijklmnopqrstuvwxyz".

Definition case_fold (s : string) : string := Str.map fold_char s.

(** The rule of the filter, for a choice of the characters that are
    trimmed and of the measure of a text: the case-folded, trimmed text
    measures less than 3 or contains a stock phrase. *)
Definition rejected_with (blank : ascii -> bool) (measure : string -> nat)
           (text : string) : Prop :=
  exists t,
    trimmed_of blank (case_fold text) t /\
    ((measure t < 3)%nat \/
     exists p, In p Pipeline.HALLUCINATION_PATTERNS /\ contains t p).

(** The filter as the design document words it: surrounding whitespace
    is trimmed and the length is counted in characters. *)
Definition rejected_as_stated (text : string) : Prop :=
  rejected_with is_whitespace characters text.

(** The filter with spaces and line feeds trimmed, and nothing else,
    and the length counted in bytes. *)
Definition rejected (text : string) : Prop :=
  rejected_with is_space_or_line_feed String.length text.

(** A tab before "ok"; "ok" before a carriage return; and the two
    characters "e-acute e-acute" in UTF-8, four bytes. *)
Definition tab_ok : string := String "009" "ok".
Definition ok_cr : string := "ok" ++ String "013" "".
Definition two_accents : string :=
  String "195" (String "169" (String "195" (String "169" ""))).

End StrSpec.

Module PipelineSpec.
Import Pipeline StrSpec.
Local Open Scope string_scope.

(** The context hints of the recognizer calls of a log, in order. *)
Fixpoint hints (evs : list event) : list (option string) :=
  match evs with
  | [] => []
  | EvRecognize _ h :: evs' => h :: hints evs'
  | _ :: evs' => hints evs'
  end.

(** The texts handed to the output collaborator, in order. *)
Fixpoint typed (evs : list event) : list string :=
  match evs with
  | [] => []
  | EvType t _ :: evs' => t :: typed evs'
  | _ :: evs' => typed evs'
  end.

(** The recognizer inputs of a log, in order. *)
Fixpoint recognized (evs : list event) : list (list F32.t) :=
  match evs with
  | [] => []
  | EvRecognize s _ :: evs' => s :: recognized evs'
  | _ :: evs' => recognized evs'
  end.

(** Reading a stretch of the log of a continuous session against a
    rolling context that starts as [ctx]: every recognizer call carries
    the hint computed from the context as it stands, every typed text
    (the committed text and its trailing space) is what the context
    advances by, and the context ends as [final]. *)
Fixpoint hints_follow (evs : list event) (ctx final : string) : Prop :=
  match evs with
  | [] => final = ctx
  | EvRecognize _ h :: evs' => h = next_prompt ctx /\ hints_follow evs' ctx final
  | EvType t _ :: evs' => hints_follow evs' (commit_context ctx (Str.pop_back t)) final
  | _ :: evs' => hints_follow evs' ctx final
  end.

(** What one pass of the monitor loop may add to the log, and what it
    does to the rolling context. *)
Definition pass_shape (p p' : t) : Prop :=
  (log p' = log p /\ last_context_text_ p' = last_context_text_ p) \/
  (exists samples,
     log p' = (log p ++ [EvTranscriptionStart;
                         EvRecognize samples (next_prompt (last_context_text_ p));
                         EvTranscriptionEnd])%list /\
     last_context_text_ p' = last_context_text_ p) \/
  (exists samples text delay,
     log p' = (log p ++ [EvTranscriptionStart;
                         EvRecognize samples (next_prompt (last_context_text_ p));
                         EvType (text ++ " ") delay;
                         EvTranscriptionEnd])%list /\
     last_context_text_ p' = commit_context (last_context_text_ p) text /\
     text <> "" /\ is_hallucination text = false).

(** A pipeline with a loaded model, for the examples. *)
Definition loaded : t :=
  mk AudioEngine.initial PerformanceMonitor.initial default_settings
     (Some (WhisperContext.mk default_settings "base")) (Some "base")
     "" false false false false 0 [].


(** A pipeline with a loaded model whose capture stream is open and
    already runs at the recognizer's 16 kHz. *)
Definition warm16 : t :=
  mk (AudioEngine.mk true VAD.initial RingBuffer.empty AudioEngine.rate_16000 true false)
     PerformanceMonitor.initial default_settings
     (Some (WhisperContext.mk default_settings "base")) (Some "base")
     "stale text of an earlier session" false false false false 0 [].

(** A recognizer that answers by the hint it is given. *)
Definition scripted : WhisperContext.recognizer :=
  fun params _ =>
    WhisperContext.mkRun 0
      [(Some (match WhisperContext.p_initial_prompt params with
              | None => " hello world"
              | Some " hello world" => " foo bar"
              | Some _ => " and so on"
              end), 0, 100)]
      F64.zero.

(** 1.5 s of captured silence followed by quiet ticks: the monitor
    flushes on the third non-speaking check. *)
Definition quiet_flush : list tick :=
  [mkTick (repeat F32.zero (Z.to_nat 24000)) false;
   mkTick [] false; mkTick [] false].

Definition option_string_dec (a b : option string) : {a = b} + {a <> b}.
Proof. decide equality. apply string_dec. Defined.

(** Evaluating a run of the monitor loop without writing the final
    state out: what is asked of its log and context is decided by
    computation. *)
Definition run_check (tks : list tick) (p : t)
           (hs : list (option string)) (ts : list string) (ctx : string) : bool :=
  match continuous_loop scripted tks p with
  | Some p' =>
      if list_eq_dec (option_string_dec) (hints (log p')) hs then
        if list_eq_dec string_dec (typed (log p')) ts then
          if string_dec (last_context_text_ p') ctx then true else false
        else false
      else false
  | None => false
  end.

(** A buffered-mode session that has collected three samples. *)
Definition short_take : t :=
  mk (AudioEngine.mk true VAD.initial
        (RingBuffer.mk [F32.one; F32.one; F32.one])
        AudioEngine.rate_48000 true true)
     PerformanceMonitor.initial
     (mkSettings true "" type_mode 5 true true buffered)
     (Some (WhisperContext.mk default_settings "base")) (Some "base")
     "" true false false false 0 [].

(** A recognizer whose every run fails. *)
Definition failing : WhisperContext.recognizer :=
  fun _ _ => WhisperContext.mkRun (-1) [] (F64.of_Z 7).

End PipelineSpec.

Module ChunkSpec.
Import Pipeline.

(** [l] cut into consecutive pieces of [n] elements, the last one
    possibly shorter; [fuel] bounds the number of pieces. *)
Fixpoint chunks_of (fuel n : nat) (l : list F32.t) : list (list F32.t) :=
  match l, fuel with
  | [], _ => []
  | _, O => []
  | _, S fuel' => firstn n l :: chunks_of fuel' n (skipn n l)
  end.

(** The chunks of a recording: pieces of [MAX_CHUNK_SAMPLES] samples. *)
Definition chunks (samples : list F32.t) : list (list F32.t) :=
  chunks_of (List.length samples) (Z.to_nat MAX_CHUNK_SAMPLES) samples.

(** Every chunk next to the sample offset it starts at. *)
Fixpoint with_offsets (offset : Z) (cs : list (list F32.t)) : list (Z * list F32.t) :=
  match cs with
  | [] => []
  | ch :: cs' => (offset, ch) :: with_offsets (offset + Z.of_nat (List.length ch)) cs'
  end.

(** One chunk transcribed on its own, with no context, and its segments
    moved by the chunk's offset converted to milliseconds. *)
Definition rebased_chunk (whisper : WhisperContext.recognizer) (c : WhisperContext.t)
           (oc : Z * list F32.t) : list TranscriptionSegment :=
  List.map (rebase (offset_ms (fst oc)))
           (segments (WhisperContext.transcribe whisper c (snd oc) None)).

Definition chunked_segments (whisper : WhisperContext.recognizer)
           (c : WhisperContext.t) (samples : list F32.t) : list TranscriptionSegment :=
  List.concat (List.map (rebased_chunk whisper c) (with_offsets 0 (chunks samples))).

(** For the one chunk [chunk] the recognizer reports segments in time
    order that lie inside the 30 s a chunk can span. *)
Definition timed (whisper : WhisperContext.recognizer) (c : WhisperContext.t)
           (chunk : list F32.t) : Prop :=
  let segs := segments (WhisperContext.transcribe whisper c chunk None) in
  Sorted Z.le (List.map start_time segs) /\
  Sorted Z.le (List.map end_time segs) /\
  Forall (fun s => 0 <= start_time s <= 30000 /\ 0 <= end_time s <= 30000) segs.

(** The recognizer does so for each chunk of the recording [samples];
    nothing is asked of it on any other input. *)
Definition well_timed (whisper : WhisperContext.recognizer) (c : WhisperContext.t)
           (samples : list F32.t) : Prop :=
  Forall (timed whisper c) (chunks samples).

(** A recognizer that places the single segment of a full chunk at
    35 s to 40 s, past the 30 s of audio it was given, and the segment of
    a shorter chunk at 0 s to 1 s. *)
Definition late : WhisperContext.recognizer :=
  fun _ samples =>
    WhisperContext.mkRun 0
      (if Z.of_nat (List.length samples) =? MAX_CHUNK_SAMPLES
       then [(Some "a"%string, 3500, 4000)]
       else [(Some "b"%string, 0, 100)])
      F64.zero.

(** A recognizer with one segment per call, spanning the audio it was
    given: from 0 to the length of its input (160 samples to a unit of
    10 ms).  On a chunk the segment ends within 30 s; on a longer input
    it would not. *)
Definition paced : WhisperContext.recognizer :=
  fun _ samples =>
    WhisperContext.mkRun 0
      [(Some "a"%string, 0, Z.of_nat (List.length samples) / 160)] F64.zero.

(** 30 s of audio and one sample more. *)
Definition long_audio : list F32.t := repeat F32.zero (Z.to_nat 480001).

(** The conversion of the offsets [k * MAX_CHUNK_SAMPLES], checked for
    [n] values of [k] from [k] on. *)
Fixpoint offset_table (k : Z) (n : nat) : bool :=
  match n with
  | O => true
  | S n' => (offset_ms (k * MAX_CHUNK_SAMPLES) =? 30000 * k)
            && offset_table (k + 1) n'
  end.

(** Blocks of times, the [j]-th inside the [j]-th 30 s window from
    window [k] on. *)
Fixpoint blocks_ok (k : Z) (bs : list (list Z)) : Prop :=
  match bs with
  | [] => True
  | b :: bs' =>
      StronglySorted Z.le b /\
      Forall (fun v => 30000 * k <= v <= 30000 * (k + 1)) b /\
      blocks_ok (k + 1) bs'
  end.

End ChunkSpec.

Module ResampleSpec.
Import AudioEngine.

(** Linear interpolation in single precision:
    [x0 * (1.0f - frac) + x1 * frac]. *)
Definition lerp (x0 x1 frac : F32.t) : F32.t :=
  F32.add (F32.mul x0 (F32.sub F32.one frac)) (F32.mul x1 frac).

(** [y] interpolates [input] at the fractional source index
    [i * ratio]: between the sample at the truncated index and the next
    one, the latter clamped to the last sample. *)
Definition lerp_at (input : list F32.t) (ratio : F64.t) (i : Z) (y : F32.t) : Prop :=
  exists idx0 x0 x1,
    F64.to_size_t (F64.mul (F64.of_Z i) ratio) = Some idx0 /\
    nth_error input (Z.to_nat idx0) = Some x0 /\
    nth_error input (Z.to_nat (Z.min (idx0 + 1) (len input - 1))) = Some x1 /\
    y = lerp x0 x1
          (F64.to_f32 (F64.sub (F64.mul (F64.of_Z i) ratio) (F64.of_Z idx0))).

(** The sample 0.1f. *)
Definition tenth : F32.t := S754_finite false 13421773 (-27).

(** The float just below 0.1f. *)
Definition tenth_pred : F32.t := S754_finite false 13421772 (-27).

(** [q] followed by [k] zero bits. *)
Definition shl (q : positive) (k : nat) : positive := Nat.iter k xO q.

(** The normal form of a positive integer below 2^53. *)
Definition norm (n : positive) : F64.t :=
  S754_finite false (shl n (Z.to_nat (53 - Zpos (digits2_pos n))))
              (Zpos (digits2_pos n) - 53).

End ResampleSpec.

(** [l1] is [l2] with some elements left out, the order kept. *)
Inductive subseq {A : Type} : list A -> list A -> Prop :=
| subseq_nil : subseq [] []
| subseq_skip (x : A) (l1 l2 : list A) : subseq l1 l2 -> subseq l1 (x :: l2)
| subseq_cons (x : A) (l1 l2 : list A) : subseq l1 l2 -> subseq (x :: l1) (x :: l2).

Module VADRun.
Import VAD.

(** The samples a detector holds back and may still emit: the
    pre-speech window in silence, the window and the onset run in speech
    onset, the pending silence in speech offset.  (Buffers a state does
    not read are overwritten or cleared before they are read again.) *)
Definition held (v : t) : list F32.t :=
  match state v with
  | silence => pre_speech_buf_ v
  | speech_onset => pre_speech_buf_ v ++ onset_buf_ v
  | speaking => []
  | speech_offset => post_speech_buf_ v
  end.

(** [rms >= speech_threshold], its negation (which a NaN satisfies), and
    [rms < silence_threshold]. *)
Definition loud (v : t) (frame : list F32.t) : Prop :=
  F32.geb (compute_rms frame) (speech_threshold v) = true.
Definition quiet (v : t) (frame : list F32.t) : Prop :=
  F32.geb (compute_rms frame) (speech_threshold v) = false.
Definition silent (v : t) (frame : list F32.t) : Prop :=
  F32.ltb (compute_rms frame) (silence_threshold v) = true.

(** A sample that is +0.0f or -0.0f. *)
Definition is_zero (x : F32.t) : Prop := exists s, x = S754_zero s.

(** [is_speaking] is set exactly in the states speaking and speech
    offset. *)
Definition flag_ok (v : t) : Prop :=
  is_speaking v = match state v with
                  | speaking | speech_offset => true
                  | _ => false
                  end.

(** The list is not empty. *)
Definition nonempty {A : Type} (l : list A) : bool :=
  match l with [] => false | _ => true end.

(** A 32-bit [int]. *)
Definition in_int (n : Z) : Prop := - 2 ^ 31 <= n < 2 ^ 31.

(** The settings of a detector suit the sample rate [rate]: each of the
    four products of a duration and the rate, which vad.h forms in
    [int], fits 32 bits, and the pre-speech padding is not negative (with
    a negative one the [erase] of [append_to_pre_speech] runs past the
    end of the vector). *)
Definition configured (v : t) (rate : Z) : Prop :=
  0 <= pre_speech_padding_ms v /\
  in_int (pre_speech_padding_ms v * rate) /\
  in_int (post_speech_padding_ms v * rate) /\
  in_int (min_speech_duration_ms v * rate) /\
  in_int (min_silence_duration_ms v * rate).

(** The private members of a detector leave room: the two counters,
    which are [int]s and grow by a frame at a time, lie below 2^30, and
    the three buffers, whose sizes are converted to [int], hold fewer
    than 2^29 samples each. *)
Definition roomy (v : t) : Prop :=
  0 <= speech_sample_count_ v < 2 ^ 30 /\
  0 <= silence_sample_count_ v < 2 ^ 30 /\
  len (pre_speech_buf_ v) < 2 ^ 29 /\
  len (onset_buf_ v) < 2 ^ 29 /\
  len (post_speech_buf_ v) < 2 ^ 29.

(** Both: this is where the detector of the model, which computes in
    unbounded integers, computes what the C++ computes in [int]. *)
Definition fits (v : t) (rate : Z) : Prop :=
  configured v rate /\ roomy v.

(** The frames of a run, [count] samples counted before it, up to and
    including the first with which the count reaches [limit]; all of
    them if it never does. *)
Fixpoint reaching (limit count : Z) (frames : list (list F32.t))
  : list (list F32.t) :=
  match frames with
  | [] => []
  | f :: fs =>
      if count + len f >=? limit then [f]
      else f :: reaching limit (count + len f) fs
  end.

(** What is pending of a run of silent frames when the end of speech is
    confirmed: the first frame, which opens the count and confirms
    nothing, and the following ones until the count reaches [limit]. *)
Definition pending_at_confirmation (limit : Z) (frames : list (list F32.t))
  : list (list F32.t) :=
  match frames with
  | [] => []
  | f :: fs => f :: reaching limit (len f) fs
  end.

(** A detector at 1 kHz in silence, with 2 ms confirmation times and
    1 ms of padding on either side: two samples confirm, one sample
    pads. *)
Definition tiny : t :=
  mk silence false true (speech_threshold initial) (silence_threshold initial)
     2 2 1 1 1000 [] [] [] 0 0.

(** The same detector with 5 ms of padding after the speech, more than
    the 2 ms of silence that end it; and that detector once it is
    speaking. *)
Definition wide : t :=
  mk silence false true (speech_threshold initial) (silence_threshold initial)
     2 2 1 5 1000 [] [] [] 0 0.
Definition wide_speaking : t :=
  mk speaking true true (speech_threshold initial) (silence_threshold initial)
     2 2 1 5 1000 [] [] [] 2 0.

(** A silent run of six samples, zeros of either sign, in frames of one,
    two and three. *)
Definition six_zeros : list (list F32.t) :=
  [[F32.zero]; [S754_zero true; F32.zero];
   [S754_zero true; S754_zero true; S754_zero true]].

End VADRun.

Module EngineSpec.
Import AudioEngine Capture.

(** What can happen to an engine: the calls of its interface, a stretch
    of the capture thread, and new detector settings written through the
    reference [vad()] hands out (by [apply_vad_settings], its only
    writer).  The steps are taken one after the other: a pass of the
    capture thread is one step and does not overlap a call.  (The code
    takes no lock around the test of [collecting_], the detector and the
    append; what is said of runs of steps is said of the executions in
    which a pass and a call do not interleave.) *)
Inductive op :=
| OpPrepare (dev_ok : bool)
| OpStart (dev_ok : bool)
| OpStop
| OpRelease
| OpCapture (bufs : list (list F32.t))
| OpVad (s : SettingsJson.t).

Definition apply_op (o : op) (a : t) : option t :=
  match o with
  | OpPrepare dev_ok => Some (prepare dev_ok a)
  | OpStart dev_ok => Some (start_recording dev_ok a)
  | OpStop => option_map fst (stop_recording a)
  | OpRelease => Some (release a)
  | OpCapture bufs => capture_loop bufs a
  | OpVad s => Some (mk (pa_ a) (VadSettings.apply_vad_settings s (vad_ a)) (buffer_ a)
                        (hardware_sr_ a) (running_ a) (collecting_ a))
  end.

Fixpoint run_ops (ops : list op) (a : t) : option t :=
  match ops with
  | [] => Some a
  | o :: ops' =>
      match apply_op o a with
      | None => None
      | Some a' => run_ops ops' a'
      end
  end.

(** Detector settings whose arithmetic stays inside [int] at the
    capture rate of 48 kHz, with a pre-speech padding that is not
    negative. *)
Definition sound (o : op) : Prop :=
  match o with
  | OpVad s => VADRun.configured (VadSettings.apply_vad_settings s VAD.initial) 48000
  | _ => True
  end.

(** The capture rate is 48 kHz and the capture thread runs exactly while
    the stream is open. *)
Definition steady (a : t) : Prop :=
  hardware_sr_ a = rate_48000 /\ running_ a = pa_ a.

(** The detector is switched on, or holds nothing back. *)
Definition tidy (v : VAD.t) : Prop :=
  VAD.is_enabled v = true \/ VADRun.held v = [].

(** One read of the capture thread, FRAME samples of 1.0. *)
Definition loud_read : list F32.t := repeat F32.one (Z.to_nat FRAME).

(** An engine between two sessions: the stream is open, two samples of
    an earlier session are left in the ring buffer and the detector still
    holds one sample back. *)
Definition used : t :=
  mk true (VAD.set_pre_speech_buf [VADSpec.low_level] VAD.initial)
     (RingBuffer.mk [F32.zero; F32.zero]) rate_48000 true false.

(** The settings are applied, the stream is opened, a session is begun
    and the capture thread reads once. *)
Definition one_read_session : list op :=
  [OpVad SettingsJson.defaults; OpPrepare true; OpStart true; OpCapture [loud_read]].

(** An engine with the detector switched off. *)
Definition plain : t :=
  mk false (VAD.mk VAD.silence false false
              (VAD.speech_threshold VAD.initial) (VAD.silence_threshold VAD.initial)
              60 600 200 300 16000 [] [] [] 0 0)
     RingBuffer.empty rate_48000 false false.

End EngineSpec.

Module MonitorSpec.
Import Pipeline.

(** The engine after the capture thread's contribution [tk], and the
    number of samples then waiting. *)
Definition waiting (tk : tick) (p : t) : Z :=
  RingBuffer.count (AudioEngine.buffer_ (apply_tick tk (audio_ p))).

(** The count of consecutive polls without speech, after this poll. *)
Definition polls_without_speech (tk : tick) (p : t) : Z :=
  if speaking_now tk then 0 else silence_frame_count_ p + 1.

(** A pause is detected, or more than 25 s of audio are waiting. *)
Definition due (tk : tick) (p : t) : bool :=
  ((waiting tk p >? 0) && (polls_without_speech tk p >=? 3))
  || (waiting tk p >? 1200000).

(** The pipeline after the bookkeeping of a poll that does not flush. *)
Definition polled (tk : tick) (p : t) : t :=
  set_silence_frame_count (polls_without_speech tk p)
    (set_audio (apply_tick tk (audio_ p)) p).

(** The same with the ring buffer drained. *)
Definition drained (tk : tick) (p : t) : t :=
  let q := polled tk p in
  let a := audio_ q in
  set_audio (AudioEngine.mk (AudioEngine.pa_ a) (AudioEngine.vad_ a) RingBuffer.empty
               (AudioEngine.hardware_sr_ a) (AudioEngine.running_ a)
               (AudioEngine.collecting_ a)) q.

(** The samples captured by a run of ticks. *)
Definition captured_total (tks : list tick) : Z :=
  fold_right (fun tk n => Z.of_nat (List.length (captured tk)) + n) 0 tks.

(** [q] differs from [p] at most in the audio engine and the count of
    silent polls. *)
Definition same_but_audio (p q : t) : Prop :=
  log q = log p /\ perf_ q = perf_ p /\ did_output_ q = did_output_ p /\
  last_context_text_ q = last_context_text_ p /\ settings_ q = settings_ p /\
  ctx_ q = ctx_ p /\ current_model_ q = current_model_ p /\
  recording_ q = recording_ p /\ transcribing_ q = transcribing_ p /\
  continuous_running_ q = continuous_running_ p.

(** A pipeline with a loaded model in a continuous session that has
    just begun, the capture stream open at 48 kHz. *)
Definition listening : t :=
  Eval vm_compute in start_recording true PipelineSpec.loaded.

(** A recognizer that hears a stock phrase in exactly 1.5 s of audio
    and a greeting in anything else. *)
Definition choosy : WhisperContext.recognizer :=
  fun _ samples =>
    WhisperContext.mkRun 0
      [(Some (if Z.of_nat (List.length samples) =? 24000
              then " Thank you."%string else " hello world"%string), 0, 100)]
      F64.zero.

(** A run of the monitor: 72000 samples of silence arrive, and the third
    poll without speech flushes them; 72003 more arrive and the next poll
    flushes those. *)
Definition two_flushes : list tick :=
  [mkTick (repeat F32.zero (Z.to_nat 72000)) false;
   mkTick [] false; mkTick [] false;
   mkTick (repeat F32.zero (Z.to_nat 72003)) false].

(** The number of samples of each recognizer call of a log. *)
Definition call_sizes (evs : list event) : list Z :=
  List.map (fun s => Z.of_nat (List.length s)) (PipelineSpec.recognized evs).

(** The same session with no model loaded, 72000 samples waiting. *)
Definition deaf : t :=
  mk (AudioEngine.mk true VAD.initial
        (RingBuffer.mk (repeat F32.zero (Z.to_nat 72000)))
        AudioEngine.rate_48000 true true)
     PerformanceMonitor.initial default_settings None None
     EmptyString true false false true 2 [].

(** The texts of a list of segments, one after the other. *)
Definition text_of (segs : list TranscriptionSegment) : string :=
  fold_left (fun out s => String.append out (text s)) segs EmptyString.

(** The strings of a list, one after the other. *)
Definition join (l : list string) : string := fold_right String.append EmptyString l.

(** A recognizer that hears the same stock phrase in everything. *)
Definition polite : WhisperContext.recognizer :=
  fun _ _ => WhisperContext.mkRun 0 [(Some " Thank you."%string, 0, 100)] F64.zero.

(** A buffered-mode pipeline with a loaded model, its session holding
    the samples [raw] at 48 kHz. *)
Definition holding (raw : list F32.t) : t :=
  mk (AudioEngine.mk true VAD.initial (RingBuffer.mk raw)
        AudioEngine.rate_48000 true true)
     PerformanceMonitor.initial
     (mkSettings true EmptyString type_mode 5 true true buffered)
     (Some (WhisperContext.mk default_settings "base"%string)) (Some "base"%string)
     EmptyString true false false false 0 [].

End MonitorSpec.

Module HotkeySpec.
Import HotkeyManager.





End HotkeySpec.

Module SettingsJsonSpec.
Import SettingsJson.
Local Open Scope string_scope.

(** [s] with another output mode. *)
Definition with_output_mode (m : OutputMode) (s : t) : t :=
  mk (strategy s) (temperature s) (best_of s) (beam_size s) (language s)
     (translate s) (thread_count s) (use_gpu s) (flash_attention s)
     (no_context s) (single_segment s) (no_timestamps s) (token_timestamps s)
     (suppress_blank s) (suppress_non_speech_tokens s) (initial_prompt s)
     (entropy_threshold s) (logprob_threshold s) (no_speech_threshold s)
     (vad_enabled s) (vad_speech_threshold s) (vad_silence_threshold s)
     (vad_min_speech_ms s) (vad_min_silence_ms s) (vad_pre_padding_ms s)
     (vad_post_padding_ms s) m (type_speed_ms s) (restore_clipboard s)
     (send_return_delay_ms s) (hotkey_keysym s) (send_hotkey_keysym s)
     (keep_mic_warm s) (transcription_mode s) (release_delay_ms s)
     (launch_at_login s).

(** The strings [save] writes for the three enumerations. *)
Definition literals : list string :=
  [ "greedy"; "beam_search"; "type"; "paste"; "buffered"; "continuous" ].

(** The strings and floats of [s] are among those the JSON library
    stores and gives back unchanged. *)
Definition storable (ok_string : string -> Prop) (ok_float : F32.t -> Prop) (s : t)
  : Prop :=
  ok_string (language s) /\ ok_string (initial_prompt s) /\
  ok_float (temperature s) /\ ok_float (entropy_threshold s) /\
  ok_float (logprob_threshold s) /\ ok_float (no_speech_threshold s) /\
  ok_float (vad_speech_threshold s) /\ ok_float (vad_silence_threshold s).

(** The keys [load] looks up. *)
Definition keys : list string :=
  [ "strategy"; "temperature"; "best_of"; "beam_size"; "language"; "translate";
    "thread_count"; "use_gpu"; "flash_attention"; "no_context"; "single_segment";
    "no_timestamps"; "token_timestamps"; "suppress_blank";
    "suppress_non_speech_tokens"; "initial_prompt"; "entropy_threshold";
    "logprob_threshold"; "no_speech_threshold"; "vad_enabled";
    "vad_speech_threshold"; "vad_silence_threshold"; "vad_min_speech_ms";
    "vad_min_silence_ms"; "vad_pre_padding_ms"; "vad_post_padding_ms";
    "output_mode"; "type_speed_ms"; "restore_clipboard"; "send_return_delay_ms";
    "hotkey_keysym"; "send_hotkey_keysym"; "keep_mic_warm"; "transcription_mode";
    "release_delay_ms"; "launch_at_login" ].

(** A small JSON value type and its conversions, for the examples. *)
Inductive jvalue :=
| JString (s : string)
| JBool (b : bool)
| JNumber (n : Z)
| JFloat (x : F32.t).

Definition jstring (v : jvalue) : option string :=
  match v with JString s => Some s | _ => None end.
Definition jbool (v : jvalue) : option bool :=
  match v with JBool b => Some b | _ => None end.
Definition jnumber (v : jvalue) : option Z :=
  match v with JNumber n => Some n | _ => None end.
Definition jfloat (v : jvalue) : option F32.t :=
  match v with JFloat x => Some x | _ => None end.

(** Settings saved with the paste output mode and buffered mode. *)
Definition pasting : t :=
  mk beam_search F32.one 1 2 "de" true 4 false false
     false true true true false false "hint"
     F32.one F32.one F32.one
     false F32.one F32.zero 1 2 3 4
     paste_mode 7 false 9 10 11 false buffered 12 true.

End SettingsJsonSpec.

(* ================================================================== *)
(** * Properties *)

(** ** Comparisons of floating-point values *)

Section FloatCompare.

Lemma compare_cont_Eq_flip (m1 m2 : positive) :
  Pos.compare_cont Eq m2 m1 = CompOpp (Pos.compare_cont Eq m1 m2).
Proof. exact (Pos.compare_antisym m1 m2). Qed.

(** Swapping the operands of a comparison mirrors its outcome. *)
Lemma SFcompare_flip (x y : spec_float) :
  SFcompare y x = option_map CompOpp (SFcompare x y).
Proof.
  destruct x as [sx|sx| |sx mx ex], y as [sy|sy| |sy my ey]; simpl;
    try reflexivity;
    try (destruct sx; reflexivity);
    try (destruct sy; reflexivity);
    try (destruct sx, sy; reflexivity).
  destruct sx, sy; simpl; try reflexivity;
    rewrite (Z.compare_antisym ex ey);
    destruct (ex ?= ey); simpl; try reflexivity;
    rewrite compare_cont_Eq_flip;
    destruct (Pos.compare_cont Eq mx my); reflexivity.
Qed.

(** [x < y] excludes [x >= y]. *)
Lemma ltb_not_geb (x y : F32.t) : F32.ltb x y = true -> F32.geb x y = false.
Proof.
  unfold F32.ltb, F32.geb, SFltb, SFleb.
  rewrite (SFcompare_flip x y).
  destruct (SFcompare x y) as [[ | | ]|]; simpl; congruence.
Qed.

(** [x >= y] excludes [x < y]. *)
Lemma geb_not_ltb (x y : F32.t) : F32.geb x y = true -> F32.ltb x y = false.
Proof.
  intros H. destruct (F32.ltb x y) eqn:E; [|reflexivity].
  apply ltb_not_geb in E. congruence.
Qed.

(** [x < y] excludes [y < x]. *)
Lemma ltb_asym (x y : F32.t) : F32.ltb x y = true -> F32.ltb y x = false.
Proof.
  unfold F32.ltb, SFltb.
  rewrite (SFcompare_flip x y).
  destruct (SFcompare x y) as [[ | | ]|]; simpl; congruence.
Qed.

End FloatCompare.

(* ------------------------------------------------------------------ *)
(** ** Ring buffer *)

Module RingBufferProps.
Import RingBuffer.

Lemma samples_appends (chunks : list (list F32.t)) :
  forall b, samples_ (appends b chunks) = samples_ b ++ List.concat chunks.
Proof.
  unfold appends.
  induction chunks as [|c cs IH]; intros b; simpl.
  - now rewrite app_nil_r.
  - rewrite IH. simpl. now rewrite app_assoc.
Qed.

Lemma drain_leaves_empty (b : t) : snd (drain b) = empty.
Proof. reflexivity. Qed.

(** C1. After appends A1..An to a buffer and no other operation, one
    [drain] returns the earlier contents followed by A1 ++ ... ++ An, in
    append order; on a buffer that was empty before the appends (newly
    built or just drained) that is exactly A1 ++ ... ++ An.  The buffer
    is empty afterwards, and a second [drain] with no append in between
    returns the empty sequence. *)
Theorem drain_after_appends (b0 : t) (chunks : list (list F32.t)) :
  fst (drain (appends b0 chunks)) = samples_ b0 ++ List.concat chunks /\
  fst (drain (appends empty chunks)) = List.concat chunks /\
  fst (drain (appends (snd (drain b0)) chunks)) = List.concat chunks /\
  snd (drain (appends b0 chunks)) = empty /\
  count (snd (drain (appends b0 chunks))) = 0 /\
  drain (snd (drain (appends b0 chunks))) = ([], empty).
Proof.
  repeat split; simpl; try reflexivity; apply samples_appends.
Qed.

End RingBufferProps.

(* ------------------------------------------------------------------ *)
(** ** Voice activity detector *)

Module VADProps.
Import VAD VADSpec.

Lemma firstn_min_len (a : Z) (l : list F32.t) :
  0 <= a ->
  firstn (Z.to_nat (Z.min a (len l))) l = firstn (Z.to_nat a) l.
Proof.
  intros Ha. unfold len.
  destruct (Z.le_ge_cases a (Z.of_nat (List.length l))) as [H|H].
  - now rewrite Z.min_l.
  - rewrite Z.min_r by lia. rewrite Nat2Z.id.
    rewrite firstn_all. symmetry. apply firstn_all2. lia.
Qed.

Lemma size_t_of_int_small (n : Z) : 0 <= n < 2 ^ 31 -> size_t_of_int n = n.
Proof.
  intros H. unfold size_t_of_int. apply Z.mod_small.
  split; [lia|]. apply Z.lt_trans with (2 ^ 31); [lia | reflexivity].
Qed.

(** Reduces field reads of updated detectors. *)
Ltac vad_simpl :=
  cbv zeta;
  cbn [fst snd
       state is_speaking is_enabled speech_threshold silence_threshold
       min_speech_duration_ms min_silence_duration_ms
       pre_speech_padding_ms post_speech_padding_ms active_sample_rate_
       pre_speech_buf_ onset_buf_ post_speech_buf_
       speech_sample_count_ silence_sample_count_
       set_state set_is_speaking set_active_sample_rate
       set_pre_speech_buf set_onset_buf set_post_speech_buf
       set_speech_sample_count set_silence_sample_count].

Lemma same_config_refl (v : t) : same_config v v.
Proof. repeat split. Qed.

(** C2. An enabled detector in state speech_offset.  A frame with RMS
    below the silence threshold is appended to the post-speech
    accumulator; once the accumulated silence count reaches
    min_silence_samples the detector emits only the first
    post_speech_max_samples samples of that buffer, clears the
    post-speech accumulator, its counter and the pre-speech buffer, sets
    is_speaking to false and moves to silence (below that count it only
    accumulates).  A frame with RMS at or above the silence threshold
    makes it emit the whole post-speech buffer, however long, followed by
    the frame, clear the accumulator and return to speaking. *)
Theorem speech_offset_step (v : t) (frame output : list F32.t) :
  state v = speech_offset ->
  0 <= post_speech_max_samples v < 2 ^ 31 ->
  let r := process_frame v frame output in
  let acc := post_speech_buf_ v ++ frame in
  let cnt := silence_sample_count_ v + len frame in
  (F32.ltb (compute_rms frame) (silence_threshold v) = true ->
   min_silence_samples v <= cnt ->
     snd r = output ++ firstn (Z.to_nat (post_speech_max_samples v)) acc /\
     state (fst r) = silence /\
     is_speaking (fst r) = false /\
     post_speech_buf_ (fst r) = [] /\
     silence_sample_count_ (fst r) = 0 /\
     pre_speech_buf_ (fst r) = [] /\
     onset_buf_ (fst r) = onset_buf_ v /\
     speech_sample_count_ (fst r) = speech_sample_count_ v /\
     same_config v (fst r)) /\
  (F32.ltb (compute_rms frame) (silence_threshold v) = true ->
   cnt < min_silence_samples v ->
     snd r = output /\
     state (fst r) = speech_offset /\
     is_speaking (fst r) = is_speaking v /\
     post_speech_buf_ (fst r) = acc /\
     silence_sample_count_ (fst r) = cnt /\
     pre_speech_buf_ (fst r) = pre_speech_buf_ v /\
     same_config v (fst r)) /\
  (F32.geb (compute_rms frame) (silence_threshold v) = true ->
     snd r = output ++ post_speech_buf_ v ++ frame /\
     state (fst r) = speaking /\
     is_speaking (fst r) = is_speaking v /\
     post_speech_buf_ (fst r) = [] /\
     silence_sample_count_ (fst r) = 0 /\
     pre_speech_buf_ (fst r) = pre_speech_buf_ v /\
     same_config v (fst r)).
Proof.
  intros Hst Hmax r acc cnt. subst r acc cnt.
  unfold process_frame. rewrite Hst.
  unfold post_speech_max_samples, min_silence_samples in *.
  split; [|split].
  - intros Hlt Hcnt. rewrite Hlt. vad_simpl.
    replace (_ >=? _) with true by (symmetry; apply Z.geb_le; exact Hcnt).
    rewrite size_t_of_int_small by exact Hmax.
    vad_simpl. rewrite firstn_min_len by apply Hmax.
    repeat split; reflexivity.
  - intros Hlt Hcnt. rewrite Hlt. vad_simpl.
    replace (_ >=? _) with false
      by (symmetry; rewrite Z.geb_leb; apply Z.leb_gt; exact Hcnt).
    vad_simpl. repeat split; assumption || reflexivity.
  - intros Hge. rewrite (geb_not_ltb _ _ Hge).
    vad_simpl. rewrite <- app_assoc.
    repeat split; reflexivity.
Qed.

Lemma speech_offset_step_witness :
  (state offset_example = speech_offset /\
   0 <= post_speech_max_samples offset_example < 2 ^ 31 /\
   F32.ltb (compute_rms [F32.zero]) (silence_threshold offset_example) = true /\
   min_silence_samples offset_example
     <= silence_sample_count_ offset_example + len [F32.zero]) /\
  snd (process_frame offset_example [F32.zero] [F32.one]) = [F32.one; F32.zero] /\
  state (fst (process_frame offset_example [F32.zero] [F32.one])) = silence /\
  (F32.geb (compute_rms [F32.one]) (silence_threshold offset_example) = true /\
   snd (process_frame offset_example [F32.one] []) = [F32.zero; F32.one] /\
   state (fst (process_frame offset_example [F32.one] [])) = speaking).
Proof.
  assert (Hs : state offset_example = speech_offset) by reflexivity.
  assert (Hm : 0 <= post_speech_max_samples offset_example < 2 ^ 31)
    by (vm_compute; split; [discriminate | reflexivity]).
  assert (Hlt : F32.ltb (compute_rms [F32.zero]) (silence_threshold offset_example) = true)
    by reflexivity.
  assert (Hc : min_silence_samples offset_example
               <= silence_sample_count_ offset_example + len [F32.zero])
    by (vm_compute; discriminate).
  assert (Hge : F32.geb (compute_rms [F32.one]) (silence_threshold offset_example) = true)
    by reflexivity.
  destruct (speech_offset_step offset_example [F32.zero] [F32.one] Hs Hm)
    as [H1 _].
  destruct (H1 Hlt Hc) as (Ho & Hst & _).
  destruct (speech_offset_step offset_example [F32.one] [] Hs Hm)
    as (_ & _ & H3).
  destruct (H3 Hge) as (Ho3 & Hst3 & _).
  exact (conj (conj Hs (conj Hm (conj Hlt Hc)))
              (conj Ho (conj Hst (conj Hge (conj Ho3 Hst3))))).
Defined.

(** *** Hysteresis *)

Lemma append_to_pre_speech_config (v : t) (data : list F32.t) :
  same_config v (append_to_pre_speech v data).
Proof.
  unfold append_to_pre_speech.
  destruct (_ >? _); repeat split.
Qed.

Lemma append_to_pre_speech_state (v : t) (data : list F32.t) :
  state (append_to_pre_speech v data) = state v.
Proof. unfold append_to_pre_speech. destruct (_ >? _); reflexivity. Qed.

(** The rolling window keeps the newest samples. *)
Lemma append_to_pre_speech_window (v : t) (data : list F32.t) :
  0 <= pre_speech_max_samples v ->
  pre_speech_buf_ (append_to_pre_speech v data)
  = keep_last (pre_speech_max_samples v) (pre_speech_buf_ v ++ data).
Proof.
  intros Hmax. unfold append_to_pre_speech, keep_last, len.
  set (buf := pre_speech_buf_ v ++ data).
  set (m := pre_speech_max_samples v) in *.
  destruct (Z.of_nat (List.length buf) >? m) eqn:E; vad_simpl.
  - f_equal. lia.
  - assert (Z.of_nat (List.length buf) <= m) by (apply Z.gtb_ltb in E || lia; lia).
    replace (List.length buf - Z.to_nat m)%nat with O by lia.
    reflexivity.
Qed.

Lemma between_config (v v' : t) (frame : list F32.t) :
  same_config v v' -> between v frame -> between v' frame.
Proof.
  intros (_ & Hsp & Hsi & _) [H1 H2]. unfold between.
  rewrite Hsp, Hsi. split; assumption.
Qed.

(** Inside the band the rms only selects the "not speech" branch in
    silence and onset and the "not silence" branch in speaking and
    offset. *)
Lemma band_step_spec (v : t) (frame output : list F32.t) :
  between v frame -> process_frame v frame output = band_step v frame output.
Proof.
  intros [Hlo Hhi].
  pose proof (ltb_not_geb _ _ Hhi) as Hge.
  pose proof (ltb_asym _ _ Hlo) as Hlt.
  unfold process_frame, band_step.
  rewrite Hge, Hlt.
  destruct (state v); try reflexivity.
  now rewrite <- app_assoc.
Qed.

Lemma band_step_settled (v : t) (frame output : list F32.t) :
  settled (state (fst (band_step v frame output))).
Proof.
  unfold band_step, settled.
  destruct (state v) eqn:E; vad_simpl; auto.
  left. now rewrite append_to_pre_speech_state.
Qed.

Lemma band_step_config (v : t) (frame output : list F32.t) :
  same_config v (fst (band_step v frame output)).
Proof.
  unfold band_step.
  destruct (state v); vad_simpl;
    try apply append_to_pre_speech_config; try apply same_config_refl.
  - pose proof (append_to_pre_speech_config v (onset_buf_ v)) as H1.
    pose proof (append_to_pre_speech_config
                  (append_to_pre_speech v (onset_buf_ v)) frame) as H2.
    unfold same_config in *. vad_simpl.
    repeat split; etransitivity; try apply H2; apply H1.
  - repeat split.
Qed.

(** A settled detector does not move on frames inside the band. *)
Lemma band_run_settled (frames : list (list F32.t)) :
  forall (v : t) (output : list F32.t),
    Forall (between v) frames -> settled (state v) ->
    state (fst (process_frames v frames output)) = state v.
Proof.
  induction frames as [|f fs IH]; intros v output Hall Hs; [reflexivity|].
  inversion Hall as [|? ? Hf Hfs]; subst.
  cbn [process_frames]. rewrite (band_step_spec v f output Hf).
  pose proof (band_step_config v f output) as Hc.
  assert (Hst : state (fst (band_step v f output)) = state v).
  { unfold band_step. destruct Hs as [E|E]; rewrite E; vad_simpl.
    - now rewrite append_to_pre_speech_state.
    - exact E. }
  destruct (band_step v f output) as [v' out'] eqn:Eb. cbn [fst] in *.
  rewrite IH.
  - exact Hst.
  - eapply Forall_impl; [|exact Hfs]. intros a. now apply between_config.
  - now rewrite Hst.
Qed.

Lemma band_run_silence (frames : list (list F32.t)) :
  forall (v : t) (output : list F32.t),
    Forall (between v) frames -> state v = silence ->
    snd (process_frames v frames output) = output.
Proof.
  induction frames as [|f fs IH]; intros v output Hall Hs; [reflexivity|].
  inversion Hall as [|? ? Hf Hfs]; subst.
  cbn [process_frames]. rewrite (band_step_spec v f output Hf).
  unfold band_step. rewrite Hs.
  apply IH.
  - eapply Forall_impl; [|exact Hfs]. intros a.
    apply between_config, append_to_pre_speech_config.
  - now rewrite append_to_pre_speech_state.
Qed.

Lemma band_run_speaking (frames : list (list F32.t)) :
  forall (v : t) (output : list F32.t),
    Forall (between v) frames -> state v = speaking ->
    process_frames v frames output = (v, output ++ List.concat frames).
Proof.
  induction frames as [|f fs IH]; intros v output Hall Hs.
  - cbn. now rewrite app_nil_r.
  - inversion Hall as [|? ? Hf Hfs]; subst.
    cbn [process_frames]. rewrite (band_step_spec v f output Hf).
    unfold band_step. rewrite Hs.
    rewrite (IH v (output ++ f) Hfs Hs). cbn [List.concat].
    now rewrite app_assoc.
Qed.

(** C3. Hysteresis.  For a frame whose RMS lies strictly between the
    silence threshold and the speech threshold, what the detector does is
    fixed by the state it is in when the frame arrives ([band_step] never
    looks at the RMS).  A detector in silence stays in silence, emits
    nothing and puts the frame into the bounded pre-speech window; a
    detector in speaking stays in speaking and emits the frame.  Whatever
    the entering state, the detector is in silence or speaking after the
    frame and keeps that state over any further run of frames inside the
    band, so a constant energy level between the thresholds causes no
    chatter. *)
Theorem hysteresis (v : t) (frame : list F32.t) (rest : list (list F32.t))
        (output : list F32.t) :
  between v frame -> Forall (between v) rest ->
  let r := process_frame v frame output in
  r = band_step v frame output /\
  (state v = silence ->
     snd r = output /\ state (fst r) = silence /\
     fst r = append_to_pre_speech v frame /\
     (0 <= pre_speech_max_samples v ->
      pre_speech_buf_ (fst r)
      = keep_last (pre_speech_max_samples v) (pre_speech_buf_ v ++ frame)) /\
     snd (process_frames v (frame :: rest) output) = output) /\
  (state v = speaking ->
     r = (v, output ++ frame) /\
     process_frames v (frame :: rest) output
     = (v, output ++ frame ++ List.concat rest)) /\
  settled (state (fst r)) /\
  state (fst (process_frames (fst r) rest (snd r))) = state (fst r).
Proof.
  intros Hf Hrest r. subst r.
  rewrite (band_step_spec v frame output Hf).
  split; [reflexivity|]. split; [|split; [|split]].
  - intros Hs.
    assert (E : band_step v frame output = (append_to_pre_speech v frame, output))
      by (unfold band_step; now rewrite Hs).
    rewrite E. cbn [fst snd].
    repeat split.
    + now rewrite append_to_pre_speech_state.
    + apply append_to_pre_speech_window.
    + apply band_run_silence; [constructor; assumption | exact Hs].
  - intros Hs.
    assert (E : band_step v frame output = (v, output ++ frame))
      by (unfold band_step; now rewrite Hs).
    rewrite E. split; [reflexivity|].
    apply (band_run_speaking (frame :: rest)); [constructor; assumption | exact Hs].
  - apply band_step_settled.
  - apply band_run_settled.
    + eapply Forall_impl; [|exact Hrest]. intros a.
      apply between_config, band_step_config.
    + apply band_step_settled.
Qed.

Lemma hysteresis_witness :
  (between initial [low_level] /\
   Forall (between initial) [[low_level]; [low_level]]) /\
  process_frame initial [low_level] [] = band_step initial [low_level] [] /\
  snd (process_frames initial [[low_level]; [low_level]; [low_level]] []) = [] /\
  settled (state (fst (process_frame initial [low_level] []))).
Proof.
  assert (Hb : between initial [low_level]) by (split; reflexivity).
  assert (Hr : Forall (between initial) [[low_level]; [low_level]])
    by (repeat constructor).
  destruct (hysteresis initial [low_level] [[low_level]; [low_level]] [] Hb Hr)
    as (H1 & H2 & _ & H4 & _).
  destruct (H2 eq_refl) as (_ & _ & _ & _ & H5).
  exact (conj (conj Hb Hr) (conj H1 (conj H5 H4))).
Defined.

End VADProps.

(* ------------------------------------------------------------------ *)
(** ** Strings *)

Module StrProps.
Import Str StrSpec.
Local Open Scope string_scope.

Lemma append_nil_r (s : string) : s ++ "" = s.
Proof. induction s as [|c s IH]; cbn; [reflexivity | now rewrite IH]. Qed.

Lemma append_assoc (a b c : string) : (a ++ b) ++ c = a ++ (b ++ c).
Proof. induction a as [|x a IH]; cbn; [reflexivity | now rewrite IH]. Qed.

Lemma length_append (a b : string) :
  String.length (a ++ b) = (String.length a + String.length b)%nat.
Proof. induction a as [|x a IH]; cbn; [reflexivity | now rewrite IH]. Qed.

(** Every non-empty string ends in a last character. *)
Lemma snoc_cases (s : string) :
  s = "" \/ exists s' c, s = s' ++ String c "".
Proof.
  induction s as [|x s IH]; [now left | right].
  destruct IH as [->|(s' & c & ->)].
  - now exists "", x.
  - now exists (String x s'), c.
Qed.

Lemma back_snoc (s : string) (c : ascii) : back (s ++ String c "") = Some c.
Proof.
  induction s as [|x s IH]; [reflexivity|].
  cbn [append back]. destruct (s ++ String c "") eqn:E; [|exact IH].
  destruct s; discriminate.
Qed.

Lemma pop_back_snoc (s : string) (c : ascii) : pop_back (s ++ String c "") = s.
Proof.
  induction s as [|x s IH]; [reflexivity|].
  cbn [append pop_back]. destruct (s ++ String c "") eqn:E.
  - destruct s; discriminate.
  - now rewrite IH.
Qed.

Lemma back_empty_inv (s : string) : back s = None -> s = "".
Proof.
  destruct (snoc_cases s) as [->|(s' & c & ->)]; [reflexivity|].
  rewrite back_snoc. discriminate.
Qed.

(** *** Stripping *)

Lemma strip_front_blank (l u : string) :
  all_blank is_blank l = true -> strip_front (l ++ u) = strip_front u.
Proof.
  induction l as [|c l IH]; cbn; [reflexivity|].
  intros H. apply andb_prop in H as [Hc Hl]. rewrite Hc. now apply IH.
Qed.

Lemma strip_front_fixed (u : string) :
  (forall c, front u = Some c -> is_blank c = false) -> strip_front u = u.
Proof.
  destruct u as [|c u]; [reflexivity|]. intros H. cbn.
  now rewrite (H c eq_refl).
Qed.

Lemma strip_front_all_blank (l : string) :
  all_blank is_blank l = true -> strip_front l = "".
Proof.
  intros H. rewrite <- (append_nil_r l). now rewrite strip_front_blank.
Qed.

Lemma strip_back_loop_fixed (fuel : nat) (u : string) :
  (forall c, back u = Some c -> is_blank c = false) ->
  strip_back_loop fuel u = u.
Proof.
  intros H. destruct fuel; [reflexivity|]. cbn.
  destruct (back u) as [c|] eqn:E; [|reflexivity].
  now rewrite (H c eq_refl).
Qed.

(** Trailing blanks cost one pass each. *)
Lemma strip_back_loop_blank (r : string) :
  forall (fuel : nat) (u : string),
    all_blank is_blank r = true ->
    strip_back_loop (String.length r + fuel) (u ++ r) = strip_back_loop fuel u.
Proof.
  remember (String.length r) as n eqn:En.
  revert r En. induction n as [|n IH]; intros r En fuel u Hr.
  - destruct r; [|discriminate]. now rewrite append_nil_r.
  - destruct (snoc_cases r) as [->|(r' & c & ->)]; [discriminate|].
    rewrite length_append in En. cbn in En.
    assert (Hn : n = String.length r') by lia.
    assert (Hb : all_blank is_blank r' = true /\ is_blank c = true).
    { clear - Hr. induction r' as [|x r' IH]; cbn in *.
      - now rewrite andb_true_r in Hr.
      - apply andb_prop in Hr as [Hx Hr]. destruct (IH Hr) as [H1 H2].
        now rewrite Hx, H1. }
    destruct Hb as [Hr' Hc].
    rewrite <- append_assoc. cbn [Nat.add strip_back_loop].
    rewrite back_snoc, Hc, pop_back_snoc.
    now apply IH.
Qed.

Lemma all_blank_back (r : string) (c : ascii) :
  all_blank is_blank r = true -> back r = Some c -> is_blank c = true.
Proof.
  induction r as [|x r IH]; [discriminate|]. cbn [all_blank back].
  intros H. apply andb_prop in H as [Hx Hr].
  destruct r; [intros [= <-]; exact Hx | now apply IH].
Qed.

Lemma strip_back_blank (u r : string) :
  all_blank is_blank r = true ->
  (forall c, back u = Some c -> is_blank c = false) ->
  strip_back (u ++ r) = u.
Proof.
  intros Hr Hu. unfold strip_back.
  rewrite length_append, Nat.add_comm, strip_back_loop_blank by exact Hr.
  now apply strip_back_loop_fixed.
Qed.

(** [strip] computes the trimmed string, and nothing else is one. *)
Lemma strip_unique (s t : string) : trimmed_of is_blank s t -> strip s = t.
Proof.
  intros (l & r & -> & Hl & Hr & Hf & Hb). unfold strip.
  rewrite strip_front_blank by exact Hl.
  destruct t as [|c t].
  - cbn [append]. rewrite (strip_front_all_blank _ Hr). reflexivity.
  - rewrite strip_front_fixed.
    + now apply strip_back_blank.
    + cbn. intros c' [= <-]. now apply Hf.
Qed.

Lemma all_blank_app (a b : string) :
  all_blank is_blank (a ++ b) = all_blank is_blank a && all_blank is_blank b.
Proof.
  induction a as [|x a IH]; cbn; [reflexivity|].
  now rewrite IH, andb_assoc.
Qed.

Lemma strip_front_decomp (s : string) :
  exists l, s = l ++ strip_front s /\ all_blank is_blank l = true /\
            (forall c, front (strip_front s) = Some c -> is_blank c = false).
Proof.
  induction s as [|x s (l & E & Hl & Hf)].
  - exists "". repeat split. discriminate.
  - cbn [strip_front]. destruct (is_blank x) eqn:Ex.
    + exists (String x l). cbn. rewrite <- E, Ex, Hl. now repeat split.
    + exists "". repeat split. cbn. now intros c [= <-].
Qed.

Lemma strip_back_loop_decomp (fuel : nat) :
  forall u : string,
    (String.length u <= fuel)%nat ->
    exists r, u = strip_back_loop fuel u ++ r /\ all_blank is_blank r = true /\
              (forall c, back (strip_back_loop fuel u) = Some c -> is_blank c = false).
Proof.
  induction fuel as [|fuel IH]; intros u Hu.
  - destruct u; [|cbn in Hu; lia]. exists "". repeat split. discriminate.
  - destruct (snoc_cases u) as [->|(u' & c & ->)].
    + exists "". repeat split. discriminate.
    + cbn [strip_back_loop]. rewrite back_snoc.
      destruct (is_blank c) eqn:Ec.
      * rewrite pop_back_snoc.
        rewrite length_append in Hu. cbn in Hu.
        destruct (IH u') as (r & E & Hr & Hb); [lia|].
        exists (r ++ String c ""). repeat split.
        -- rewrite <- append_assoc. now rewrite <- E.
        -- rewrite all_blank_app, Hr. cbn. now rewrite Ec.
        -- exact Hb.
      * exists "". rewrite append_nil_r. repeat split.
        rewrite back_snoc. now intros c' [= <-].
Qed.

Lemma strip_trims (s : string) : trimmed_of is_blank s (strip s).
Proof.
  unfold strip, strip_back.
  destruct (strip_front_decomp s) as (l & El & Hl & Hf).
  destruct (strip_back_loop_decomp (String.length (strip_front s)) (strip_front s))
    as (r & Er & Hr & Hb); [lia|].
  set (t := strip_back_loop _ _) in *.
  exists l, r. repeat split; try assumption.
  - now rewrite <- Er.
  - intros c Hc. apply Hf. rewrite Er.
    destruct t; [discriminate | exact Hc].
Qed.

(** *** Searching *)

Lemma prefix_spec (p s : string) :
  String.prefix p s = true <-> exists b, s = p ++ b.
Proof.
  revert s. induction p as [|x p IH]; intros s.
  - split; [intros _; now exists s | intros _; now destruct s].
  - destruct s as [|y s]; cbn.
    + split; [discriminate | intros (b & [=])].
    + destruct (ascii_dec x y) as [->|Hxy].
      * rewrite IH. split; intros (b & E); exists b; congruence.
      * split; [discriminate | intros (b & [= E _]); congruence].
Qed.

Lemma find_spec (s p : string) :
  (exists n, find s p = Some n) <-> contains s p.
Proof.
  split.
  - induction s as [|c s IH]; cbn [find].
    + destruct (String.prefix p "") eqn:E.
      * intros _. apply prefix_spec in E as (b & E). now exists "", b.
      * intros (n & [=]).
    + destruct (String.prefix p (String c s)) eqn:E.
      * intros _. apply prefix_spec in E as (b & E). now exists "", b.
      * intros (n & Hn). destruct (find s p) as [m|] eqn:Em; [|discriminate].
        destruct IH as (a & b & ->); [now exists m|].
        now exists (String c a), b.
  - intros (a & b & ->). induction a as [|c a (n & IH)].
    + cbn [append].
      assert (E : String.prefix p (p ++ b) = true) by (apply prefix_spec; now exists b).
      destruct (p ++ b); cbn [find]; rewrite E; now exists O.
    + cbn [append find]. destruct (String.prefix p _).
      * now exists O.
      * rewrite IH. now exists (S n).
Qed.

(** *** Case folding *)

Lemma tolower_fold_char (c : ascii) : tolower c = fold_char c.
Proof.
  destruct c as [[] [] [] [] [] [] [] []]; vm_compute; reflexivity.
Qed.

Lemma map_tolower (s : string) : Str.map tolower s = case_fold s.
Proof.
  unfold case_fold.
  induction s as [|c s IH]; cbn; [reflexivity|].
  now rewrite IH, tolower_fold_char.
Qed.

End StrProps.

(* ------------------------------------------------------------------ *)
(** ** Hallucination filter *)

Module FilterProps.
Import StrSpec StrProps.
Local Open Scope string_scope.

Lemma is_hallucination_strip (text : string) :
  Pipeline.is_hallucination text = true <->
  (String.length (Str.strip (case_fold text)) < 3)%nat \/
  exists p, In p Pipeline.HALLUCINATION_PATTERNS /\
            contains (Str.strip (case_fold text)) p.
Proof.
  unfold Pipeline.is_hallucination. rewrite map_tolower.
  set (t := Str.strip (case_fold text)). unfold Str.size.
  destruct (Z.ltb_spec (Z.of_nat (String.length t)) 3) as [Hlt|Hge].
  - split; [intros _; left; lia | reflexivity].
  - rewrite existsb_exists. split.
    + intros (p & Hin & Hp). right. exists p. split; [exact Hin|].
      apply find_spec. destruct (Str.find t p) as [n|]; [now exists n | discriminate].
    + intros [Hlt|(p & Hin & Hp)]; [lia|].
      exists p. split; [exact Hin|].
      apply find_spec in Hp as (n & ->). reflexivity.
Qed.

Lemma is_blank_spec (c : ascii) : Str.is_blank c = is_space_or_line_feed c.
Proof.
  destruct c as [[] [] [] [] [] [] [] []]; vm_compute; reflexivity.
Qed.

Lemma all_blank_ext (b1 b2 : ascii -> bool) (s : string) :
  (forall c, b1 c = b2 c) -> all_blank b1 s = all_blank b2 s.
Proof.
  intros H. induction s as [|c s IH]; cbn; [reflexivity|].
  now rewrite H, IH.
Qed.

Lemma trimmed_of_ext (b1 b2 : ascii -> bool) (s t : string) :
  (forall c, b1 c = b2 c) -> trimmed_of b1 s t -> trimmed_of b2 s t.
Proof.
  intros H (l & r & E & Hl & Hr & Hf & Hb).
  exists l, r. rewrite <- !(all_blank_ext b1 b2) by exact H.
  repeat split; try assumption.
  - intros c Hc. rewrite <- H. now apply Hf.
  - intros c Hc. rewrite <- H. now apply Hb.
Qed.

Lemma is_hallucination_rejected (text : string) :
  Pipeline.is_hallucination text = true <-> rejected text.
Proof.
  rewrite is_hallucination_strip. unfold rejected, rejected_with. split.
  - intros H. exists (Str.strip (case_fold text)).
    split; [|exact H].
    apply (trimmed_of_ext Str.is_blank); [exact is_blank_spec | apply strip_trims].
  - intros (t & Ht & H).
    apply (trimmed_of_ext _ Str.is_blank) in Ht;
      [|intros c; symmetry; apply is_blank_spec].
    now rewrite (strip_unique _ _ Ht).
Qed.

(** C6, as the code has it.  The hallucination filter rejects a text if
    and only if the text, with the letters A to Z lower-cased and its
    leading and trailing spaces and line feeds removed (no other
    whitespace is), is shorter than 3 bytes or contains one of the stock
    filler phrases as a substring.  "Thank you.", "  bye bye  " and ""
    are rejected; "The weather today is sunny" is accepted. *)
Theorem hallucination_filter :
  (forall text, Pipeline.is_hallucination text = true <-> rejected text) /\
  Pipeline.is_hallucination "Thank you." = true /\
  Pipeline.is_hallucination "  bye bye  " = true /\
  Pipeline.is_hallucination "" = true /\
  Pipeline.is_hallucination "The weather today is sunny" = false.
Proof.
  split; [exact is_hallucination_rejected | repeat split; reflexivity].
Qed.

(** Against C6 as stated.  A tab is whitespace, and so is a carriage
    return: with the surrounding whitespace trimmed, "ok" behind a tab
    and "ok" before a carriage return are the two characters "ok", which
    the stated rule rejects.  The code trims neither, counts 3 bytes and
    accepts both.  A text of two accented characters is shorter than
    3 characters, and is accepted for its 4 bytes. *)
Lemma filter_trims_spaces_only :
  (rejected_as_stated tab_ok /\ Pipeline.is_hallucination tab_ok = false) /\
  (rejected_as_stated ok_cr /\ Pipeline.is_hallucination ok_cr = false) /\
  (rejected_as_stated two_accents /\ Pipeline.is_hallucination two_accents = false).
Proof.
  split; [|split]; (split; [|reflexivity]).
  - exists "ok". split; [|left; vm_compute; lia].
    exists (String "009" ""), "". repeat split; try reflexivity;
      cbn; intros c [= <-]; reflexivity.
  - exists "ok". split; [|left; vm_compute; lia].
    exists "", (String "013" ""). repeat split; try reflexivity;
      cbn; intros c [= <-]; reflexivity.
  - exists two_accents. split; [|left; vm_compute; lia].
    exists "", "". repeat split; try reflexivity;
      cbn; intros c [= <-]; reflexivity.
Qed.

End FilterProps.

(* ------------------------------------------------------------------ *)
(** ** Orchestrator: the monitor loop and the rolling context *)

Module ContextProps.
Import Pipeline PipelineSpec StrSpec StrProps.
Local Open Scope string_scope.

(** Reduces field reads of updated pipelines. *)
Ltac pipe_simpl :=
  cbv zeta;
  cbn [fst snd
       audio_ perf_ settings_ ctx_ current_model_ last_context_text_
       recording_ transcribing_ did_output_ continuous_running_
       silence_frame_count_ log
       set_audio set_perf set_last_context_text set_recording
       set_transcribing set_did_output set_continuous_running
       set_silence_frame_count emit].

Lemma output_text_log (p : t) (text : string) :
  exists delay, log (output_text p text) = (log p ++ [EvType text delay])%list.
Proof.
  unfold output_text. pipe_simpl.
  destruct (output_mode (settings_ p)); pipe_simpl; eexists; reflexivity.
Qed.

Lemma output_text_context (p : t) (text : string) :
  last_context_text_ (output_text p text) = last_context_text_ p.
Proof.
  unfold output_text. pipe_simpl.
  destruct (output_mode (settings_ p)); reflexivity.
Qed.

Lemma empty_false (s : string) : Str.empty s = false -> s <> "".
Proof. destruct s; [discriminate | discriminate]. Qed.

Lemma log_emit (e : event) (p : t) : log (emit e p) = (log p ++ [e])%list.
Proof. reflexivity. Qed.

Lemma context_emit (e : event) (p : t) :
  last_context_text_ (emit e p) = last_context_text_ p.
Proof. reflexivity. Qed.

(** Rewrites the effect of [output_text] on the log and the context
    before anything is unfolded. *)
Ltac output_text_rw d :=
  rewrite ?log_emit, ?context_emit;
  match goal with
  | |- context [log (output_text ?q ?t)] =>
      let Hd := fresh "Hd" in
      destruct (output_text_log q t) as [d Hd];
      rewrite Hd, ?(output_text_context q t); clear Hd
  end.

(** The recognizer call of a pass and what follows it. *)
Lemma transcribe_flush_shape (whisper : WhisperContext.recognizer)
      (c : WhisperContext.t) (resampled : list F32.t) (p : t) :
  pass_shape p (transcribe_flush whisper c resampled p).
Proof.
  unfold transcribe_flush, pass_shape. cbv zeta.
  change (last_context_text_ (emit EvTranscriptionStart (set_transcribing true p)))
    with (last_context_text_ p).
  set (prompt := next_prompt (last_context_text_ p)).
  generalize (WhisperContext.transcribe whisper c resampled prompt) as result.
  intros result.
  generalize (Str.strip (full_text result)) as text. intros text.
  destruct (Str.empty text || is_hallucination text) eqn:E.
  - right; left. exists resampled. pipe_simpl. split; [|reflexivity].
    now rewrite <- !app_assoc.
  - right; right. apply orb_false_elim in E as [He Hh].
    output_text_rw d. pipe_simpl.
    exists resampled, text, d.
    split; [now rewrite <- !app_assoc|].
    split; [reflexivity|].
    split; [apply empty_false; exact He | exact Hh].
Qed.

(** Everything a pass does before the recognizer call leaves the log and
    the rolling context alone. *)
Lemma iteration_cases (whisper : WhisperContext.recognizer) (tk : tick) (p p' : t) :
  continuous_iteration whisper tk p = Some p' ->
  (log p' = log p /\ last_context_text_ p' = last_context_text_ p) \/
  exists c resampled q,
    ctx_ p = Some c /\
    log q = log p /\ last_context_text_ q = last_context_text_ p /\
    p' = transcribe_flush whisper c resampled q.
Proof.
  unfold continuous_iteration. cbv zeta.
  destruct (VAD.is_speaking _);
    (destruct (F64.to_size_t _); [|discriminate]);
    (destruct (_ || _); [intros [= <-]; left; split; reflexivity|]);
    (destruct (F64.to_size_t _); [|discriminate]);
    (destruct (_ <? _)%Z; [intros [= <-]; left; split; reflexivity|]);
    (destruct (RingBuffer.drain _) as [raw buf]);
    (destruct (AudioEngine.resample_public _ _) as [resampled|]; [|discriminate]);
    (destruct (ctx_ _) as [c|] eqn:Ec; intros [= <-];
     [right; eexists c, resampled, _;
      refine (conj _ (conj _ (conj _ eq_refl))); first [exact Ec | reflexivity]
     | left; split; reflexivity]).
Qed.

(** One pass of the monitor loop: nothing, a call whose text is dropped,
    or a call whose text is committed and typed. *)
Lemma iteration_shape (whisper : WhisperContext.recognizer) (tk : tick) (p p' : t) :
  continuous_iteration whisper tk p = Some p' -> pass_shape p p'.
Proof.
  intros H. apply iteration_cases in H as [H|(c & resampled & q & _ & Hl & Hc & ->)].
  - left. exact H.
  - pose proof (transcribe_flush_shape whisper c resampled q) as S.
    unfold pass_shape in *. rewrite Hl, Hc in S. exact S.
Qed.

(** *** The context hint and the bound on the rolling context *)











(** *** Sessions *)

Lemma hints_app (a b : list event) : hints (a ++ b) = (hints a ++ hints b)%list.
Proof.
  induction a as [|e a IH]; [reflexivity|].
  destruct e; cbn; now rewrite IH.
Qed.

Lemma hints_follow_app (a b : list event) :
  forall c0 c1 c2,
    hints_follow a c0 c1 -> hints_follow b c1 c2 -> hints_follow (a ++ b) c0 c2.
Proof.
  induction a as [|e a IH]; intros c0 c1 c2 Ha Hb.
  - cbn in Ha. subst c1. exact Hb.
  - destruct e; cbn in *; try (eapply IH; eassumption).
    destruct Ha as [Hh Ha]. split; [exact Hh | eapply IH; eassumption].
Qed.

(** What a pass adds to the log follows the rolling context, and its
    only hint, if any, is the one of the context it started with. *)
Lemma pass_follow (p p' : t) :
  pass_shape p p' ->
  exists evs,
    log p' = (log p ++ evs)%list /\
    hints_follow evs (last_context_text_ p) (last_context_text_ p') /\
    ((hints evs = [] /\ last_context_text_ p' = last_context_text_ p) \/
     hints evs = [next_prompt (last_context_text_ p)]).
Proof.
  intros [[Hl Hc]|[(s & Hl & Hc)|(s & text & d & Hl & Hc & _)]].
  - exists []. rewrite app_nil_r. repeat split; auto.
  - eexists. split; [exact Hl|]. cbn. rewrite Hc. auto.
  - eexists. split; [exact Hl|]. cbn. rewrite pop_back_snoc, Hc. auto.
Qed.

Lemma loop_follow (whisper : WhisperContext.recognizer) (tks : list tick) :
  forall p p',
    continuous_loop whisper tks p = Some p' ->
    exists evs,
      log p' = (log p ++ evs)%list /\
      hints_follow evs (last_context_text_ p) (last_context_text_ p') /\
      (last_context_text_ p = "" ->
       forall h rest, hints evs = h :: rest -> h = None).
Proof.
  induction tks as [|tk tks IH]; intros p p' H; cbn [continuous_loop] in H.
  - injection H as <-. exists []. rewrite app_nil_r.
    repeat split. discriminate.
  - destruct (negb (continuous_running_ p)).
    + injection H as <-. exists []. rewrite app_nil_r.
      repeat split. discriminate.
    + destruct (continuous_iteration whisper tk p) as [p1|] eqn:E1; [|discriminate].
      apply iteration_shape, pass_follow in E1 as (evs1 & Hl1 & Hf1 & Hh1).
      destruct (IH p1 p' H) as (evs2 & Hl2 & Hf2 & Hh2).
      exists (evs1 ++ evs2)%list. split; [|split].
      * now rewrite Hl2, Hl1, app_assoc.
      * eapply hints_follow_app; eassumption.
      * intros Hc h rest. rewrite hints_app.
        destruct Hh1 as [[Hn Hc1]|Hs]. 
        -- rewrite Hn. cbn [app]. apply Hh2. now rewrite Hc1.
        -- rewrite Hs, Hc. cbn. now intros [= <- _].
Qed.

Lemma start_recording_context (dev_ok : bool) (p : t) :
  recording_ p = false -> last_context_text_ (start_recording dev_ok p) = "".
Proof.
  intros H. unfold start_recording, start_continuous_monitor. rewrite H.
  pipe_simpl. destruct (transcription_mode (settings_ p)); reflexivity.
Qed.

Lemma start_recording_forgets (dev_ok : bool) (p : t) (old : string) :
  recording_ p = false ->
  start_recording dev_ok (set_last_context_text old p) = start_recording dev_ok p.
Proof.
  intros H. unfold start_recording. pipe_simpl. rewrite H. reflexivity.
Qed.

(** C10. A call of [start_recording] that begins a session clears the
    rolling context, whatever it held: the pipeline it leaves does not
    depend on the text of earlier sessions.  Over any run of the monitor
    loop of the session, the first recognizer call is made with no context
    hint, and every hint is computed from the context built up from the
    texts committed (and typed) since the session began. *)
Theorem context_is_per_session (whisper : WhisperContext.recognizer)
        (dev_ok : bool) (p : t) :
  recording_ p = false ->
  let p1 := start_recording dev_ok p in
  last_context_text_ p1 = "" /\
  (forall old, start_recording dev_ok (set_last_context_text old p) = p1) /\
  (forall tks p',
     continuous_loop whisper tks p1 = Some p' ->
     exists evs,
       log p' = (log p1 ++ evs)%list /\
       (forall h rest, hints evs = h :: rest -> h = None) /\
       hints_follow evs "" (last_context_text_ p')).
Proof.
  intros H p1. subst p1.
  pose proof (start_recording_context dev_ok p H) as Hc.
  split; [exact Hc|]. split.
  - intros old. now apply start_recording_forgets.
  - intros tks p' Hrun.
    destruct (loop_follow whisper tks _ _ Hrun) as (evs & Hl & Hf & Hh).
    exists evs. rewrite Hc in Hf.
    split; [exact Hl|]. split; [exact (Hh Hc) | exact Hf].
Qed.

Lemma run_check_sound (tks : list tick) (p : t)
      (hs : list (option string)) (ts : list string) (ctx : string) :
  run_check tks p hs ts ctx = true ->
  exists p', continuous_loop scripted tks p = Some p' /\
             hints (log p') = hs /\ typed (log p') = ts /\
             last_context_text_ p' = ctx.
Proof.
  unfold run_check.
  destruct (continuous_loop scripted tks p) as [p'|]; [|discriminate].
  destruct (list_eq_dec _ _ hs); [|discriminate].
  destruct (list_eq_dec _ _ ts); [|discriminate].
  destruct (string_dec _ ctx); [|discriminate].
  intros _. now exists p'.
Qed.

(** Three flushes of a session against the scripted recognizer: the
    hints of the three calls, the texts typed and the context left. *)
Example scripted_session :
  exists p',
    continuous_loop scripted (quiet_flush ++ quiet_flush ++ quiet_flush)
                    (start_recording true warm16) = Some p' /\
    hints (log p') = [None; Some " hello world"; Some " hello world foo bar"] /\
    typed (log p') = ["hello world "; "foo bar "; "and so on "] /\
    last_context_text_ p' = " hello world foo bar and so on".
Proof. apply run_check_sound. vm_compute. reflexivity. Qed.

Lemma context_is_per_session_witness :
  recording_ warm16 = false /\
  last_context_text_ (start_recording true warm16) = "" /\
  exists p',
    continuous_loop scripted (quiet_flush ++ quiet_flush) (start_recording true warm16)
    = Some p' /\
    hints (log p') = [None; Some " hello world"] /\
    exists evs,
      log p' = (log (start_recording true warm16) ++ evs)%list /\
      (forall h rest, hints evs = h :: rest -> h = None) /\
      hints_follow evs "" (last_context_text_ p').
Proof.
  assert (Hr : recording_ warm16 = false) by reflexivity.
  destruct (context_is_per_session scripted true warm16 Hr) as (Hc & _ & Hrun).
  destruct (run_check_sound (quiet_flush ++ quiet_flush) (start_recording true warm16)
              [None; Some " hello world"] ["hello world "; "foo bar "]
              " hello world foo bar")
    as (p' & E & Hh & _); [vm_compute; reflexivity|].
  exact (conj Hr (conj Hc (ex_intro _ p' (conj E (conj Hh (Hrun _ p' E)))))).
Defined.

End ContextProps.

(* ------------------------------------------------------------------ *)
(** ** Orchestrator: chunked transcription *)

Module ChunkProps.
Import Pipeline ChunkSpec.

Lemma firstn_min_length (n : Z) (l : list F32.t) :
  0 <= n ->
  firstn (Z.to_nat (Z.min n (Z.of_nat (List.length l)))) l = firstn (Z.to_nat n) l.
Proof. exact (VADProps.firstn_min_len n l). Qed.

Lemma skipn_min_length (n : Z) (l : list F32.t) :
  0 <= n ->
  skipn (Z.to_nat (Z.min n (Z.of_nat (List.length l)))) l = skipn (Z.to_nat n) l.
Proof.
  intros Hn.
  destruct (Z.le_ge_cases n (Z.of_nat (List.length l))) as [H|H].
  - now rewrite Z.min_l.
  - rewrite Z.min_r by lia. rewrite Nat2Z.id, skipn_all.
    symmetry. apply skipn_all2. lia.
Qed.

Lemma length_firstn_min (n : Z) (l : list F32.t) :
  0 <= n ->
  Z.of_nat (Z.to_nat (Z.min n (Z.of_nat (List.length l))))
  = Z.of_nat (List.length (firstn (Z.to_nat n) l)).
Proof. intros Hn. rewrite length_firstn. lia. Qed.

(** The chunk loop transcribes the chunks one after the other, each on
    its own, and moves the segments of each by its offset. *)
Lemma chunk_loop_spec (whisper : WhisperContext.recognizer) (c : WhisperContext.t)
      (fuel : nat) :
  forall (offset : Z) (rest : list F32.t)
         (acc : list TranscriptionSegment) (lg : list event),
    chunk_loop whisper fuel c offset rest acc lg
    = (acc ++ List.concat
               (List.map (rebased_chunk whisper c)
                  (with_offsets offset
                     (chunks_of fuel (Z.to_nat MAX_CHUNK_SAMPLES) rest))),
       lg ++ List.map (fun ch => EvRecognize ch None)
                      (chunks_of fuel (Z.to_nat MAX_CHUNK_SAMPLES) rest)).
Proof.
  induction fuel as [|fuel IH]; intros offset rest acc lg.
  - destruct rest; cbn [chunk_loop chunks_of with_offsets List.map List.concat];
      now rewrite !app_nil_r.
  - destruct rest as [|x rest'].
    + cbn [chunk_loop chunks_of with_offsets List.map List.concat].
      now rewrite !app_nil_r.
    + set (rest := x :: rest').
      cbn [chunk_loop chunks_of]. fold rest.
      rewrite firstn_min_length, skipn_min_length, length_firstn_min
        by (unfold MAX_CHUNK_SAMPLES; lia).
      rewrite IH.
      cbn [with_offsets List.map List.concat].
      unfold rebased_chunk at 2. cbn [fst snd].
      now rewrite <- !app_assoc.
Qed.

(** *** The chunks *)

Lemma chunks_of_nil (fuel n : nat) : chunks_of fuel n [] = [].
Proof. now destruct fuel. Qed.

Lemma chunks_of_concat (n : nat) (fuel : nat) :
  forall l, (0 < n)%nat -> (List.length l <= fuel)%nat ->
            List.concat (chunks_of fuel n l) = l.
Proof.
  induction fuel as [|fuel IH]; intros l Hn Hl.
  - destruct l; [reflexivity | cbn in Hl; lia].
  - destruct l as [|x l']; [reflexivity|].
    set (l := x :: l') in *.
    change (chunks_of (S fuel) n l)
      with (firstn n l :: chunks_of fuel n (skipn n l)).
    cbn [List.concat].
    rewrite IH; [apply firstn_skipn | exact Hn |].
    rewrite length_skipn. subst l. cbn [List.length] in *. lia.
Qed.

(** The [k]-th chunk starts [k * n] samples in and is the next [n]
    samples, or what is left of the input. *)
Lemma chunks_of_nth (n : nat) (fuel : nat) :
  forall (l : list F32.t) (off : Z) (k : nat) (o : Z) (ch : list F32.t),
    (0 < n)%nat ->
    nth_error (with_offsets off (chunks_of fuel n l)) k = Some (o, ch) ->
    o = off + Z.of_nat (k * n) /\
    ch = firstn n (skipn (k * n) l) /\
    ch <> [] /\ (k * n < List.length l)%nat.
Proof.
  induction fuel as [|fuel IH]; intros l off k o ch Hn H.
  - destruct l, k; discriminate.
  - destruct l as [|x l']; [destruct k; discriminate|].
    set (l := x :: l') in *.
    change (chunks_of (S fuel) n l)
      with (firstn n l :: chunks_of fuel n (skipn n l)) in H.
    cbn [with_offsets] in H.
    destruct k as [|k]; cbn [nth_error] in H.
    + injection H as <- <-. cbn [Nat.mul skipn].
      repeat split; [lia | | subst l; cbn [List.length]; lia].
      subst l. destruct n; [lia | discriminate].
    + destruct (Nat.le_gt_cases n (List.length l)) as [Hle|Hgt].
      * apply IH in H as (Ho & Hch & Hne & Hk); [|exact Hn].
        rewrite length_firstn, Nat.min_l in Ho by exact Hle.
        rewrite skipn_skipn in Hch. rewrite length_skipn in Hk.
        replace (S k * n)%nat with (k * n + n)%nat by lia.
        repeat split; [lia | exact Hch | exact Hne | lia].
      * rewrite skipn_all2, chunks_of_nil in H by lia.
        destruct k; discriminate.
Qed.

(** *** Offsets in milliseconds *)

Lemma offset_table_sound (n : nat) :
  forall k, offset_table k n = true ->
            forall j, k <= j < k + Z.of_nat n ->
                      offset_ms (j * MAX_CHUNK_SAMPLES) = 30000 * j.
Proof.
  induction n as [|n IH]; intros k H j Hj; [lia|].
  cbn [offset_table] in H. apply andb_prop in H as [H0 H1].
  destruct (Z.eq_dec j k) as [->|Hne].
  - now apply Z.eqb_eq.
  - apply (IH (k + 1) H1). lia.
Qed.

(** Every offset the chunk loop can reach below 2^31 samples. *)
Lemma offset_table_full : offset_table 0 (Z.to_nat 4474) = true.
Proof. vm_compute. reflexivity. Qed.

Lemma offset_ms_chunk (k : Z) :
  0 <= k -> k * MAX_CHUNK_SAMPLES < 2 ^ 31 ->
  offset_ms (k * MAX_CHUNK_SAMPLES) = 30000 * k.
Proof.
  intros Hk Hb.
  apply (offset_table_sound (Z.to_nat 4474) 0 offset_table_full).
  rewrite Z2Nat.id by lia.
  unfold MAX_CHUNK_SAMPLES in Hb.
  change (2 ^ 31) with 2147483648 in Hb. lia.
Qed.

(** *** Time order *)

Lemma StronglySorted_app (a b : list Z) :
  StronglySorted Z.le a -> StronglySorted Z.le b ->
  (forall x y, In x a -> In y b -> x <= y) ->
  StronglySorted Z.le (a ++ b).
Proof.
  induction a as [|x a IH]; intros Ha Hb Hab; [exact Hb|].
  inversion Ha as [|? ? Ha' Hx]; subst.
  cbn [app]. constructor.
  - apply IH; [exact Ha' | exact Hb |].
    intros u v Hu Hv. apply Hab; [now right | exact Hv].
  - apply Forall_app. split; [exact Hx|].
    apply Forall_forall. intros v Hv. apply Hab; [now left | exact Hv].
Qed.

Lemma StronglySorted_shift (d : Z) (l : list Z) :
  StronglySorted Z.le l -> StronglySorted Z.le (List.map (fun v => v + d) l).
Proof.
  induction 1 as [|x l Hl IH Hx]; cbn [List.map]; constructor; [exact IH|].
  rewrite Forall_map. eapply Forall_impl; [|exact Hx]. cbn. intros; lia.
Qed.

Lemma sorted_strongly (l : list Z) : Sorted Z.le l -> StronglySorted Z.le l.
Proof. apply Sorted_StronglySorted. intros x y z; apply Z.le_trans. Qed.

Lemma blocks_sorted (bs : list (list Z)) :
  forall k, blocks_ok k bs ->
            StronglySorted Z.le (List.concat bs) /\
            Forall (fun v => 30000 * k <= v) (List.concat bs).
Proof.
  induction bs as [|b bs IH]; intros k H; cbn [List.concat].
  - split; constructor.
  - destruct H as (Hs & Hb & Hrest).
    destruct (IH _ Hrest) as [Hs' Hb'].
    rewrite Forall_forall in Hb, Hb'.
    split.
    + apply StronglySorted_app; [exact Hs | exact Hs' |].
      intros x y Hx Hy. specialize (Hb x Hx). specialize (Hb' y Hy). lia.
    + apply Forall_app. split; apply Forall_forall; intros v Hv.
      * specialize (Hb v Hv). lia.
      * specialize (Hb' v Hv). lia.
Qed.

Section TimeOrder.

Variable whisper : WhisperContext.recognizer.
Variable c : WhisperContext.t.

(** A time stamp of a segment: its start or its end. *)
Variable stamp : TranscriptionSegment -> Z.
Hypothesis stamp_rebase : forall off s, stamp (rebase off s) = stamp s + off.

Lemma rebased_stamps (oc : Z * list F32.t) :
  List.map stamp (rebased_chunk whisper c oc)
  = List.map (fun v => v + offset_ms (fst oc))
      (List.map stamp (segments (WhisperContext.transcribe whisper c (snd oc) None))).
Proof.
  unfold rebased_chunk. rewrite !map_map.
  apply map_ext. intros s. apply stamp_rebase.
Qed.

Lemma chunk_blocks (fuel : nat) :
  forall (l : list F32.t) (k : Z),
    0 <= k ->
    k * MAX_CHUNK_SAMPLES + Z.of_nat (List.length l) <= 2 ^ 31 ->
    Forall (fun chunk =>
              Sorted Z.le
                (List.map stamp
                   (segments (WhisperContext.transcribe whisper c chunk None))) /\
              Forall (fun s => 0 <= stamp s <= 30000)
                     (segments (WhisperContext.transcribe whisper c chunk None)))
           (chunks_of fuel (Z.to_nat MAX_CHUNK_SAMPLES) l) ->
    blocks_ok k
      (List.map (fun oc => List.map stamp (rebased_chunk whisper c oc))
         (with_offsets (k * MAX_CHUNK_SAMPLES)
            (chunks_of fuel (Z.to_nat MAX_CHUNK_SAMPLES) l))).
Proof.
  induction fuel as [|fuel IH]; intros l k Hk Hl Hok.
  - now destruct l.
  - destruct l as [|x l']; [exact I|].
    set (l := x :: l') in *.
    change (chunks_of (S fuel) (Z.to_nat MAX_CHUNK_SAMPLES) l)
      with (firstn (Z.to_nat MAX_CHUNK_SAMPLES) l
            :: chunks_of fuel (Z.to_nat MAX_CHUNK_SAMPLES)
                 (skipn (Z.to_nat MAX_CHUNK_SAMPLES) l)) in *.
    apply Forall_cons_iff in Hok as [[stamp_sorted stamp_bound] Hrest].
    cbn [with_offsets List.map blocks_ok].
    assert (Hpos : 0 < Z.of_nat (List.length l))
      by (subst l; cbn [List.length]; lia).
    rewrite rebased_stamps. cbn [fst snd].
    rewrite offset_ms_chunk by lia.
    split; [|split].
    + apply StronglySorted_shift, sorted_strongly, stamp_sorted.
    + rewrite Forall_map.
      pose proof stamp_bound as B.
      rewrite Forall_map. eapply Forall_impl; [|exact B].
      cbn beta. intros s Hs. lia.
    + destruct (Nat.le_gt_cases (Z.to_nat MAX_CHUNK_SAMPLES) (List.length l))
        as [Hle|Hgt].
      * rewrite length_firstn, Nat.min_l by exact Hle.
        rewrite Z2Nat.id by (unfold MAX_CHUNK_SAMPLES; lia).
        replace (k * MAX_CHUNK_SAMPLES + MAX_CHUNK_SAMPLES)
          with ((k + 1) * MAX_CHUNK_SAMPLES) by ring.
        apply IH; [lia | | exact Hrest].
        rewrite length_skipn. unfold MAX_CHUNK_SAMPLES in *. lia.
      * rewrite skipn_all2, chunks_of_nil by lia. exact I.
Qed.

Lemma chunked_stamps_sorted (samples : list F32.t) :
  Z.of_nat (List.length samples) < 2 ^ 31 ->
  Forall (fun chunk =>
            Sorted Z.le
              (List.map stamp
                 (segments (WhisperContext.transcribe whisper c chunk None))) /\
            Forall (fun s => 0 <= stamp s <= 30000)
                   (segments (WhisperContext.transcribe whisper c chunk None)))
         (chunks samples) ->
  Sorted Z.le (List.map stamp (chunked_segments whisper c samples)).
Proof.
  intros Hl Hok. unfold chunked_segments.
  rewrite concat_map, map_map.
  apply StronglySorted_Sorted.
  apply (blocks_sorted _ 0).
  change 0 with (0 * MAX_CHUNK_SAMPLES) at 2.
  unfold chunks in *. apply chunk_blocks; [lia | lia | exact Hok].
Qed.

End TimeOrder.

Lemma int_of_size_t_small (n : Z) : 0 <= n < 2 ^ 31 -> int_of_size_t n = n.
Proof.
  intros H. unfold int_of_size_t.
  change (2 ^ 31) with 2147483648 in *. change (2 ^ 32) with 4294967296.
  rewrite Z.mod_small; lia.
Qed.

Lemma transcribe_chunked_spec (whisper : WhisperContext.recognizer)
      (clock_ms : F64.t) (p : t) (c : WhisperContext.t) (samples : list F32.t) :
  let r := transcribe_chunked whisper clock_ms p c samples in
  log (fst r)
  = log p ++ List.map (fun ch => EvRecognize ch None) (chunks samples) /\
  segments (snd r) = chunked_segments whisper c samples /\
  audio_duration_ms (snd r)
  = F64.div (F64.of_Z (Z.of_nat (List.length samples))) (F64.of_Z 16) /\
  transcription_time_ms (snd r) = clock_ms.
Proof.
  unfold transcribe_chunked. rewrite chunk_loop_spec.
  cbn [fst snd log segments audio_duration_ms transcription_time_ms app].
  repeat split.
Qed.

(** C4, as the code has it.  An input of more than MAX_CHUNK_SAMPLES
    samples (and fewer than 2^31) is cut into consecutive chunks of
    MAX_CHUNK_SAMPLES samples, the last one holding the rest, which
    together are the whole input; chunk k starts at sample
    k * MAX_CHUNK_SAMPLES, that is 30000 * k ms.  The chunks are handed to
    the recognizer one by one in order, each on its own with no context;
    the start and end of every segment are increased by the chunk's
    offset in milliseconds and the segments are concatenated in chunk
    order.  The re-based start times and end times are non-decreasing
    along the result, also across chunk boundaries, provided the
    recognizer reports for each chunk of this input segments in time
    order that lie within the 30 s a chunk spans (nothing is asked of the
    recognizer on other inputs); the code itself neither orders nor
    clamps what the recognizer reports. *)
Theorem chunked_transcription (whisper : WhisperContext.recognizer)
        (clock_ms : F64.t) (p : t) (c : WhisperContext.t) (samples : list F32.t) :
  MAX_CHUNK_SAMPLES < Z.of_nat (List.length samples) < 2 ^ 31 ->
  let r := transcribe_chunked whisper clock_ms p c samples in
  List.concat (chunks samples) = samples /\
  (forall k o ch,
     nth_error (with_offsets 0 (chunks samples)) k = Some (o, ch) ->
     o = Z.of_nat k * MAX_CHUNK_SAMPLES /\
     ch = firstn (Z.to_nat MAX_CHUNK_SAMPLES)
                 (skipn (k * Z.to_nat MAX_CHUNK_SAMPLES) samples) /\
     ch <> [] /\
     offset_ms o = 30000 * Z.of_nat k) /\
  log (fst r)
  = log p ++ List.map (fun ch => EvRecognize ch None) (chunks samples) /\
  segments (snd r) = chunked_segments whisper c samples /\
  audio_duration_ms (snd r)
  = F64.div (F64.of_Z (Z.of_nat (List.length samples))) (F64.of_Z 16) /\
  transcription_time_ms (snd r) = clock_ms /\
  (ctx_ p = Some c ->
   snd (transcribe_and_output whisper clock_ms p samples)
   = snd (transcribe_chunked whisper clock_ms
            (emit EvTranscriptionStart (set_transcribing true p)) c samples)) /\
  (well_timed whisper c samples ->
   Sorted Z.le (List.map start_time (segments (snd r))) /\
   Sorted Z.le (List.map end_time (segments (snd r)))).
Proof.
  intros Hlen r.
  destruct (transcribe_chunked_spec whisper clock_ms p c samples)
    as (Hlog & Hseg & Hdur & Htime).
  fold r in Hlog, Hseg, Hdur, Htime.
  assert (Hmax : (0 < Z.to_nat MAX_CHUNK_SAMPLES)%nat)
    by (unfold MAX_CHUNK_SAMPLES; lia).
  split; [apply chunks_of_concat; [exact Hmax | lia]|].
  split.
  { intros k o ch H. unfold chunks in H.
    apply chunks_of_nth in H as (Ho & Hch & Hne & Hk); [|exact Hmax].
    assert (Eo : o = Z.of_nat k * MAX_CHUNK_SAMPLES).
    { rewrite Ho, Nat2Z.inj_mul, Z2Nat.id by (unfold MAX_CHUNK_SAMPLES; lia).
      ring. }
    repeat split; try assumption.
    rewrite Eo. apply offset_ms_chunk; [lia|].
    apply Nat2Z.inj_lt in Hk.
    rewrite Nat2Z.inj_mul, Z2Nat.id in Hk by (unfold MAX_CHUNK_SAMPLES; lia).
    lia. }
  split; [exact Hlog|]. split; [exact Hseg|].
  split; [exact Hdur|]. split; [exact Htime|].
  split.
  - intros Hc. unfold transcribe_and_output. rewrite Hc.
    rewrite int_of_size_t_small by lia.
    replace (Z.of_nat (List.length samples) >? MAX_CHUNK_SAMPLES) with true
      by (symmetry; apply Z.gtb_lt; lia).
    destruct (transcribe_chunked whisper clock_ms
                (emit EvTranscriptionStart (set_transcribing true p)) c samples)
      as [p2 result].
    reflexivity.
  - intros W. rewrite Hseg. unfold well_timed, timed in W. split.
    + apply chunked_stamps_sorted; [reflexivity | lia |].
      eapply Forall_impl; [|exact W].
      cbv zeta. intros chunk (S1 & _ & B). split; [exact S1|].
      eapply Forall_impl; [|exact B]. cbn beta. intros s Hs. lia.
    + apply chunked_stamps_sorted; [reflexivity | lia |].
      eapply Forall_impl; [|exact W].
      cbv zeta. intros chunk (_ & S2 & B). split; [exact S2|].
      eapply Forall_impl; [|exact B]. cbn beta. intros s Hs. lia.
Qed.

Lemma long_audio_length : Z.of_nat (List.length long_audio) = 480001.
Proof. unfold long_audio. rewrite repeat_length. apply Z2Nat.id. lia. Qed.

Lemma chunks_of_length (n : nat) (fuel : nat) :
  forall l : list F32.t,
    Forall (fun ch => (List.length ch <= n)%nat) (chunks_of fuel n l).
Proof.
  induction fuel as [|fuel IH]; intros l.
  - destruct l; constructor.
  - destruct l as [|x l']; [constructor|].
    change (chunks_of (S fuel) n (x :: l'))
      with (firstn n (x :: l') :: chunks_of fuel n (skipn n (x :: l'))).
    constructor; [|apply IH].
    rewrite length_firstn. lia.
Qed.

(** The recognizer [paced] is in time on the chunks of every recording. *)
Lemma paced_well_timed (c : WhisperContext.t) (samples : list F32.t) :
  well_timed paced c samples.
Proof.
  unfold well_timed, chunks.
  eapply Forall_impl; [|apply chunks_of_length].
  intros chunk Hlen. unfold timed, WhisperContext.transcribe, paced.
  cbn [WhisperContext.status Z.eqb negb WhisperContext.raw_segments
       segments List.map WhisperContext.segment_of_raw start_time end_time].
  assert (Hq : 0 <= Z.of_nat (List.length chunk) / 160 <= 3000).
  { split; [apply Z.div_pos; lia|].
    apply Z.div_le_upper_bound; [lia|]. unfold MAX_CHUNK_SAMPLES in Hlen. lia. }
  split; [|split].
  - constructor; constructor.
  - constructor; constructor.
  - constructor; [cbn [start_time end_time]; lia | constructor].
Qed.

(** It is not in time on an input longer than a chunk: asked about
    30 s and one sample more at once, it ends its segment past 30 s. *)
Lemma paced_late_on_long_input (c : WhisperContext.t) :
  ~ timed paced c (repeat F32.zero (Z.to_nat 480160)).
Proof.
  unfold timed, WhisperContext.transcribe, paced.
  cbn [WhisperContext.status Z.eqb negb WhisperContext.raw_segments
       segments List.map WhisperContext.segment_of_raw start_time end_time].
  rewrite repeat_length, Z2Nat.id by lia.
  intros (_ & _ & B). inversion B as [|? ? [_ H] _]; subst.
  cbn [end_time] in H. change (480160 / 160) with 3001 in H. lia.
Qed.

Lemma chunked_transcription_witness :
  MAX_CHUNK_SAMPLES < Z.of_nat (List.length long_audio) < 2 ^ 31 /\
  well_timed paced (WhisperContext.mk default_settings "base") long_audio /\
  Sorted Z.le
    (List.map start_time
       (segments
          (snd (transcribe_chunked paced F64.zero PipelineSpec.loaded
                  (WhisperContext.mk default_settings "base") long_audio)))) /\
  Sorted Z.le
    (List.map end_time
       (segments
          (snd (transcribe_chunked paced F64.zero PipelineSpec.loaded
                  (WhisperContext.mk default_settings "base") long_audio)))).
Proof.
  assert (Hl : MAX_CHUNK_SAMPLES < Z.of_nat (List.length long_audio) < 2 ^ 31).
  { rewrite long_audio_length. split; reflexivity. }
  pose proof (paced_well_timed (WhisperContext.mk default_settings "base") long_audio)
    as W.
  destruct (chunked_transcription paced F64.zero PipelineSpec.loaded
              (WhisperContext.mk default_settings "base") long_audio Hl)
    as (_ & _ & _ & _ & _ & _ & _ & H).
  exact (conj Hl (conj W (H W))).
Defined.

(** Against the recognizer [late] the segment of the first chunk starts
    at 35000 ms and ends at 40000 ms, that of the second chunk at 30000 ms
    and 31000 ms: neither the starts nor the ends are in order. *)
Lemma chunked_times_not_monotone :
  MAX_CHUNK_SAMPLES < Z.of_nat (List.length long_audio) /\
  List.map (fun s => (start_time s, end_time s))
    (segments
       (snd (transcribe_chunked late F64.zero PipelineSpec.loaded
               (WhisperContext.mk default_settings "base") long_audio)))
  = [(35000, 40000); (30000, 31000)] /\
  ~ Sorted Z.le
      (List.map start_time
         (segments
            (snd (transcribe_chunked late F64.zero PipelineSpec.loaded
                    (WhisperContext.mk default_settings "base") long_audio)))) /\
  ~ Sorted Z.le
      (List.map end_time
         (segments
            (snd (transcribe_chunked late F64.zero PipelineSpec.loaded
                    (WhisperContext.mk default_settings "base") long_audio)))).
Proof.
  assert (E : List.map (fun s => (start_time s, end_time s))
                (segments
                   (snd (transcribe_chunked late F64.zero PipelineSpec.loaded
                           (WhisperContext.mk default_settings "base") long_audio)))
              = [(35000, 40000); (30000, 31000)])
    by (vm_compute; reflexivity).
  split; [rewrite long_audio_length; reflexivity|].
  split; [exact E|].
  split; intros S.
  - assert (S' : Sorted Z.le (List.map fst [(35000, 40000); (30000, 31000)])).
    { rewrite <- E, map_map. exact S. }
    cbn in S'. inversion S' as [|? ? _ Hd]; subst. inversion Hd; subst. lia.
  - assert (S' : Sorted Z.le (List.map snd [(35000, 40000); (30000, 31000)])).
    { rewrite <- E, map_map. exact S. }
    cbn in S'. inversion S' as [|? ? _ Hd]; subst. inversion Hd; subst. lia.
Qed.

End ChunkProps.

(* ------------------------------------------------------------------ *)
(** ** Orchestrator: short sessions and failures *)

Module SessionProps.
Import Pipeline PipelineSpec ChunkSpec ContextProps ChunkProps.
Local Open Scope string_scope.
Local Open Scope Z_scope.

(** C8. In buffered mode (no monitor running),
    [stop_recording_and_transcribe] on a recording session whose drained
    and resampled audio has fewer than MIN_SAMPLES samples returns the
    empty result with no error; it makes no recognizer call and types no
    text (the log is unchanged), and leaves the statistics alone. *)
Theorem short_session_is_empty (whisper : WhisperContext.recognizer)
        (clock_ms : F64.t) (p : t) (a : AudioEngine.t) (samples : list F32.t) :
  recording_ p = true ->
  continuous_running_ p = false ->
  AudioEngine.stop_recording (audio_ p) = Some (a, samples) ->
  Z.of_nat (List.length samples) < MIN_SAMPLES ->
  exists p',
    stop_recording_and_transcribe whisper clock_ms p = Some (p', empty_result) /\
    log p' = log p /\
    recognized (log p') = recognized (log p) /\
    typed (log p') = typed (log p) /\
    recording_ p' = false /\
    transcribing_ p' = transcribing_ p /\
    did_output_ p' = did_output_ p /\
    perf_ p' = perf_ p /\
    last_context_text_ p' = last_context_text_ p.
Proof.
  intros Hrec Hmon Hstop Hshort.
  unfold stop_recording_and_transcribe, stop_continuous_monitor.
  rewrite Hrec. cbn [negb]. pipe_simpl. rewrite Hstop.
  rewrite int_of_size_t_small
    by (unfold MIN_SAMPLES in Hshort; change (2 ^ 31) with 2147483648; lia).
  replace (Z.of_nat (List.length samples) <? MIN_SAMPLES)%Z with true
    by (symmetry; apply Z.ltb_lt; exact Hshort).
  eexists. split; [reflexivity|]. pipe_simpl. repeat split.
Qed.

Lemma short_session_is_empty_witness :
  (recording_ short_take = true /\
   continuous_running_ short_take = false /\
   AudioEngine.stop_recording (audio_ short_take)
   = Some (AudioEngine.mk true (VAD.reset VAD.initial) (RingBuffer.mk [])
             AudioEngine.rate_48000 true false, [F32.one]) /\
   Z.of_nat (List.length [F32.one]) < MIN_SAMPLES) /\
  exists p',
    stop_recording_and_transcribe failing F64.zero short_take
    = Some (p', empty_result) /\
    log p' = log short_take.
Proof.
  assert (H1 : recording_ short_take = true) by reflexivity.
  assert (H2 : continuous_running_ short_take = false) by reflexivity.
  assert (H3 : AudioEngine.stop_recording (audio_ short_take)
               = Some (AudioEngine.mk true (VAD.reset VAD.initial) (RingBuffer.mk [])
                         AudioEngine.rate_48000 true false, [F32.one]))
    by reflexivity.
  assert (H4 : Z.of_nat (List.length [F32.one]) < MIN_SAMPLES) by reflexivity.
  destruct (short_session_is_empty failing F64.zero short_take _ _ H1 H2 H3 H4)
    as (p' & E & Hl & _).
  exact (conj (conj H1 (conj H2 (conj H3 H4))) (ex_intro _ p' (conj E Hl))).
Defined.

(** *** Failures *)

Lemma transcribe_failure (whisper : WhisperContext.recognizer)
      (c : WhisperContext.t) (samples : list F32.t) (prompt : option string) :
  WhisperContext.status (whisper (WhisperContext.make_params c prompt) samples) <> 0 ->
  WhisperContext.transcribe whisper c samples prompt
  = mkResult []
      (F64.div (F64.of_Z (Z.of_nat (List.length samples))) (F64.of_Z 16))
      (WhisperContext.elapsed_ms
         (whisper (WhisperContext.make_params c prompt) samples))
      (WhisperContext.model_name_ c).
Proof.
  intros H. unfold WhisperContext.transcribe.
  destruct (Z.eqb_spec
              (WhisperContext.status
                 (whisper (WhisperContext.make_params c prompt) samples)) 0)
    as [E|E]; [contradiction | reflexivity].
Qed.

Lemma typed_app (a b : list event) : typed (a ++ b) = (typed a ++ typed b)%list.
Proof.
  induction a as [|e a IH]; [reflexivity|].
  destruct e; cbn; now rewrite IH.
Qed.

Lemma typed_recognize (cs : list (list F32.t)) :
  typed (List.map (fun ch => EvRecognize ch None) cs) = [].
Proof. induction cs as [|ch cs IH]; [reflexivity | exact IH]. Qed.

Lemma chunked_segments_failure (whisper : WhisperContext.recognizer)
      (c : WhisperContext.t) (samples : list F32.t) :
  (forall chunk,
     WhisperContext.status
       (whisper (WhisperContext.make_params c None) chunk) <> 0) ->
  chunked_segments whisper c samples = [].
Proof.
  intros F. unfold chunked_segments.
  induction (with_offsets 0 (chunks samples)) as [|oc ocs IH]; [reflexivity|].
  cbn [List.map List.concat]. rewrite IH.
  unfold rebased_chunk. rewrite transcribe_failure by apply F. reflexivity.
Qed.

(** Only the log differs after [transcribe_chunked]. *)
Lemma transcribe_chunked_fields (whisper : WhisperContext.recognizer)
      (clock_ms : F64.t) (p : t) (c : WhisperContext.t) (samples : list F32.t) :
  let q := fst (transcribe_chunked whisper clock_ms p c samples) in
  perf_ q = perf_ p /\ recording_ q = recording_ p /\
  transcribing_ q = transcribing_ p /\ did_output_ q = did_output_ p /\
  last_context_text_ q = last_context_text_ p /\
  continuous_running_ q = continuous_running_ p.
Proof.
  unfold transcribe_chunked.
  destruct (chunk_loop _ _ _ _ _ _ _) as [segs lg]. cbn. repeat split.
Qed.

(** A recognizer call of [transcribe_and_output] that fails: the session
    goes on, nothing is typed. *)
Lemma transcribe_and_output_failure (whisper : WhisperContext.recognizer)
      (clock_ms : F64.t) (p : t) (c : WhisperContext.t) (samples : list F32.t) :
  ctx_ p = Some c ->
  (forall chunk,
     WhisperContext.status
       (whisper (WhisperContext.make_params c None) chunk) <> 0) ->
  let r := transcribe_and_output whisper clock_ms p samples in
  segments (snd r) = [] /\
  audio_duration_ms (snd r)
  = F64.div (F64.of_Z (Z.of_nat (List.length samples))) (F64.of_Z 16) /\
  transcription_time_ms (snd r)
  = (if int_of_size_t (Z.of_nat (List.length samples)) >? MAX_CHUNK_SAMPLES
     then clock_ms
     else WhisperContext.elapsed_ms
            (whisper (WhisperContext.make_params c None) samples)) /\
  typed (log (fst r)) = typed (log p) /\
  recording_ (fst r) = recording_ p /\
  continuous_running_ (fst r) = continuous_running_ p /\
  transcribing_ (fst r) = false /\
  did_output_ (fst r) = did_output_ p /\
  last_context_text_ (fst r) = last_context_text_ p.
Proof.
  intros Hc F r. subst r. unfold transcribe_and_output. rewrite Hc.
  destruct (int_of_size_t (Z.of_nat (List.length samples)) >? MAX_CHUNK_SAMPLES).
  - set (p1 := emit EvTranscriptionStart (set_transcribing true p)).
    destruct (transcribe_chunked_spec whisper clock_ms p1 c samples)
      as (Hlog & Hseg & Hdur & Htime).
    destruct (transcribe_chunked_fields whisper clock_ms p1 c samples)
      as (_ & Hr & _ & Hd & Hx & Hm).
    rewrite (chunked_segments_failure whisper c samples F) in Hseg.
    destruct (transcribe_chunked whisper clock_ms p1 c samples) as [p2 result].
    cbn [fst snd] in *.
    assert (Et : full_text result = "") by (unfold full_text; now rewrite Hseg).
    rewrite Et. cbn [Str.strip Str.strip_front Str.strip_back Str.strip_back_loop
                     String.length Str.empty].
    pipe_simpl. rewrite typed_app, Hlog, typed_app, typed_recognize, Hr, Hd, Hx, Hm.
    subst p1. pipe_simpl. rewrite typed_app, !app_nil_r.
    repeat split; assumption.
  - rewrite (transcribe_failure whisper c samples None (F samples)).
    cbn [full_text segments fold_left
         Str.strip Str.strip_front Str.strip_back Str.strip_back_loop
         String.length Str.empty].
    pipe_simpl. rewrite !typed_app, !app_nil_r.
    repeat split.
Qed.

(** A recognizer call of the monitor loop that fails: the pass ends
    with nothing committed and the loop goes on. *)
Lemma transcribe_flush_failure (whisper : WhisperContext.recognizer)
      (c : WhisperContext.t) (resampled : list F32.t) (p : t) :
  WhisperContext.status
    (whisper (WhisperContext.make_params c (next_prompt (last_context_text_ p)))
             resampled) <> 0 ->
  let p' := transcribe_flush whisper c resampled p in
  log p' = (log p ++ [EvTranscriptionStart;
                      EvRecognize resampled (next_prompt (last_context_text_ p));
                      EvTranscriptionEnd])%list /\
  last_context_text_ p' = last_context_text_ p /\
  perf_ p' = perf_ p /\
  recording_ p' = recording_ p /\
  continuous_running_ p' = continuous_running_ p /\
  transcribing_ p' = false.
Proof.
  intros F. unfold transcribe_flush. cbv zeta.
  change (last_context_text_ (emit EvTranscriptionStart (set_transcribing true p)))
    with (last_context_text_ p).
  rewrite (transcribe_failure whisper c resampled _ F).
  cbn [full_text segments fold_left
       Str.strip Str.strip_front Str.strip_back Str.strip_back_loop
       String.length Str.empty orb].
  pipe_simpl. rewrite <- !app_assoc. repeat split.
Qed.

(** C9. Failure handling.  With no recognizer loaded, transcribing
    returns the empty result, changes nothing and raises no error (and a
    pass of the monitor loop makes no call).  When the recognizer run
    itself fails, [transcribe] returns a result with no segments whose
    audio duration is the sample count divided by 16 and whose compute time
    is the measured time; the orchestrator's call then types nothing,
    leaves the recording and monitor flags as they were and clears
    [transcribing_], so the session goes on. *)
Theorem failure_handling (whisper : WhisperContext.recognizer) :
  (forall clock_ms p samples,
     ctx_ p = None ->
     transcribe_and_output whisper clock_ms p samples = (p, empty_result)) /\
  (forall tk p p',
     ctx_ p = None -> continuous_iteration whisper tk p = Some p' ->
     log p' = log p /\ last_context_text_ p' = last_context_text_ p) /\
  (forall c samples prompt,
     WhisperContext.status
       (whisper (WhisperContext.make_params c prompt) samples) <> 0 ->
     WhisperContext.transcribe whisper c samples prompt
     = mkResult []
         (F64.div (F64.of_Z (Z.of_nat (List.length samples))) (F64.of_Z 16))
         (WhisperContext.elapsed_ms
            (whisper (WhisperContext.make_params c prompt) samples))
         (WhisperContext.model_name_ c)) /\
  (forall clock_ms p c samples,
     ctx_ p = Some c ->
     (forall chunk,
        WhisperContext.status
          (whisper (WhisperContext.make_params c None) chunk) <> 0) ->
     let r := transcribe_and_output whisper clock_ms p samples in
     segments (snd r) = [] /\
     audio_duration_ms (snd r)
     = F64.div (F64.of_Z (Z.of_nat (List.length samples))) (F64.of_Z 16) /\
     transcription_time_ms (snd r)
     = (if int_of_size_t (Z.of_nat (List.length samples)) >? MAX_CHUNK_SAMPLES
        then clock_ms
        else WhisperContext.elapsed_ms
               (whisper (WhisperContext.make_params c None) samples)) /\
     typed (log (fst r)) = typed (log p) /\
     recording_ (fst r) = recording_ p /\
     continuous_running_ (fst r) = continuous_running_ p /\
     transcribing_ (fst r) = false /\
     did_output_ (fst r) = did_output_ p /\
     last_context_text_ (fst r) = last_context_text_ p) /\
  (forall c resampled p,
     WhisperContext.status
       (whisper (WhisperContext.make_params c (next_prompt (last_context_text_ p)))
                resampled) <> 0 ->
     let p' := transcribe_flush whisper c resampled p in
     log p' = (log p ++ [EvTranscriptionStart;
                         EvRecognize resampled (next_prompt (last_context_text_ p));
                         EvTranscriptionEnd])%list /\
     last_context_text_ p' = last_context_text_ p /\
     perf_ p' = perf_ p /\
     recording_ p' = recording_ p /\
     continuous_running_ p' = continuous_running_ p /\
     transcribing_ p' = false).
Proof.
  split; [|split; [|split; [|split]]].
  - intros clock_ms p samples Hc. unfold transcribe_and_output. now rewrite Hc.
  - intros tk p p' Hc H.
    apply iteration_cases in H as [H|(c & _ & _ & Hc' & _)]; [exact H|].
    congruence.
  - intros c samples prompt. apply transcribe_failure.
  - intros clock_ms p c samples. apply transcribe_and_output_failure.
  - intros c resampled p. apply transcribe_flush_failure.
Qed.

Lemma failure_handling_witness :
  (ctx_ PipelineSpec.loaded = Some (WhisperContext.mk default_settings "base") /\
   forall chunk,
     WhisperContext.status
       (failing (WhisperContext.make_params
                   (WhisperContext.mk default_settings "base") None) chunk) <> 0) /\
  snd (transcribe_and_output failing F64.zero PipelineSpec.loaded [F32.one; F32.one])
  = mkResult [] (S754_finite false 4503599627370496 (-55)) (F64.of_Z 7) "base" /\
  recording_ (fst (transcribe_and_output failing F64.zero PipelineSpec.loaded
                     [F32.one; F32.one])) = false /\
  transcribe_and_output failing F64.zero Pipeline.initial [F32.one]
  = (Pipeline.initial, empty_result).
Proof.
  assert (Hc : ctx_ PipelineSpec.loaded
               = Some (WhisperContext.mk default_settings "base")) by reflexivity.
  assert (F : forall chunk,
             WhisperContext.status
               (failing (WhisperContext.make_params
                           (WhisperContext.mk default_settings "base") None) chunk)
             <> 0) by (intros chunk; discriminate).
  destruct (failure_handling failing) as (H1 & _ & _ & H4 & _).
  destruct (H4 F64.zero PipelineSpec.loaded _ [F32.one; F32.one] Hc F)
    as (_ & _ & _ & _ & Hr & _).
  exact (conj (conj Hc F)
              (conj eq_refl (conj Hr (H1 F64.zero Pipeline.initial [F32.one] eq_refl)))).
Defined.

End SessionProps.

(* ------------------------------------------------------------------ *)
(** ** Resampler *)

Module ResampleProps.
Import AudioEngine ResampleSpec.

(** *** Exact products and sums in binary32 *)

Lemma shift_23 (m : positive) :
  iter_pos shr_1 23
    (Build_shr_record (Zpos (Pos.mul m 8388608)) false false)
  = Build_shr_record (Zpos m) false false.
Proof. rewrite Pos.mul_comm. reflexivity. Qed.

Lemma digits_shift_23 (m : positive) :
  Zpos (digits2_pos (Pos.mul m 8388608)) = Zpos (digits2_pos m) + 23.
Proof.
  rewrite Pos.mul_comm. cbn [Pos.mul digits2_pos].
  rewrite !Pos2Z.inj_succ. lia.
Qed.

(** Multiplying a well-formed finite value by 1.0f gives it back. *)
Lemma mul_one_exact (s : bool) (m : positive) (e : Z) :
  F32.valid (S754_finite s m e) = true ->
  F32.mul (S754_finite s m e) F32.one = S754_finite s m e.
Proof.
  unfold F32.valid, valid_binary, bounded, canonical_mantissa.
  intros H. apply andb_prop in H as [Hc Hb].
  apply Z.eqb_eq in Hc.
  unfold F32.mul, F32.one, SFmul, binary_round_aux.
  rewrite xorb_false_r.
  assert (E1 : shr_fexp F32.prec F32.emax (Zpos (Pos.mul m 8388608)) (e + -23) loc_Exact
               = (Build_shr_record (Zpos m) false false, e)).
  { unfold shr_fexp. cbn [Zdigits2 shr_record_of_loc].
    rewrite digits_shift_23.
    replace (Zpos (digits2_pos m) + 23 + (e + -23)) with (Zpos (digits2_pos m) + e)
      by lia.
    rewrite Hc.
    replace (e - (e + -23)) with 23 by lia.
    unfold shr. rewrite (shift_23 m). f_equal. lia. }
  rewrite E1. cbn [shr_m loc_of_shr_record round_nearest_even].
  assert (E2 : shr_fexp F32.prec F32.emax (Zpos m) e loc_Exact
               = (Build_shr_record (Zpos m) false false, e)).
  { unfold shr_fexp. cbn [Zdigits2 shr_record_of_loc].
    rewrite Hc, Z.sub_diag. reflexivity. }
  rewrite E2. cbn [shr_m]. now rewrite Hb.
Qed.

(** With a zero fraction the interpolation of a well-formed finite
    constant is that constant. *)
Lemma lerp_constant_exact (c : F32.t) :
  F32.is_finite c = true -> F32.valid c = true ->
  lerp c c F32.zero = c.
Proof.
  intros Hf Hv. unfold lerp.
  change (F32.sub F32.one F32.zero) with F32.one.
  destruct c as [s|s| |s m e]; try discriminate.
  - destruct s; reflexivity.
  - rewrite (mul_one_exact s m e Hv). reflexivity.
Qed.

(** *** The interpolation loop *)

Lemma resample_loop_spec (input : list F32.t) (ratio : F64.t) (n : nat) :
  forall (first : Z) (out : list F32.t),
    resample_loop input ratio first n = Some out ->
    List.length out = n /\
    forall j y, nth_error out j = Some y ->
                interpolate input ratio (first + Z.of_nat j) = Some y.
Proof.
  induction n as [|n IH]; intros first out H; cbn [resample_loop] in H.
  - injection H as <-. split; [reflexivity|]. intros [|j] y; discriminate.
  - destruct (interpolate input ratio first) as [y0|] eqn:E0; [|discriminate].
    destruct (resample_loop input ratio (first + 1) n) as [ys|] eqn:E1;
      [|discriminate].
    injection H as <-. destruct (IH _ _ E1) as [Hl Hn].
    split; [cbn; now rewrite Hl|].
    intros [|j] y Hy; cbn [nth_error] in Hy.
    + injection Hy as <-. now rewrite Z.add_0_r.
    + replace (first + Z.of_nat (S j)) with (first + 1 + Z.of_nat j) by lia.
      now apply Hn.
Qed.

Lemma interpolate_lerp_at (input : list F32.t) (ratio : F64.t) (i : Z) (y : F32.t) :
  Z.of_nat (List.length input) < 2 ^ 64 ->
  interpolate input ratio i = Some y -> lerp_at input ratio i y.
Proof.
  intros Hsz. unfold interpolate, lerp_at.
  destruct (F64.to_size_t (F64.mul (F64.of_Z i) ratio)) as [idx0|] eqn:E0;
    [|discriminate].
  destruct (nth_error input (Z.to_nat idx0)) as [x0|] eqn:Ex0; [|discriminate].
  assert (Hidx : 0 <= idx0 < Z.of_nat (List.length input)).
  { assert (Hn : (Z.to_nat idx0 < List.length input)%nat)
      by (apply nth_error_Some; congruence).
    unfold F64.to_size_t in E0.
    destruct (F64.trunc _) as [v|]; [|discriminate].
    destruct (0 <=? v) eqn:Ev; [|discriminate]. cbn [andb] in E0.
    destruct (v <? 2 ^ 64); [|discriminate].
    injection E0 as <-. apply Z.leb_le in Ev. lia. }
  rewrite Z.mod_small by lia.
  destruct (nth_error input (Z.to_nat (Z.min (idx0 + 1) (len input - 1))))
    as [x1|] eqn:Ex1; [|discriminate].
  intros [= <-]. exists idx0, x0, x1. repeat split; assumption.
Qed.

Lemma nth_error_repeat_inv (c x : F32.t) (n k : nat) :
  nth_error (repeat c n) k = Some x -> x = c.
Proof.
  intros H. apply nth_error_In in H. now apply repeat_spec in H.
Qed.

(** C7, as the code has it.  When the rates are equal or the input is
    empty the output is the input.  Otherwise, whenever the conversions
    to an index are defined, the output has
    trunc(double(input length) / (from / to)) samples, the division being
    that of doubles, and output sample i is the single-precision linear
    interpolation [x0 * (1 - frac) + x1 * frac] of the two input samples
    around the fractional source index i * (from / to), the upper index
    clamped to the last input sample.  On a constant input c this is
    [c * (1 - frac) + c * frac] rounded in single precision: it is c
    wherever the fraction is zero and c is a well-formed finite value, and
    may differ from c in the last place elsewhere. *)
Theorem resample_spec (input : list F32.t) (from to : F64.t) :
  Z.of_nat (List.length input) < 2 ^ 64 ->
  ((F64.eqb from to = true \/ input = []) -> resample input from to = Some input) /\
  (forall out,
     F64.eqb from to = false -> input <> [] ->
     resample input from to = Some out ->
     F64.to_size_t (F64.div (F64.of_Z (len input)) (F64.div from to))
     = Some (Z.of_nat (List.length out)) /\
     (forall i y, nth_error out i = Some y ->
                  lerp_at input (F64.div from to) (Z.of_nat i) y) /\
     (forall c, input = repeat c (List.length input) ->
                forall i y, nth_error out i = Some y ->
                  exists idx0,
                    F64.to_size_t (F64.mul (F64.of_Z (Z.of_nat i)) (F64.div from to))
                    = Some idx0 /\
                    let frac :=
                      F64.to_f32
                        (F64.sub (F64.mul (F64.of_Z (Z.of_nat i)) (F64.div from to))
                                 (F64.of_Z idx0)) in
                    y = lerp c c frac /\
                    (frac = F32.zero -> F32.is_finite c = true ->
                     F32.valid c = true -> y = c))).
Proof.
  intros Hsz. split.
  - intros [H|H]; unfold resample.
    + now rewrite H.
    + subst input. now rewrite orb_true_r.
  - intros out Hne Hin H. unfold resample in H. rewrite Hne in H.
    destruct input as [|x input']; [contradiction|].
    set (input := x :: input') in *. cbn [is_nil orb] in H.
    change (is_nil input) with false in H. cbn [orb] in H.
    destruct (F64.to_size_t (F64.div (F64.of_Z (len input)) (F64.div from to)))
      as [out_count|] eqn:Ec; [|discriminate].
    assert (Hoc : 0 <= out_count).
    { unfold F64.to_size_t in Ec.
      destruct (F64.trunc _) as [v|]; [|discriminate].
      destruct (0 <=? v) eqn:Ev; [|discriminate]. cbn [andb] in Ec.
      destruct (v <? 2 ^ 64); [|discriminate].
      injection Ec as <-. now apply Z.leb_le. }
    assert (Hloop : List.length out = Z.to_nat out_count /\
                    forall j y, nth_error out j = Some y ->
                                interpolate input (F64.div from to) (Z.of_nat j)
                                = Some y).
    { destruct (out_count =? 0) eqn:E0.
      - injection H as <-. apply Z.eqb_eq in E0. subst out_count.
        split; [reflexivity|]. intros [|j] y; discriminate.
      - apply resample_loop_spec in H as [Hl Hn]. split; [exact Hl|].
        intros j y Hy. now apply Hn in Hy. }
    destruct Hloop as [Hl Hn].
    split; [rewrite Hl, Z2Nat.id by exact Hoc; reflexivity|].
    split.
    + intros i y Hy. apply interpolate_lerp_at; [exact Hsz | now apply Hn].
    + intros c Hconst i y Hy.
      destruct (interpolate_lerp_at input _ _ y Hsz (Hn i y Hy))
        as (idx0 & x0 & x1 & E0 & Ex0 & Ex1 & Ey).
      rewrite Hconst in Ex0, Ex1.
      apply nth_error_repeat_inv in Ex0, Ex1. subst x0 x1.
      exists idx0. split; [exact E0|]. cbv zeta. split; [exact Ey|].
      intros Hz Hf Hv. rewrite Ey, Hz. now apply lerp_constant_exact.
Qed.

Lemma resample_spec_witness :
  (Z.of_nat (List.length [tenth; tenth; tenth]) < 2 ^ 64 /\
   F64.eqb (F64.of_Z 4) (F64.of_Z 3) = false /\
   [tenth; tenth; tenth] <> [] /\
   resample [tenth; tenth; tenth] (F64.of_Z 4) (F64.of_Z 3)
   = Some [tenth; tenth_pred]) /\
  F64.to_size_t (F64.div (F64.of_Z 3) (F64.div (F64.of_Z 4) (F64.of_Z 3))) = Some 2 /\
  lerp_at [tenth; tenth; tenth] (F64.div (F64.of_Z 4) (F64.of_Z 3)) 1 tenth_pred.
Proof.
  assert (H1 : Z.of_nat (List.length [tenth; tenth; tenth]) < 2 ^ 64) by reflexivity.
  assert (H2 : F64.eqb (F64.of_Z 4) (F64.of_Z 3) = false) by reflexivity.
  assert (H3 : [tenth; tenth; tenth] <> []) by discriminate.
  assert (H4 : resample [tenth; tenth; tenth] (F64.of_Z 4) (F64.of_Z 3)
               = Some [tenth; tenth_pred]) by reflexivity.
  destruct (resample_spec [tenth; tenth; tenth] (F64.of_Z 4) (F64.of_Z 3) H1)
    as [_ H].
  destruct (H _ H2 H3 H4) as (Hc & Hn & _).
  exact (conj (conj H1 (conj H2 (conj H3 H4)))
              (conj Hc (Hn 1%nat tenth_pred eq_refl))).
Defined.

(** A constant input that does not come out constant: three samples of
    0.1f resampled from rate 4 to rate 3 give 0.1f and then the float
    just below it. *)
Lemma constant_not_preserved :
  resample [tenth; tenth; tenth] (F64.of_Z 4) (F64.of_Z 3)
  = Some [tenth; tenth_pred] /\
  tenth_pred <> tenth /\
  F32.eqb tenth_pred tenth = false.
Proof.
  split; [reflexivity|]. split; [discriminate | reflexivity].
Qed.

(** *** The program's own conversion: 48 kHz to 16 kHz, exact in binary64 *)

Lemma shl_Z (q : positive) (k : nat) : Zpos (shl q k) = Zpos q * 2 ^ Z.of_nat k.
Proof.
  induction k as [|k IH].
  - cbn. lia.
  - change (shl q (S k)) with (xO (shl q k)).
    rewrite Pos2Z.inj_xO, IH, Nat2Z.inj_succ, Z.pow_succ_r by lia. ring.
Qed.

Lemma digits_shl (q : positive) (k : nat) :
  Zpos (digits2_pos (shl q k)) = Zpos (digits2_pos q) + Z.of_nat k.
Proof.
  induction k as [|k IH]; [cbn; lia|].
  change (shl q (S k)) with (xO (shl q k)). cbn [digits2_pos].
  rewrite Pos2Z.inj_succ, IH. lia.
Qed.

Lemma pos_iter_shl (q p : positive) : Pos.iter xO q p = shl q (Pos.to_nat p).
Proof.
  rewrite Pos2Nat.inj_iter. unfold shl.
  induction (Pos.to_nat p) as [|n IH]; [reflexivity | cbn; now rewrite IH].
Qed.

Lemma iter_pos_nat {A : Type} (f : A -> A) (p : positive) :
  forall x, iter_pos f p x = Nat.iter (Pos.to_nat p) f x.
Proof.
  induction p as [p IH|p IH|]; intros x; cbn [iter_pos].
  - rewrite !IH, <- Nat.iter_add, <- Nat.iter_succ_r.
    f_equal. rewrite Pos2Nat.inj_xI. lia.
  - rewrite !IH, <- Nat.iter_add. f_equal. rewrite Pos2Nat.inj_xO. lia.
  - reflexivity.
Qed.

(** Dropping zero bits loses nothing. *)
Lemma shr_1_shl (q : positive) (t : nat) (s : nat) :
  Nat.iter s shr_1 (Build_shr_record (Zpos (shl q (s + t))) false false)
  = Build_shr_record (Zpos (shl q t)) false false.
Proof.
  induction s as [|s IH]; [reflexivity|].
  rewrite Nat.iter_succ_r.
  change (shl q (S s + t)) with (xO (shl q (s + t))).
  exact IH.
Qed.

Lemma shr_shl (q : positive) (t : nat) (e n : Z) :
  0 <= n ->
  shr (Build_shr_record (Zpos (shl q (Z.to_nat n + t))) false false) e n
  = (Build_shr_record (Zpos (shl q t)) false false, e + n).
Proof.
  intros Hn. unfold shr. destruct n as [|p|p]; [|  |lia].
  - cbn. now rewrite Z.add_0_r.
  - rewrite iter_pos_nat. change (Z.to_nat (Zpos p)) with (Pos.to_nat p).
    now rewrite shr_1_shl.
Qed.

Lemma digits_lower (p : positive) : 2 ^ (Zpos (digits2_pos p) - 1) <= Zpos p.
Proof.
  induction p as [p IH|p IH|]; cbn [digits2_pos]; [| |cbn; lia].
  - rewrite Pos2Z.inj_succ.
    replace (Z.succ (Zpos (digits2_pos p)) - 1) with (Z.succ (Zpos (digits2_pos p) - 1)) by lia.
    rewrite Z.pow_succ_r by lia.
    set (x := 2 ^ (Zpos (digits2_pos p) - 1)) in *. lia.
  - rewrite Pos2Z.inj_succ.
    replace (Z.succ (Zpos (digits2_pos p)) - 1) with (Z.succ (Zpos (digits2_pos p) - 1)) by lia.
    rewrite Z.pow_succ_r by lia.
    set (x := 2 ^ (Zpos (digits2_pos p) - 1)) in *. lia.
Qed.

Lemma digits_le_53 (p : positive) : Zpos p < 2 ^ 53 -> Zpos (digits2_pos p) <= 53.
Proof.
  intros H. pose proof (digits_lower p) as L.
  destruct (Z.le_gt_cases (Zpos (digits2_pos p)) 53) as [ok|bad]; [exact ok|].
  assert (2 ^ 53 <= 2 ^ (Zpos (digits2_pos p) - 1)) by (apply Z.pow_le_mono_r; lia).
  lia.
Qed.

(** Rounding a 53-digit mantissa changes nothing. *)
Lemma round_53 (m : positive) (e : Z) :
  Zpos (digits2_pos m) = 53 -> -1074 <= e <= 971 ->
  binary_round_aux F64.prec F64.emax false (Zpos m) e loc_Exact = S754_finite false m e.
Proof.
  intros Hd He. unfold binary_round_aux.
  assert (E : shr_fexp F64.prec F64.emax (Zpos m) e loc_Exact
              = (Build_shr_record (Zpos m) false false, e)).
  { unfold shr_fexp. cbn [Zdigits2 shr_record_of_loc]. rewrite Hd.
    unfold fexp, emin, F64.prec, F64.emax.
    replace (Z.max (53 + e - 53) (3 - 1024 - 53) - e) with 0 by lia. reflexivity. }
  rewrite E. cbn [shr_m loc_of_shr_record round_nearest_even]. rewrite E.
  cbn [shr_m]. unfold F64.emax, F64.prec.
  replace (e <=? 1024 - 53) with true by (symmetry; apply Z.leb_le; lia).
  reflexivity.
Qed.

Lemma of_Z_norm (n : positive) : Zpos n < 2 ^ 53 -> F64.of_Z (Zpos n) = norm n.
Proof.
  intros Hn. pose proof (digits_le_53 n Hn) as Hd.
  assert (Hd0 : 0 < Zpos (digits2_pos n)) by lia.
  unfold F64.of_Z, binary_normalize, binary_round, norm.
  rewrite Z.add_0_r.
  assert (Ef : fexp F64.prec F64.emax (Zpos (digits2_pos n)) = Zpos (digits2_pos n) - 53)
    by (unfold fexp, emin, F64.prec, F64.emax; lia).
  rewrite Ef.
  assert (Es : shl_align n 0 (Zpos (digits2_pos n) - 53)
               = (shl n (Z.to_nat (53 - Zpos (digits2_pos n))), Zpos (digits2_pos n) - 53)).
  { unfold shl_align. rewrite Z.sub_0_r.
    destruct (Zpos (digits2_pos n) - 53) as [|p|p] eqn:E; [| lia |].
    - replace (53 - Zpos (digits2_pos n)) with 0 by lia. reflexivity.
    - rewrite pos_iter_shl. do 2 f_equal. lia. }
  rewrite Es. apply round_53.
  - rewrite digits_shl. lia.
  - lia.
Qed.

Lemma digits_upper (p : positive) : Zpos p < 2 ^ Zpos (digits2_pos p).
Proof.
  induction p as [p IH|p IH|]; cbn [digits2_pos]; [| |cbn; lia].
  - rewrite Pos2Z.inj_succ, Z.pow_succ_r by lia.
    set (x := 2 ^ Zpos (digits2_pos p)) in *. lia.
  - rewrite Pos2Z.inj_succ, Z.pow_succ_r by lia.
    set (x := 2 ^ Zpos (digits2_pos p)) in *. lia.
Qed.

(** Converting the normal form back gives the integer. *)
Lemma to_size_t_norm (k : positive) :
  Zpos k < 2 ^ 53 -> F64.to_size_t (norm k) = Some (Zpos k).
Proof.
  intros Hk. pose proof (digits_le_53 k Hk) as Hd.
  assert (T : F64.trunc (norm k) = Some (Zpos k)).
  { unfold norm, F64.trunc.
    destruct (Zpos (digits2_pos k) - 53) as [|p|p] eqn:E; [| lia |].
    - replace (53 - Zpos (digits2_pos k)) with 0 by lia. reflexivity.
    - rewrite shl_Z, Z.pow_pos_fold.
      replace (Z.of_nat (Z.to_nat (53 - Zpos (digits2_pos k)))) with (Zpos p) by lia.
      rewrite Z.div_mul by (apply Z.pow_nonzero; lia). reflexivity. }
  unfold F64.to_size_t. rewrite T.
  replace (0 <=? Zpos k) with true by (symmetry; apply Z.leb_le; lia).
  replace (Zpos k <? 2 ^ 64) with true; [reflexivity|].
  symmetry. apply Z.ltb_lt. apply Z.lt_trans with (2 ^ 53); [exact Hk | reflexivity].
Qed.

(** Three times an integer, exactly. *)
Lemma mul_3_norm (i : positive) :
  Zpos (i * 3) < 2 ^ 53 -> F64.mul (norm i) (norm 3) = norm (i * 3).
Proof.
  intros Hq.
  assert (Hi : Zpos i < 2 ^ 53) by lia.
  pose proof (digits_le_53 i Hi) as Hdi.
  pose proof (digits_le_53 (i * 3) Hq) as HD.
  pose proof (digits_upper (i * 3)) as HU.
  assert (HD2 : 2 <= Zpos (digits2_pos (i * 3))).
  { destruct (Z.le_gt_cases 2 (Zpos (digits2_pos (i * 3)))) as [ok|bad]; [exact ok|].
    assert (E : Zpos (digits2_pos (i * 3)) = 1) by lia.
    rewrite E in HU. change (2 ^ 1) with 2 in HU. lia. }
  set (di := Zpos (digits2_pos i)) in *.
  set (D := Zpos (digits2_pos (i * 3))) in *.
  change (norm 3) with (S754_finite false (shl 3 51) (-51)).
  unfold norm at 1. fold di.
  unfold F64.mul, SFmul. cbn [xorb].
  assert (Em : (shl i (Z.to_nat (53 - di)) * shl 3 51)%positive
               = shl (i * 3) (Z.to_nat (D - di + 51) + Z.to_nat (53 - D))).
  { apply Pos2Z.inj. rewrite Pos2Z.inj_mul, !shl_Z, Pos2Z.inj_mul.
    replace (Z.of_nat (Z.to_nat (D - di + 51) + Z.to_nat (53 - D)))
      with (Z.of_nat (Z.to_nat (53 - di)) + Z.of_nat 51) by lia.
    rewrite Z.pow_add_r by lia. ring. }
  rewrite Em. unfold binary_round_aux.
  assert (E1 : shr_fexp F64.prec F64.emax
                 (Zpos (shl (i * 3) (Z.to_nat (D - di + 51) + Z.to_nat (53 - D))))
                 (di - 53 + -51) loc_Exact
               = (Build_shr_record (Zpos (shl (i * 3) (Z.to_nat (53 - D)))) false false,
                  D - 53)).
  { unfold shr_fexp. cbn [Zdigits2 shr_record_of_loc]. rewrite digits_shl. fold D.
    unfold fexp, emin, F64.prec, F64.emax.
    replace (Z.max (D + Z.of_nat (Z.to_nat (D - di + 51) + Z.to_nat (53 - D))
                    + (di - 53 + -51) - 53) (3 - 1024 - 53) - (di - 53 + -51))
      with (D - di + 51) by lia.
    rewrite shr_shl by lia. f_equal. lia. }
  rewrite E1. cbn [shr_m loc_of_shr_record round_nearest_even].
  assert (E2 : shr_fexp F64.prec F64.emax
                 (Zpos (shl (i * 3) (Z.to_nat (53 - D)))) (D - 53) loc_Exact
               = (Build_shr_record (Zpos (shl (i * 3) (Z.to_nat (53 - D)))) false false,
                  D - 53)).
  { unfold shr_fexp. cbn [Zdigits2 shr_record_of_loc]. rewrite digits_shl. fold D.
    unfold fexp, emin, F64.prec, F64.emax.
    replace (Z.max (D + Z.of_nat (Z.to_nat (53 - D)) + (D - 53) - 53) (3 - 1024 - 53)
             - (D - 53)) with 0 by lia.
    reflexivity. }
  rewrite E2. cbn [shr_m]. unfold F64.emax, F64.prec.
  replace (D - 53 <=? 1024 - 53) with true by (symmetry; apply Z.leb_le; lia).
  reflexivity.
Qed.

Lemma sub_self (m : positive) (e : Z) :
  F64.sub (S754_finite false m e) (S754_finite false m e) = S754_zero false.
Proof.
  unfold F64.sub, SFsub. rewrite Z.min_id.
  unfold shl_align. rewrite Z.sub_diag. cbn [fst cond_Zopp].
  reflexivity.
Qed.


Lemma ratio_48_16 : F64.div rate_48000 rate_16000 = norm 3.
Proof. reflexivity. Qed.

(** At the ratio 3 the source index of output sample [i] is the integer
    [3 * i]: the fraction is zero. *)
Lemma interpolate_ratio_3 (input : list F32.t) (i : Z) :
  0 <= i -> 3 * i < Z.of_nat (List.length input) ->
  Z.of_nat (List.length input) < 2 ^ 53 ->
  exists x0 x1,
    nth_error input (Z.to_nat (3 * i)) = Some x0 /\
    nth_error input (Z.to_nat (Z.min (3 * i + 1) (len input - 1))) = Some x1 /\
    interpolate input (norm 3) i = Some (lerp x0 x1 F32.zero).
Proof.
  intros Hi Hlt Hsz.
  assert (Hn0 : (Z.to_nat (3 * i) < List.length input)%nat) by lia.
  assert (Hn1 : (Z.to_nat (Z.min (3 * i + 1) (len input - 1)) < List.length input)%nat)
    by (unfold len; lia).
  destruct (nth_error input (Z.to_nat (3 * i))) as [x0|] eqn:E0;
    [|apply nth_error_None in E0; lia].
  destruct (nth_error input (Z.to_nat (Z.min (3 * i + 1) (len input - 1))))
    as [x1|] eqn:E1; [|apply nth_error_None in E1; lia].
  exists x0, x1. split; [reflexivity|]. split; [reflexivity|].
  assert (Hm : (3 * i + 1) mod 2 ^ 64 = 3 * i + 1).
  { apply Z.mod_small. split; [lia|].
    apply Z.lt_trans with (2 ^ 53); [lia | reflexivity]. }
  unfold interpolate, lerp.
  destruct i as [|p|p]; [| |lia].
  - change (F64.to_size_t (F64.mul (F64.of_Z 0) (norm 3))) with (Some 0).
    cbv iota. change (3 * 0) with 0 in *.
    rewrite Hm, E0, E1. reflexivity.
  - assert (Hq : Zpos (p * 3) < 2 ^ 53) by lia.
    rewrite of_Z_norm by lia. rewrite (mul_3_norm p Hq).
    rewrite (to_size_t_norm (p * 3) Hq).
    replace (Zpos (p * 3)) with (3 * Zpos p) by lia.
    rewrite Hm, E0, E1.
    replace (3 * Zpos p) with (Zpos (p * 3)) by lia.
    rewrite (of_Z_norm (p * 3) Hq).
    unfold norm. rewrite !sub_self. reflexivity.
Qed.

(** At the ratio 3 a well-formed finite constant comes out unchanged. *)
Lemma interpolate_ratio_3_constant (c : F32.t) (n : nat) (i : Z) :
  F32.is_finite c = true -> F32.valid c = true ->
  0 <= i -> 3 * i < Z.of_nat n -> Z.of_nat n < 2 ^ 53 ->
  interpolate (repeat c n) (F64.div rate_48000 rate_16000) i = Some c.
Proof.
  intros Hf Hv Hi Hlt Hsz. rewrite ratio_48_16.
  destruct (interpolate_ratio_3 (repeat c n) i Hi)
    as (x0 & x1 & E0 & E1 & E); rewrite ?repeat_length; try assumption.
  apply nth_error_repeat_inv in E0, E1. subst x0 x1.
  rewrite E. f_equal. now apply lerp_constant_exact.
Qed.

(** *** The number of output samples: a third of the input, in binary64 *)

(** The digit count of a mantissa between 2^(d-1) and 2^d. *)
Lemma digits_exact (p : positive) (d : Z) :
  2 ^ (d - 1) <= Zpos p < 2 ^ d -> 0 < d -> Zpos (digits2_pos p) = d.
Proof.
  intros [Hlo Hhi] Hd.
  pose proof (digits_lower p) as L. pose proof (digits_upper p) as U.
  set (x := Zpos (digits2_pos p)) in *.
  assert (0 < x) by (subst x; lia).
  destruct (Z.lt_trichotomy x d) as [Hlt|[Heq|Hgt]]; [|exact Heq|].
  - assert (2 ^ x <= 2 ^ (d - 1)) by (apply Z.pow_le_mono_r; lia). lia.
  - assert (2 ^ d <= 2 ^ (x - 1)) by (apply Z.pow_le_mono_r; lia). lia.
Qed.

Lemma round_nearest_even_cases (x : Z) (l : location) :
  round_nearest_even x l = x \/ round_nearest_even x l = x + 1.
Proof.
  destruct l as [|[ | | ]]; cbn; auto. destruct (Z.even x); auto.
Qed.

Lemma shr_1_m (p : positive) (r s : bool) :
  shr_m (shr_1 (Build_shr_record (Zpos p) r s)) = Zpos p / 2.
Proof.
  destruct p as [p|p|]; cbn [shr_1 shr_m].
  - rewrite Pos2Z.inj_xI. apply Z.div_unique with 1; lia.
  - rewrite Pos2Z.inj_xO. apply Z.div_unique with 0; lia.
  - reflexivity.
Qed.

Lemma shr_record_of_loc_m (m : Z) (l : location) : shr_m (shr_record_of_loc m l) = m.
Proof. destruct l as [|[ | | ]]; reflexivity. Qed.

Lemma shr_record_of_loc_eta (m : Z) (l : location) :
  exists r s, shr_record_of_loc m l = Build_shr_record m r s.
Proof. destruct l as [|[ | | ]]; eexists _, _; reflexivity. Qed.

(** Rounding a mantissa of 53 or 54 digits: the result is the mantissa
    cut by [j] bits, or one more. *)
Lemma round_between (p : positive) (e : Z) (l : location) :
  2 ^ 52 <= Zpos p < 2 ^ 54 -> -1074 <= e <= 960 ->
  exists (M : positive) (j : Z),
    binary_round_aux F64.prec F64.emax false (Zpos p) e l = S754_finite false M (e + j) /\
    0 <= j <= 2 /\
    Zpos p / 2 ^ j <= Zpos M <= Zpos p / 2 ^ j + 1.
Proof.
  intros Hp He.
  (* first normalisation *)
  assert (S1 : exists (m1 : positive) (j1 : Z) (l1 : location),
             shr_fexp F64.prec F64.emax (Zpos p) e l
             = (shr_record_of_loc (Zpos m1) l1, e + j1) /\
             0 <= j1 <= 1 /\ Zpos m1 = Zpos p / 2 ^ j1 /\
             2 ^ 52 <= Zpos m1 < 2 ^ 53).
  { destruct (Z.lt_ge_cases (Zpos p) (2 ^ 53)) as [Hlt|Hge].
    - exists p, 0, l. 
      assert (Hd : Zpos (digits2_pos p) = 53) by (apply digits_exact; [split; [apply Hp | exact Hlt] | lia]).
      split; [|split; [lia | split; [now rewrite Z.div_1_r | lia]]].
      unfold shr_fexp. cbn [Zdigits2]. rewrite Hd.
      unfold fexp, emin, F64.prec, F64.emax.
      replace (Z.max (53 + e - 53) (3 - 1024 - 53) - e) with 0 by lia.
      cbn [shr]. now rewrite Z.add_0_r.
    - assert (Hd : Zpos (digits2_pos p) = 54) by (apply digits_exact; [split; [exact Hge | apply Hp] | lia]).
      destruct (shr_record_of_loc_eta (Zpos p) l) as (r & s & Er).
      pose proof (shr_1_m p r s) as Hm.
      assert (Hpos : 2 ^ 52 <= Zpos p / 2 < 2 ^ 53).
      { split.
        - apply Z.div_le_lower_bound; [lia|]. change (2 * 2 ^ 52) with (2 ^ 53). exact Hge.
        - apply Z.div_lt_upper_bound; [lia|]. change (2 * 2 ^ 53) with (2 ^ 54). apply Hp. }
      destruct (shr_1 (Build_shr_record (Zpos p) r s)) as [m1 r1 s1] eqn:E1.
      cbn [shr_m] in Hm. 
      destruct m1 as [|m1|m1]; [change (2 ^ 52) with 4503599627370496 in Hpos; lia | | lia].
      exists m1, 1, (loc_of_shr_record (Build_shr_record (Zpos m1) r1 s1)).
      split; [|split; [lia | split; [rewrite Hm; reflexivity | rewrite Hm; exact Hpos]]].
      unfold shr_fexp. cbn [Zdigits2]. rewrite Hd.
      unfold fexp, emin, F64.prec, F64.emax.
      replace (Z.max (54 + e - 53) (3 - 1024 - 53) - e) with 1 by lia.
      rewrite Er. cbn [shr iter_pos]. rewrite E1. f_equal.
      destruct r1, s1; reflexivity. }
  destruct S1 as (m1 & j1 & l1 & E1 & Hj1 & Hm1 & Hb1).
  unfold binary_round_aux. rewrite E1.
  rewrite shr_record_of_loc_m.
  assert (Hl : loc_of_shr_record (shr_record_of_loc (Zpos m1) l1) = l1)
    by (destruct l1 as [|[ | | ]]; reflexivity).
  rewrite Hl.
  destruct (round_nearest_even_cases (Zpos m1) l1) as [R|R]; rewrite R.
  - (* no carry *)
    assert (Hd : Zpos (digits2_pos m1) = 53) by (apply digits_exact; [exact Hb1 | lia]).
    assert (E2 : shr_fexp F64.prec F64.emax (Zpos m1) (e + j1) loc_Exact
                 = (Build_shr_record (Zpos m1) false false, e + j1)).
    { unfold shr_fexp. cbn [Zdigits2 shr_record_of_loc]. rewrite Hd.
      unfold fexp, emin, F64.prec, F64.emax.
      replace (Z.max (53 + (e + j1) - 53) (3 - 1024 - 53) - (e + j1)) with 0 by lia.
      reflexivity. }
    rewrite E2. cbn [shr_m]. unfold F64.emax, F64.prec.
    replace (e + j1 <=? 1024 - 53) with true by (symmetry; apply Z.leb_le; lia).
    exists m1, j1. split; [reflexivity|]. split; [lia|]. rewrite Hm1. lia.
  - destruct (Z.lt_ge_cases (Zpos m1 + 1) (2 ^ 53)) as [Hlt|Hge].
    + (* rounded up, still 53 digits *)
      assert (Ep : Zpos m1 + 1 = Zpos (m1 + 1)) by lia.
      rewrite Ep.
      assert (Hd : Zpos (digits2_pos (m1 + 1)) = 53)
        by (apply digits_exact; [lia | lia]).
      assert (E2 : shr_fexp F64.prec F64.emax (Zpos (m1 + 1)) (e + j1) loc_Exact
                   = (Build_shr_record (Zpos (m1 + 1)) false false, e + j1)).
      { unfold shr_fexp. cbn [Zdigits2 shr_record_of_loc]. rewrite Hd.
        unfold fexp, emin, F64.prec, F64.emax.
        replace (Z.max (53 + (e + j1) - 53) (3 - 1024 - 53) - (e + j1)) with 0 by lia.
        reflexivity. }
      rewrite E2. cbn [shr_m]. unfold F64.emax, F64.prec.
      replace (e + j1 <=? 1024 - 53) with true by (symmetry; apply Z.leb_le; lia).
      exists (m1 + 1)%positive, j1. split; [reflexivity|]. split; [lia|].
      rewrite <- Ep, Hm1. lia.
    + (* rounded up to 2^53: one more bit is cut *)
      assert (Em : Zpos m1 + 1 = 2 ^ 53) by lia.
      rewrite Em.
      change (2 ^ 53) with (Zpos 9007199254740992).
      assert (E2 : shr_fexp F64.prec F64.emax (Zpos 9007199254740992) (e + j1) loc_Exact
                   = (Build_shr_record (Zpos 4503599627370496) false false, e + j1 + 1)).
      { unfold shr_fexp. cbn [Zdigits2 shr_record_of_loc].
        change (Zpos (digits2_pos 9007199254740992)) with 54.
        unfold fexp, emin, F64.prec, F64.emax.
        replace (Z.max (54 + (e + j1) - 53) (3 - 1024 - 53) - (e + j1)) with 1 by lia.
        reflexivity. }
      rewrite E2. cbn [shr_m]. unfold F64.emax, F64.prec.
      replace (e + j1 + 1 <=? 1024 - 53) with true by (symmetry; apply Z.leb_le; lia).
      exists 4503599627370496%positive, (j1 + 1). 
      split; [f_equal; lia|]. split; [lia|].
      assert (Zpos p / 2 ^ (j1 + 1) = (Zpos p / 2 ^ j1) / 2).
      { rewrite Z.pow_add_r by lia. change (2 ^ 1) with 2.
        rewrite Z.div_div by lia. reflexivity. }
      rewrite H, <- Hm1.
      replace (Zpos m1) with (2 ^ 53 - 1) by lia.
      change ((2 ^ 53 - 1) / 2) with 4503599627370495. lia.
Qed.

Lemma norm_mantissa_bounds (n : positive) :
  Zpos n < 2 ^ 53 ->
  2 ^ 52 <= Zpos (shl n (Z.to_nat (53 - Zpos (digits2_pos n)))) < 2 ^ 53.
Proof.
  intros Hn. pose proof (digits_le_53 n Hn) as Hd.
  set (m := shl n (Z.to_nat (53 - Zpos (digits2_pos n)))).
  assert (E : Zpos (digits2_pos m) = 53) by (subst m; rewrite digits_shl; lia).
  pose proof (digits_lower m) as L. pose proof (digits_upper m) as U.
  rewrite E in L, U. exact (conj L U).
Qed.

(** A third of an integer, truncated: the division of doubles followed
    by the conversion to an index gives the integer quotient. *)
Lemma div_3_norm (n : positive) :
  Zpos n < 2 ^ 50 ->
  F64.to_size_t (F64.div (norm n) (norm 3)) = Some (Zpos n / 3).
Proof.
  intros Hn.
  assert (Hn53 : Zpos n < 2 ^ 53)
    by (apply Z.lt_trans with (2 ^ 50); [exact Hn | reflexivity]).
  pose proof (digits_upper n) as Hup. pose proof (digits_lower n) as Hlo.
  assert (Hd : 1 <= Zpos (digits2_pos n) <= 50).
  { split; [lia|].
    destruct (Z.le_gt_cases (Zpos (digits2_pos n)) 50) as [ok|bad]; [exact ok|].
    assert (2 ^ 50 <= 2 ^ (Zpos (digits2_pos n) - 1)) by (apply Z.pow_le_mono_r; lia).
    lia. }
  pose proof (norm_mantissa_bounds n Hn53) as Hm.
  set (dn := Zpos (digits2_pos n)) in *.
  set (mn := shl n (Z.to_nat (53 - dn))) in *.
  assert (EA : Zpos mn * 4 = Zpos n * 2 ^ (55 - dn)).
  { subst mn. rewrite shl_Z.
    replace (55 - dn) with (Z.of_nat (Z.to_nat (53 - dn)) + 2) by lia.
    rewrite Z.pow_add_r by lia. change (2 ^ 2) with 4. ring. }
  set (A := Zpos n * 2 ^ (55 - dn)) in *.
  (* the quotient the division computes *)
  assert (Hq : 2 ^ 52 <= A / 3 < 2 ^ 54).
  { change (2 ^ 52) with 4503599627370496 in *.
    change (2 ^ 53) with 9007199254740992 in *.
    change (2 ^ 54) with 18014398509481984.
    split.
    - apply Z.div_le_lower_bound; lia.
    - apply Z.div_lt_upper_bound; lia. }
  assert (Ecore : exists L,
             SFdiv_core_binary F64.prec F64.emax (Zpos mn) (dn - 53)
                               (Zpos (shl 3 51)) (-51)
             = (A / 3, dn - 55, L)).
  { unfold SFdiv_core_binary. cbn [Zdigits2].
    replace (Zpos (digits2_pos mn)) with 53 by (subst mn; rewrite digits_shl; lia).
    change (Zpos (digits2_pos (shl 3 51))) with 53.
    unfold fexp, emin, F64.prec, F64.emax.
    replace (Z.min (Z.max (53 + (dn - 53) - (53 + -51) - 53) (3 - 1024 - 53))
                   (dn - 53 - -51)) with (dn - 55) by lia.
    replace (dn - 53 - -51 - (dn - 55)) with 53 by lia.
    rewrite Z.shiftl_mul_pow2 by lia.
    assert (Ediv : Z.div_eucl (Zpos mn * 2 ^ 53) (Zpos (shl 3 51))
                   = (A / 3, (Zpos mn * 2 ^ 53) mod (Zpos (shl 3 51)))).
    { unfold Z.modulo.
      replace (A / 3) with ((Zpos mn * 2 ^ 53) / Zpos (shl 3 51)).
      - unfold Z.div. now destruct (Z.div_eucl _ _).
      - change (Zpos (shl 3 51)) with (3 * 2 ^ 51).
        replace (Zpos mn * 2 ^ 53) with (A * 2 ^ 51).
        + apply Z.div_mul_cancel_r; [lia | apply Z.pow_nonzero; lia].
        + rewrite <- EA. change (2 ^ 53) with (4 * 2 ^ 51). ring. }
    rewrite Ediv. eexists. reflexivity. }
  destruct Ecore as [L Ecore].
  unfold norm. fold dn. fold mn.
  change (digits2_pos 3) with 2%positive.
  change (shl 3 (Z.to_nat (53 - 2))) with (shl 3 51).
  change (2 - 53) with (-51).
  unfold F64.div, SFdiv. rewrite Ecore. cbn [xorb].
  destruct (A / 3) as [|q|q] eqn:Eq;
    [change (2 ^ 52) with 4503599627370496 in Hq; lia | | lia].
  destruct (round_between q (dn - 55) L Hq) as (M & j & ER & Hj & HM); [lia|].
  rewrite ER.
  (* the truncation *)
  set (kk := 55 - dn - j).
  assert (Hkk : 3 <= kk) by (subst kk; lia).
  assert (T : F64.trunc (S754_finite false M (dn - 55 + j)) = Some (Zpos M / 2 ^ kk)).
  { unfold F64.trunc.
    destruct (dn - 55 + j) as [|e|e] eqn:Ee; [lia | lia |].
    rewrite Z.pow_pos_fold.
    replace kk with (Zpos e) by (subst kk; lia). reflexivity. }
  assert (Q : Zpos M / 2 ^ kk = Zpos n / 3).
  { set (c := 2 ^ kk).
    assert (Hc : 8 <= c).
    { subst c. change 8 with (2 ^ 3). apply Z.pow_le_mono_r; lia. }
    assert (Eq' : Zpos q / 2 ^ j = (Zpos n * c) / 3).
    { rewrite <- Eq. rewrite Z.div_div by (try apply Z.pow_pos_nonneg; lia).
      subst A c. replace (55 - dn) with (kk + j) by (subst kk; lia).
      rewrite Z.pow_add_r by lia.
      replace (Zpos n * (2 ^ kk * 2 ^ j)) with ((Zpos n * 2 ^ kk) * 2 ^ j) by ring.
      apply Z.div_mul_cancel_r; [lia | apply Z.pow_nonzero; lia]. }
    rewrite Eq' in HM.
    pose proof (Z.div_mod (Zpos n) 3 ltac:(lia)) as Dn.
    pose proof (Z.mod_pos_bound (Zpos n) 3 ltac:(lia)) as Bn.
    set (a := Zpos n / 3) in *. set (b := Zpos n mod 3) in *.
    assert (E3 : (Zpos n * c) / 3 = a * c + (b * c) / 3).
    { rewrite Dn. replace ((3 * a + b) * c) with (a * c * 3 + b * c) by ring.
      rewrite Z.div_add_l by lia. reflexivity. }
    rewrite E3 in HM.
    assert (B1 : 0 <= (b * c) / 3) by (apply Z.div_pos; nia).
    assert (B2 : (b * c) / 3 + 1 < c).
    { assert ((b * c) / 3 < c - 1); [|lia].
      apply Z.div_lt_upper_bound; nia. }
    symmetry. apply Z.div_unique with (Zpos M - a * c); [|ring].
    lia. }
  unfold F64.to_size_t. rewrite T, Q.
  assert (B : 0 <= Zpos n / 3 < 2 ^ 64).
  { split; [apply Z.div_pos; lia|].
    apply Z.le_lt_trans with (Zpos n); [apply Z.div_le_upper_bound; lia|].
    apply Z.lt_trans with (2 ^ 50); [exact Hn | reflexivity]. }
  replace (0 <=? Zpos n / 3) with true by (symmetry; apply Z.leb_le; lia).
  replace (Zpos n / 3 <? 2 ^ 64) with true by (symmetry; apply Z.ltb_lt; lia).
  reflexivity.
Qed.

(** *** The conversion is defined at the program's rates *)

Lemma resample_loop_ratio_3 (input : list F32.t) :
  Z.of_nat (List.length input) < 2 ^ 53 ->
  forall (n : nat) (first : Z),
    0 <= first -> 3 * (first + Z.of_nat n - 1) < Z.of_nat (List.length input) ->
    exists out, resample_loop input (norm 3) first n = Some out.
Proof.
  intros Hsz. induction n as [|n IH]; intros first H0 Hlt; cbn [resample_loop].
  - eexists. reflexivity.
  - destruct (interpolate_ratio_3 input first H0) as (x0 & x1 & _ & _ & E);
      [lia | exact Hsz |].
    rewrite E.
    destruct (IH (first + 1)) as [ys Eys]; [lia | lia |].
    rewrite Eys. eexists. reflexivity.
Qed.

(** The conversion the program performs, from the capture rate of
    48 kHz to 16 kHz: it is defined on every non-empty recording below
    2^50 samples, returns a third of the samples (rounded down), and
    output sample [i] is interpolated with fraction zero at source
    index [3 i]. *)
Theorem resample_48_16 (input : list F32.t) :
  input <> [] -> len input < 2 ^ 50 ->
  exists out,
    resample input rate_48000 rate_16000 = Some out /\
    len out = len input / 3 /\
    forall (i : nat) (y : F32.t),
      nth_error out i = Some y ->
      exists x0 x1,
        nth_error input (3 * i) = Some x0 /\
        nth_error input (Z.to_nat (Z.min (3 * Z.of_nat i + 1) (len input - 1))) = Some x1 /\
        y = lerp x0 x1 F32.zero.
Proof.
  intros Hne Hsz.
  assert (Hsz53 : Z.of_nat (List.length input) < 2 ^ 53)
    by (apply Z.lt_trans with (2 ^ 50); [exact Hsz | reflexivity]).
  unfold resample.
  change (F64.eqb rate_48000 rate_16000) with false.
  destruct input as [|x input']; [congruence|]. cbn [is_nil orb].
  set (input := x :: input') in *.
  rewrite ratio_48_16.
  destruct (len input) as [|n|n] eqn:En; [discriminate En | | discriminate En].
  rewrite (of_Z_norm n) by (rewrite <- En; exact Hsz53).
  rewrite (div_3_norm n Hsz).
  assert (Hq : 0 <= Zpos n / 3) by (apply Z.div_pos; lia).
  assert (Hq3 : 3 * (Zpos n / 3) <= Zpos n)
    by (apply Z.mul_div_le; lia).
  destruct (Zpos n / 3 =? 0) eqn:E0.
  - apply Z.eqb_eq in E0. exists []. rewrite E0.
    split; [reflexivity | split; [reflexivity|]].
    intros [|i] y; discriminate.
  - apply Z.eqb_neq in E0.
    destruct (resample_loop_ratio_3 input Hsz53 (Z.to_nat (Zpos n / 3)) 0)
      as [out Eout]; [lia | unfold len in En; lia |].
    exists out. split; [exact Eout|].
    destruct (resample_loop_spec _ _ _ _ _ Eout) as [Hl Hc].
    split; [unfold len; rewrite Hl; lia|].
    intros i y Hy.
    assert (Hi : (i < List.length out)%nat) by (apply nth_error_Some; congruence).
    specialize (Hc i y Hy). rewrite Z.add_0_l in Hc.
    destruct (interpolate_ratio_3 input (Z.of_nat i)) as (x0 & x1 & E1 & E2 & E3);
      [lia | unfold len in En; lia | exact Hsz53 |].
    exists x0, x1.
    replace (3 * i)%nat with (Z.to_nat (3 * Z.of_nat i)) by lia.
    split; [exact E1 | split; [rewrite <- En; exact E2 | congruence]].
Qed.

(** A constant recording of a finite sample is converted to the same
    constant. *)
Corollary resample_48_16_constant (c : F32.t) (n : nat) :
  F32.is_finite c = true -> F32.valid c = true ->
  (0 < n)%nat -> Z.of_nat n < 2 ^ 50 ->
  resample (repeat c n) rate_48000 rate_16000 = Some (repeat c (n / 3)).
Proof.
  intros Hf Hv Hn Hsz.
  destruct (resample_48_16 (repeat c n)) as (out & E & Hl & Hc).
  - destruct n; [lia | discriminate].
  - unfold len. rewrite repeat_length. exact Hsz.
  - rewrite E. f_equal.
    unfold len in Hl. rewrite repeat_length in Hl.
    assert (Hlen : List.length out = (n / 3)%nat).
    { apply Nat2Z.inj. rewrite Hl. rewrite Nat2Z.inj_div. reflexivity. }
    rewrite <- Hlen.
    apply Forall_eq_repeat. apply Forall_forall. intros y Hy.
    apply In_nth_error in Hy. destruct Hy as [i Hy].
    destruct (Hc i y Hy) as (x0 & x1 & E0 & E1 & ->).
    apply nth_error_repeat_inv in E0, E1. subst x0 x1.
    symmetry. now apply lerp_constant_exact.
Qed.

End ResampleProps.

(* ------------------------------------------------------------------ *)
(** ** Selections of a list *)

(* ------------------------------------------------------------------ *)
Section SubseqFacts.
Context {A : Type}.

Lemma subseq_refl (l : list A) : subseq l l.
Proof. induction l; constructor; assumption. Qed.

Lemma subseq_nil_l (l : list A) : subseq [] l.
Proof. induction l; constructor; assumption. Qed.

Lemma subseq_app (l1 l2 l3 l4 : list A) :
  subseq l1 l2 -> subseq l3 l4 -> subseq (l1 ++ l3) (l2 ++ l4).
Proof.
  intros H1 H2. induction H1; cbn; try (constructor; assumption). exact H2.
Qed.

Lemma subseq_trans (l1 l2 l3 : list A) :
  subseq l1 l2 -> subseq l2 l3 -> subseq l1 l3.
Proof.
  intros H1 H2. revert l1 H1.
  induction H2 as [|x l2 l3 H2 IH|x l2 l3 H2 IH]; intros l1 H1.
  - exact H1.
  - constructor. now apply IH.
  - inversion H1; subst.
    + apply subseq_skip. now apply IH.
    + apply subseq_cons. now apply IH.
Qed.

Lemma subseq_skipn (n : nat) (l : list A) : subseq (skipn n l) l.
Proof.
  revert l. induction n as [|n IH]; intros l; [apply subseq_refl|].
  destruct l; [constructor|]. cbn. apply subseq_skip. apply IH.
Qed.

Lemma subseq_firstn (n : nat) (l : list A) : subseq (firstn n l) l.
Proof.
  revert l. induction n as [|n IH]; intros l; [apply subseq_nil_l|].
  destruct l; [constructor|]. cbn. apply subseq_cons. apply IH.
Qed.

Lemma subseq_length (l1 l2 : list A) :
  subseq l1 l2 -> (List.length l1 <= List.length l2)%nat.
Proof. induction 1; cbn; lia. Qed.

End SubseqFacts.

(* ------------------------------------------------------------------ *)
(** ** The detector over runs of frames *)

Module VADRunProps.
Import VAD VADSpec VADRun VADProps ChunkSpec.

(** *** The frames of [process] *)

Lemma process_loop_frames (fs : Z) (fuel : nat) :
  0 < fs < 2 ^ 64 ->
  forall (v : t) (rest output : list F32.t),
    (List.length rest <= fuel)%nat ->
    process_loop fuel fs v rest output
    = Some (process_frames v (chunks_of fuel (Z.to_nat fs) rest) output).
Proof.
  intros Hfs.
  assert (Es : size_t_of_int fs = fs) by (apply Z.mod_small; lia).
  induction fuel as [|fuel IH]; intros v rest output Hl.
  - destruct rest; [reflexivity | cbn in Hl; lia].
  - destruct rest as [|x rest']; [reflexivity|].
    set (rest := x :: rest') in *.
    change (chunks_of (S fuel) (Z.to_nat fs) rest)
      with (firstn (Z.to_nat fs) rest :: chunks_of fuel (Z.to_nat fs) (skipn (Z.to_nat fs) rest)).
    cbn [process_frames].
    change (process_loop (S fuel) fs v rest output)
      with (let n := Z.to_nat (Z.min (size_t_of_int fs) (len rest)) in
            let '(v', output') := process_frame v (firstn n rest) output in
            process_loop fuel fs v' (skipn n rest) output').
    cbv zeta. rewrite Es.
    rewrite firstn_min_len by lia.
    unfold len. rewrite ChunkProps.skipn_min_length by lia.
    destruct (process_frame v (firstn (Z.to_nat fs) rest) output) as [v' output'].
    apply IH. rewrite length_skipn. subst rest. cbn [List.length] in *. lia.
Qed.

Lemma process_loop_stalls (fuel : nat) :
  forall (v : t) (rest output : list F32.t),
    rest <> [] -> process_loop fuel 0 v rest output = None.
Proof.
  induction fuel as [|fuel IH]; intros v rest output Hne.
  - destruct rest; [contradiction | reflexivity].
  - destruct rest as [|x rest']; [contradiction|].
    cbn [process_loop].
    change (size_t_of_int 0) with 0.
    replace (Z.min 0 (len (x :: rest'))) with 0 by (unfold len; lia).
    change (Z.to_nat 0) with O. cbn [firstn skipn].
    destruct (process_frame v [] output) as [v' output'].
    apply IH. discriminate.
Qed.


(** *** Steps of [process_frame], by state and branch *)

Lemma step_silence_loud (v : t) (f out : list F32.t) :
  state v = silence -> loud v f ->
  process_frame v f out
  = (set_onset_buf f (set_speech_sample_count (len f) (set_state speech_onset v)), out).
Proof. intros Hs Hl. unfold process_frame. now rewrite Hs, Hl. Qed.

Lemma step_silence_quiet (v : t) (f out : list F32.t) :
  state v = silence -> quiet v f ->
  process_frame v f out = (append_to_pre_speech v f, out).
Proof. intros Hs Hl. unfold process_frame. now rewrite Hs, Hl. Qed.

Lemma step_onset_loud (v : t) (f out : list F32.t) :
  state v = speech_onset -> loud v f ->
  process_frame v f out
  = if speech_sample_count_ v + len f >=? min_speech_samples v
    then (set_onset_buf []
            (set_pre_speech_buf []
               (set_is_speaking true
                  (set_state speaking
                     (set_onset_buf (onset_buf_ v ++ f)
                        (set_speech_sample_count (speech_sample_count_ v + len f) v))))),
          (out ++ pre_speech_buf_ v) ++ onset_buf_ v ++ f)
    else (set_onset_buf (onset_buf_ v ++ f)
            (set_speech_sample_count (speech_sample_count_ v + len f) v), out).
Proof. intros Hs Hl. unfold process_frame. now rewrite Hs, Hl. Qed.

Lemma step_speaking_keep (v : t) (f out : list F32.t) :
  state v = speaking -> F32.ltb (compute_rms f) (silence_threshold v) = false ->
  process_frame v f out = (v, out ++ f).
Proof. intros Hs Hl. unfold process_frame. now rewrite Hs, Hl. Qed.

Lemma step_speaking_silent (v : t) (f out : list F32.t) :
  state v = speaking -> silent v f ->
  process_frame v f out
  = (set_post_speech_buf f
       (set_silence_sample_count (len f) (set_state speech_offset v)), out).
Proof. intros Hs Hl. unfold process_frame. now rewrite Hs, Hl. Qed.

Lemma step_offset_silent (v : t) (f out : list F32.t) :
  state v = speech_offset -> silent v f ->
  process_frame v f out
  = if silence_sample_count_ v + len f >=? min_silence_samples v
    then (set_pre_speech_buf []
            (set_is_speaking false
               (set_state silence
                  (set_silence_sample_count 0
                     (set_post_speech_buf []
                        (set_post_speech_buf (post_speech_buf_ v ++ f)
                           (set_silence_sample_count
                              (silence_sample_count_ v + len f) v)))))),
          out ++ firstn (Z.to_nat (Z.min (size_t_of_int (post_speech_max_samples v))
                                         (len (post_speech_buf_ v ++ f))))
                        (post_speech_buf_ v ++ f))
    else (set_post_speech_buf (post_speech_buf_ v ++ f)
            (set_silence_sample_count (silence_sample_count_ v + len f) v), out).
Proof. intros Hs Hl. unfold process_frame. now rewrite Hs, Hl. Qed.

(** *** What every step keeps *)

Lemma process_frame_config (v : t) (f out : list F32.t) :
  same_config v (fst (process_frame v f out)).
Proof.
  unfold process_frame.
  destruct (state v);
    repeat match goal with
           | |- context [if ?b then _ else _] => destruct b
           end;
    vad_simpl;
    try (repeat split; fail).
  - apply append_to_pre_speech_config.
  - pose proof (append_to_pre_speech_config v (onset_buf_ v)) as H1.
    pose proof (append_to_pre_speech_config
                  (append_to_pre_speech v (onset_buf_ v)) f) as H2.
    unfold same_config in *. vad_simpl.
    repeat split; etransitivity; try apply H2; apply H1.
Qed.

Lemma process_frames_config (frames : list (list F32.t)) :
  forall (v : t) (out : list F32.t),
    same_config v (fst (process_frames v frames out)).
Proof.
  induction frames as [|f fs IH]; intros v out; [apply same_config_refl|].
  cbn [process_frames].
  pose proof (process_frame_config v f out) as H1.
  destruct (process_frame v f out) as [v1 out1]. cbn [fst] in H1.
  pose proof (IH v1 out1) as H2.
  unfold same_config in *.
  repeat split; etransitivity; try apply H2; apply H1.
Qed.


Lemma append_to_pre_speech_flag (v : t) (data : list F32.t) :
  is_speaking (append_to_pre_speech v data) = is_speaking v.
Proof. unfold append_to_pre_speech. destruct (_ >? _); reflexivity. Qed.

Lemma process_frame_flag (v : t) (f out : list F32.t) :
  flag_ok v -> flag_ok (fst (process_frame v f out)).
Proof.
  unfold flag_ok, process_frame. intros H.
  destruct (state v) eqn:Es;
    repeat match goal with
           | |- context [if ?b then _ else _] => destruct b
           end;
    vad_simpl;
    rewrite ?append_to_pre_speech_state, ?append_to_pre_speech_flag, ?Es;
    try reflexivity; try exact H.
Qed.

Lemma process_frames_flag (frames : list (list F32.t)) :
  forall (v : t) (out : list F32.t),
    flag_ok v -> flag_ok (fst (process_frames v frames out)).
Proof.
  induction frames as [|f fs IH]; intros v out H; [exact H|].
  cbn [process_frames].
  pose proof (process_frame_flag v f out H) as H1.
  destruct (process_frame v f out) as [v1 out1]. now apply IH.
Qed.

(** *** Nothing is invented *)

Lemma held_append_to_pre_speech (v : t) (data : list F32.t) :
  subseq (pre_speech_buf_ (append_to_pre_speech v data)) (pre_speech_buf_ v ++ data).
Proof.
  unfold append_to_pre_speech. destruct (_ >? _); vad_simpl.
  - apply subseq_skipn.
  - apply subseq_refl.
Qed.

Lemma process_frame_subseq (v : t) (f out : list F32.t) :
  exists e,
    snd (process_frame v f out) = out ++ e /\
    subseq (e ++ held (fst (process_frame v f out))) (held v ++ f).
Proof.
  unfold process_frame, held.
  destruct (state v) eqn:Es;
    repeat match goal with
           | |- context [if ?b then _ else _] => destruct b
           end;
    vad_simpl; rewrite ?append_to_pre_speech_state; vad_simpl; rewrite ?Es.
  - exists []. rewrite app_nil_r. split; [reflexivity | apply subseq_refl].
  - exists []. rewrite app_nil_r. split; [reflexivity|].
    apply held_append_to_pre_speech.
  - exists (pre_speech_buf_ v ++ onset_buf_ v ++ f).
    split; [now rewrite <- !app_assoc|].
    rewrite app_nil_r, <- !app_assoc. apply subseq_refl.
  - exists []. rewrite app_nil_r. split; [reflexivity|].
    rewrite <- !app_assoc. apply subseq_refl.
  - exists []. rewrite app_nil_r. split; [reflexivity|]. cbn [app].
    eapply subseq_trans; [apply held_append_to_pre_speech|].
    apply subseq_app; [apply held_append_to_pre_speech | apply subseq_refl].
  - exists []. rewrite app_nil_r. split; [reflexivity | apply subseq_refl].
  - exists f. split; [reflexivity|]. rewrite app_nil_r. apply subseq_refl.
  - eexists. split; [reflexivity|]. rewrite app_nil_r. apply subseq_firstn.
  - exists []. rewrite app_nil_r. split; [reflexivity | apply subseq_refl].
  - exists (post_speech_buf_ v ++ f). split; [now rewrite <- app_assoc|].
    rewrite app_nil_r. apply subseq_refl.
Qed.

Lemma process_frames_subseq (frames : list (list F32.t)) :
  forall (v : t) (out : list F32.t),
  exists e,
    snd (process_frames v frames out) = out ++ e /\
    subseq (e ++ held (fst (process_frames v frames out)))
           (held v ++ List.concat frames).
Proof.
  induction frames as [|f fs IH]; intros v out.
  - exists []. cbn. rewrite !app_nil_r. split; [reflexivity | apply subseq_refl].
  - cbn [process_frames List.concat].
    destruct (process_frame_subseq v f out) as (e1 & E1 & S1).
    destruct (process_frame v f out) as [v1 out1]. cbn [fst snd] in *.
    destruct (IH v1 out1) as (e2 & E2 & S2).
    exists (e1 ++ e2). split; [rewrite E2, E1; now rewrite app_assoc|].
    rewrite <- app_assoc.
    eapply subseq_trans.
    + apply subseq_app; [apply subseq_refl | exact S2].
    + rewrite !app_assoc. apply subseq_app; [exact S1 | apply subseq_refl].
Qed.


(** *** Comparisons across the two thresholds *)

Ltac cmp_cases :=
  repeat match goal with
         | |- context [Z.compare ?a ?b] =>
             destruct (Z.compare_spec a b); subst
         | H : context [Z.compare ?a ?b] |- _ =>
             destruct (Z.compare_spec a b); subst
         | |- context [Pos.compare_cont Eq ?a ?b] =>
             change (Pos.compare_cont Eq a b) with (Pos.compare a b);
             destruct (Pos.compare_spec a b); subst
         | H : context [Pos.compare_cont Eq ?a ?b] |- _ =>
             change (Pos.compare_cont Eq a b) with (Pos.compare a b) in H;
             destruct (Pos.compare_spec a b); subst
         end.

(** [a < b <= x] excludes [x < a]. *)
Lemma ltb_leb_trans (a b x : spec_float) :
  SFltb a b = true -> SFleb b x = true -> SFltb x a = false.
Proof.
  unfold SFltb, SFleb.
  destruct a as [sa|sa| |sa ma ea], b as [sb|sb| |sb mb eb], x as [sx|sx| |sx mx ex];
    cbn [SFcompare];
    try discriminate; try reflexivity;
    repeat match goal with s : bool |- _ => destruct s end;
    cbn [CompOpp]; try discriminate; try reflexivity;
    cmp_cases; cbn [CompOpp]; try discriminate; try reflexivity; try lia.
Qed.

(** [x < a < b] excludes [b <= x]. *)
Lemma ltb_ltb_not_leb (x a b : spec_float) :
  SFltb x a = true -> SFltb a b = true -> SFleb b x = false.
Proof.
  unfold SFltb, SFleb.
  destruct a as [sa|sa| |sa ma ea], b as [sb|sb| |sb mb eb], x as [sx|sx| |sx mx ex];
    cbn [SFcompare];
    try discriminate; try reflexivity;
    repeat match goal with s : bool |- _ => destruct s end;
    cbn [CompOpp]; try discriminate; try reflexivity;
    cmp_cases; cbn [CompOpp]; try discriminate; try reflexivity; try lia.
Qed.

Lemma loud_not_silent (v : t) (f : list F32.t) :
  F32.ltb (silence_threshold v) (speech_threshold v) = true ->
  loud v f -> F32.ltb (compute_rms f) (silence_threshold v) = false.
Proof. intros Ht Hl. exact (ltb_leb_trans _ _ _ Ht Hl). Qed.

Lemma silent_quiet (v : t) (f : list F32.t) :
  F32.ltb (silence_threshold v) (speech_threshold v) = true ->
  silent v f -> quiet v f.
Proof. intros Ht Hs. exact (ltb_ltb_not_leb _ _ _ Hs Ht). Qed.

Lemma loud_config (v v' : t) (f : list F32.t) :
  same_config v v' -> loud v f -> loud v' f.
Proof. intros (_ & Hsp & _) H. unfold loud in *. now rewrite Hsp. Qed.

Lemma quiet_config (v v' : t) (f : list F32.t) :
  same_config v v' -> quiet v f -> quiet v' f.
Proof. intros (_ & Hsp & _) H. unfold quiet in *. now rewrite Hsp. Qed.

Lemma silent_config (v v' : t) (f : list F32.t) :
  same_config v v' -> silent v f -> silent v' f.
Proof. intros (_ & _ & Hsi & _) H. unfold silent in *. now rewrite Hsi. Qed.

Lemma same_config_sym (v v' : t) : same_config v v' -> same_config v' v.
Proof. unfold same_config. intuition congruence. Qed.

Lemma same_config_trans (a b c : t) :
  same_config a b -> same_config b c -> same_config a c.
Proof. unfold same_config. intuition congruence. Qed.

Lemma same_config_limits (v v' : t) :
  same_config v v' ->
  pre_speech_max_samples v' = pre_speech_max_samples v /\
  post_speech_max_samples v' = post_speech_max_samples v /\
  min_speech_samples v' = min_speech_samples v /\
  min_silence_samples v' = min_silence_samples v.
Proof.
  unfold same_config, pre_speech_max_samples, post_speech_max_samples,
    min_speech_samples, min_silence_samples.
  intros (_ & _ & _ & -> & -> & -> & -> & ->). repeat split.
Qed.

Lemma Forall_config (P : t -> list F32.t -> Prop) (v v' : t) (frames : list (list F32.t)) :
  (forall f, P v f -> P v' f) -> Forall (P v) frames -> Forall (P v') frames.
Proof. intros H F. eapply Forall_impl; [|exact F]. exact H. Qed.

Lemma process_frames_app (a b : list (list F32.t)) :
  forall (v : t) (out : list F32.t),
    process_frames v (a ++ b) out
    = process_frames (fst (process_frames v a out)) b (snd (process_frames v a out)).
Proof.
  induction a as [|f a IH]; intros v out; [reflexivity|].
  cbn [app process_frames].
  destruct (process_frame v f out) as [v1 out1]. apply IH.
Qed.

(** *** Runs of quiet frames in silence *)

Lemma keep_last_all {A : Type} (n : Z) (l : list A) :
  Z.of_nat (List.length l) <= n -> keep_last n l = l.
Proof.
  intros H. unfold keep_last.
  replace (List.length l - Z.to_nat n)%nat with O by lia. reflexivity.
Qed.

Lemma keep_last_app {A : Type} (n : Z) (a b : list A) :
  0 <= n -> keep_last n (keep_last n a ++ b) = keep_last n (a ++ b).
Proof.
  intros Hn. unfold keep_last.
  destruct (Nat.le_gt_cases (List.length a) (Z.to_nat n)) as [H|H].
  - replace (List.length a - Z.to_nat n)%nat with O by lia. reflexivity.
  - rewrite length_app, length_skipn.
    replace (List.length a - (List.length a - Z.to_nat n) + List.length b - Z.to_nat n)%nat
      with (List.length b) by lia.
    replace (skipn (List.length a - Z.to_nat n) a ++ b)
      with (skipn (List.length a - Z.to_nat n) (a ++ b)).
    + rewrite skipn_skipn. f_equal. rewrite length_app. lia.
    + rewrite skipn_app.
      replace (List.length a - Z.to_nat n - List.length a)%nat with O by lia.
      reflexivity.
Qed.

Lemma keep_last_length {A : Type} (n : Z) (l : list A) :
  0 <= n -> Z.of_nat (List.length (keep_last n l)) <= n.
Proof. intros Hn. unfold keep_last. rewrite length_skipn. lia. Qed.

Lemma quiet_run (frames : list (list F32.t)) :
  forall (v : t) (out : list F32.t),
    state v = silence -> Forall (quiet v) frames ->
    let r := process_frames v frames out in
    state (fst r) = silence /\ snd r = out /\
    is_speaking (fst r) = is_speaking v /\
    (len (pre_speech_buf_ v) <= pre_speech_max_samples v ->
     pre_speech_buf_ (fst r)
     = keep_last (pre_speech_max_samples v) (pre_speech_buf_ v ++ List.concat frames)).
Proof.
  induction frames as [|f fs IH]; intros v out Hs Hq.
  - cbn. refine (conj Hs (conj eq_refl (conj eq_refl _))).
    intros Hl. rewrite app_nil_r. symmetry.
    now apply keep_last_all.
  - inversion Hq as [|? ? Hf Hfs]; subst.
    cbn [process_frames List.concat].
    rewrite (step_silence_quiet v f out Hs Hf).
    pose proof (append_to_pre_speech_config v f) as Hc.
    destruct (same_config_limits _ _ Hc) as (Hmax & _).
    destruct (IH (append_to_pre_speech v f) out) as (H1 & H2 & H3 & H4).
    + now rewrite append_to_pre_speech_state.
    + eapply Forall_config; [|exact Hfs]. intros g. now apply quiet_config.
    + cbv zeta in *. split; [exact H1|]. split; [exact H2|].
      split; [now rewrite H3, append_to_pre_speech_flag|].
      intros Hl.
      assert (H0 : 0 <= pre_speech_max_samples v) by (unfold len in Hl; lia).
      rewrite H4.
      * rewrite Hmax, append_to_pre_speech_window by exact H0.
        rewrite keep_last_app by exact H0. now rewrite <- app_assoc.
      * rewrite Hmax, append_to_pre_speech_window by exact H0.
        apply keep_last_length. exact H0.
Qed.

(** *** Digital silence *)

Lemma sum_zeros (frame : list F32.t) :
  Forall is_zero frame ->
  fold_left (fun s x => F32.add s (F32.mul x x)) frame F32.zero = F32.zero.
Proof.
  induction 1 as [|x l [s ->] _ IH]; [reflexivity|].
  cbn [fold_left].
  replace (F32.add F32.zero (F32.mul (S754_zero s) (S754_zero s))) with F32.zero
    by (destruct s; reflexivity).
  exact IH.
Qed.

Lemma compute_rms_zeros (frame : list F32.t) :
  Forall is_zero frame ->
  compute_rms frame = S754_nan \/ is_zero (compute_rms frame).
Proof.
  intros H. unfold compute_rms.
  destruct frame as [|x l]; [right; now exists false|].
  cbv zeta. rewrite (sum_zeros _ H).
  destruct (F32.of_Z (len (x :: l))) as [s|s| |s m e].
  - left. reflexivity.
  - right. exists s. reflexivity.
  - left. reflexivity.
  - right. exists s. reflexivity.
Qed.

Lemma zeros_quiet (v : t) (frame : list F32.t) :
  F32.ltb F32.zero (speech_threshold v) = true ->
  Forall is_zero frame -> quiet v frame.
Proof.
  intros Ht Hz. unfold quiet, F32.geb.
  destruct (compute_rms_zeros frame Hz) as [-> | [s ->]].
  - now destruct (speech_threshold v).
  - destruct (speech_threshold v) as [s'|s'| |s' m e]; try discriminate;
      destruct s'; try discriminate; reflexivity.
Qed.

(** *** Runs of loud frames: the onset *)


Lemma speaking_run (frames : list (list F32.t)) :
  forall (v : t) (out : list F32.t),
    state v = speaking ->
    Forall (fun f => F32.ltb (compute_rms f) (silence_threshold v) = false) frames ->
    process_frames v frames out = (v, out ++ List.concat frames).
Proof.
  induction frames as [|f fs IH]; intros v out Hs Hf.
  - cbn. now rewrite app_nil_r.
  - inversion Hf as [|? ? H1 H2]; subst.
    cbn [process_frames List.concat].
    rewrite (step_speaking_keep v f out Hs H1), (IH v (out ++ f) Hs H2).
    now rewrite <- app_assoc.
Qed.

Lemma len_app (a b : list F32.t) : len (a ++ b) = len a + len b.
Proof. unfold len. rewrite length_app. lia. Qed.

Lemma len_nonneg (a : list F32.t) : 0 <= len a.
Proof. unfold len. lia. Qed.

Lemma onset_run (frames : list (list F32.t)) :
  forall (v : t) (out : list F32.t),
    state v = speech_onset ->
    F32.ltb (silence_threshold v) (speech_threshold v) = true ->
    Forall (loud v) frames ->
    let r := process_frames v frames out in
    if nonempty frames
       && (min_speech_samples v <=? speech_sample_count_ v + len (List.concat frames))
    then state (fst r) = speaking /\ is_speaking (fst r) = true /\
         pre_speech_buf_ (fst r) = [] /\
         snd r = out ++ pre_speech_buf_ v ++ onset_buf_ v ++ List.concat frames
    else state (fst r) = speech_onset /\ is_speaking (fst r) = is_speaking v /\
         pre_speech_buf_ (fst r) = pre_speech_buf_ v /\
         onset_buf_ (fst r) = onset_buf_ v ++ List.concat frames /\
         snd r = out.
Proof.
  induction frames as [|f fs IH]; intros v out Hs Ht Hl.
  - cbn. rewrite app_nil_r. repeat split; assumption.
  - inversion Hl as [|? ? Hf Hfs]; subst.
    cbn [process_frames List.concat nonempty andb].
    rewrite (step_onset_loud v f out Hs Hf).
    rewrite len_app.
    pose proof (len_nonneg (List.concat fs)) as Hn.
    destruct (Z.geb_spec (speech_sample_count_ v + len f) (min_speech_samples v))
      as [Hge|Hlt].
    + rewrite speaking_run.
      * replace (min_speech_samples v <=? speech_sample_count_ v + (len f + len (List.concat fs)))
          with true by (symmetry; apply Z.leb_le; lia).
        vad_simpl. repeat split. now rewrite <- !app_assoc.
      * reflexivity.
      * vad_simpl. eapply Forall_impl; [|exact Hfs].
        intros g Hg. now apply loud_not_silent.
    + set (v1 := set_onset_buf (onset_buf_ v ++ f)
                   (set_speech_sample_count (speech_sample_count_ v + len f) v)).
      specialize (IH v1 out Hs Ht Hfs). cbv zeta in IH.
      change (min_speech_samples v1) with (min_speech_samples v) in IH.
      change (speech_sample_count_ v1) with (speech_sample_count_ v + len f) in IH.
      change (pre_speech_buf_ v1) with (pre_speech_buf_ v) in IH.
      change (onset_buf_ v1) with (onset_buf_ v ++ f) in IH.
      change (is_speaking v1) with (is_speaking v) in IH.
      rewrite <- Z.add_assoc in IH.
      destruct fs as [|g fs'].
      * cbn [nonempty andb] in IH.
        replace (min_speech_samples v <=? speech_sample_count_ v + (len f + len (List.concat [])))
          with false
          by (symmetry; apply Z.leb_gt; change (len (List.concat [])) with 0; lia).
        rewrite <- app_assoc in IH. exact IH.
      * cbn [nonempty andb] in IH.
        destruct (min_speech_samples v <=? _).
        -- rewrite <- !app_assoc in IH. exact IH.
        -- rewrite <- app_assoc in IH. exact IH.
Qed.


(** *** Runs of silent frames: the offset *)

Lemma firstn_app_short {A : Type} (n : nat) (a b : list A) :
  (n <= List.length a)%nat -> firstn n (a ++ b) = firstn n a.
Proof.
  intros H. rewrite firstn_app.
  replace (n - List.length a)%nat with O by lia.
  cbn [firstn]. apply app_nil_r.
Qed.

Lemma offset_run (frames : list (list F32.t)) :
  forall (v : t) (out : list F32.t),
    state v = speech_offset ->
    F32.ltb (silence_threshold v) (speech_threshold v) = true ->
    silence_sample_count_ v = len (post_speech_buf_ v) ->
    0 <= post_speech_max_samples v <= min_silence_samples v ->
    min_silence_samples v < 2 ^ 31 ->
    Forall (silent v) frames ->
    let r := process_frames v frames out in
    if nonempty frames
       && (min_silence_samples v <=? silence_sample_count_ v + len (List.concat frames))
    then state (fst r) = silence /\ is_speaking (fst r) = false /\
         snd r = out ++ firstn (Z.to_nat (post_speech_max_samples v))
                               (post_speech_buf_ v ++ List.concat frames)
    else state (fst r) = speech_offset /\ is_speaking (fst r) = is_speaking v /\
         post_speech_buf_ (fst r) = post_speech_buf_ v ++ List.concat frames /\
         snd r = out.
Proof.
  induction frames as [|f fs IH]; intros v out Hs Ht Hc Hp Hm Hl.
  - cbn. rewrite app_nil_r. repeat split; assumption.
  - inversion Hl as [|? ? Hf Hfs]; subst.
    cbn [process_frames List.concat nonempty andb].
    rewrite (step_offset_silent v f out Hs Hf).
    rewrite len_app.
    pose proof (len_nonneg (List.concat fs)) as Hn.
    destruct (Z.geb_spec (silence_sample_count_ v + len f) (min_silence_samples v))
      as [Hge|Hlt].
    + replace (min_silence_samples v <=? silence_sample_count_ v + (len f + len (List.concat fs)))
        with true by (symmetry; apply Z.leb_le; lia).
      set (v1 := set_pre_speech_buf [] _).
      set (out1 := out ++ _).
      assert (Hq : Forall (quiet v1) fs).
      { eapply Forall_impl; [|exact Hfs].
        intros g Hg. apply (silent_quiet v) in Hg; [|exact Ht]. exact Hg. }
      destruct (quiet_run fs v1 out1 eq_refl Hq) as (H1 & H2 & H3 & _).
      split; [exact H1|]. split; [rewrite H3; reflexivity|].
      rewrite H2. subst out1. f_equal.
      rewrite size_t_of_int_small by lia.
      rewrite firstn_min_len by lia.
      rewrite app_assoc. symmetry. apply firstn_app_short.
      rewrite Hc, <- len_app in Hge. unfold len in Hge. lia.
    + set (v1 := set_post_speech_buf (post_speech_buf_ v ++ f)
                   (set_silence_sample_count (silence_sample_count_ v + len f) v)).
      assert (Hc1 : silence_sample_count_ v1 = len (post_speech_buf_ v1))
        by (subst v1; vad_simpl; rewrite len_app; lia).
      specialize (IH v1 out Hs Ht Hc1 Hp Hm Hfs). cbv zeta in IH.
      change (min_silence_samples v1) with (min_silence_samples v) in IH.
      change (post_speech_max_samples v1) with (post_speech_max_samples v) in IH.
      change (silence_sample_count_ v1) with (silence_sample_count_ v + len f) in IH.
      change (post_speech_buf_ v1) with (post_speech_buf_ v ++ f) in IH.
      change (is_speaking v1) with (is_speaking v) in IH.
      rewrite <- Z.add_assoc in IH.
      destruct fs as [|g fs'].
      * cbn [nonempty andb] in IH.
        replace (min_silence_samples v <=? silence_sample_count_ v + (len f + len (List.concat [])))
          with false
          by (symmetry; apply Z.leb_gt; change (len (List.concat [])) with 0; lia).
        rewrite <- app_assoc in IH. exact IH.
      * cbn [nonempty andb] in IH.
        destruct (min_silence_samples v <=? _);
          rewrite <- app_assoc in IH; exact IH.
Qed.



Lemma onset_from_silence (v : t) (frames : list (list F32.t)) (out : list F32.t) :
  state v = silence ->
  F32.ltb (silence_threshold v) (speech_threshold v) = true ->
  frames <> [] -> Forall (loud v) frames ->
  let r := process_frames v frames out in
  if (2 <=? Z.of_nat (List.length frames))
     && (min_speech_samples v <=? len (List.concat frames))
  then state (fst r) = speaking /\ is_speaking (fst r) = true /\
       held (fst r) = [] /\
       snd r = out ++ pre_speech_buf_ v ++ List.concat frames
  else state (fst r) = speech_onset /\ is_speaking (fst r) = is_speaking v /\
       held (fst r) = pre_speech_buf_ v ++ List.concat frames /\
       snd r = out.
Proof.
  intros Hs Ht Hne Hl.
  destruct frames as [|f fs]; [contradiction|].
  inversion Hl as [|? ? Hf Hfs]; subst.
  cbn [process_frames List.concat].
  rewrite (step_silence_loud v f out Hs Hf).
  set (v1 := set_onset_buf f _).
  pose proof (onset_run fs v1 out eq_refl Ht Hfs) as R. cbv zeta in R.
  change (min_speech_samples v1) with (min_speech_samples v) in R.
  change (speech_sample_count_ v1) with (len f) in R.
  change (pre_speech_buf_ v1) with (pre_speech_buf_ v) in R.
  change (onset_buf_ v1) with f in R.
  change (is_speaking v1) with (is_speaking v) in R.
  rewrite len_app.
  replace (2 <=? Z.of_nat (List.length (f :: fs))) with (nonempty fs)
    by (destruct fs; cbn [nonempty List.length]; [reflexivity|];
        symmetry; apply Z.leb_le; lia).
  cbv zeta.
  destruct (nonempty fs && (min_speech_samples v <=? len f + len (List.concat fs))).
  - destruct R as (R1 & R2 & R3 & R4). unfold held. rewrite R1.
    repeat split; assumption.
  - destruct R as (R1 & R2 & R3 & R4 & R5). unfold held. rewrite R1, R3, R4.
    repeat split; assumption.
Qed.

Lemma offset_from_speaking (v : t) (frames : list (list F32.t)) (out : list F32.t) :
  state v = speaking ->
  F32.ltb (silence_threshold v) (speech_threshold v) = true ->
  0 <= post_speech_max_samples v <= min_silence_samples v ->
  min_silence_samples v < 2 ^ 31 ->
  frames <> [] -> Forall (silent v) frames ->
  let r := process_frames v frames out in
  if (2 <=? Z.of_nat (List.length frames))
     && (min_silence_samples v <=? len (List.concat frames))
  then state (fst r) = silence /\ is_speaking (fst r) = false /\
       snd r = out ++ firstn (Z.to_nat (post_speech_max_samples v)) (List.concat frames)
  else state (fst r) = speech_offset /\ is_speaking (fst r) = is_speaking v /\
       held (fst r) = List.concat frames /\
       snd r = out.
Proof.
  intros Hs Ht Hp Hm Hne Hl.
  destruct frames as [|f fs]; [contradiction|].
  inversion Hl as [|? ? Hf Hfs]; subst.
  cbn [process_frames List.concat].
  rewrite (step_speaking_silent v f out Hs Hf).
  set (v1 := set_post_speech_buf f _).
  pose proof (offset_run fs v1 out eq_refl Ht eq_refl Hp Hm Hfs) as R. cbv zeta in R.
  change (min_silence_samples v1) with (min_silence_samples v) in R.
  change (post_speech_max_samples v1) with (post_speech_max_samples v) in R.
  change (silence_sample_count_ v1) with (len f) in R.
  change (post_speech_buf_ v1) with f in R.
  change (is_speaking v1) with (is_speaking v) in R.
  rewrite len_app.
  replace (2 <=? Z.of_nat (List.length (f :: fs))) with (nonempty fs)
    by (destruct fs; cbn [nonempty List.length]; [reflexivity|];
        symmetry; apply Z.leb_le; lia).
  cbv zeta.
  destruct (nonempty fs && (min_silence_samples v <=? len f + len (List.concat fs))).
  - exact R.
  - destruct R as (R1 & R2 & R3 & R4). unfold held. rewrite R1, R3.
    repeat split; assumption.
Qed.

(** The same runs, whatever the padding after the speech. *)
Lemma offset_run_any (frames : list (list F32.t)) :
  forall (v : t) (out : list F32.t),
    state v = speech_offset ->
    F32.ltb (silence_threshold v) (speech_threshold v) = true ->
    Forall (silent v) frames ->
    let r := process_frames v frames out in
    if nonempty frames
       && (min_silence_samples v <=? silence_sample_count_ v + len (List.concat frames))
    then state (fst r) = silence /\ is_speaking (fst r) = false /\
         snd r = out ++ firstn (Z.to_nat (size_t_of_int (post_speech_max_samples v)))
                               (post_speech_buf_ v
                                ++ List.concat (reaching (min_silence_samples v)
                                                  (silence_sample_count_ v) frames))
    else state (fst r) = speech_offset /\ is_speaking (fst r) = is_speaking v /\
         post_speech_buf_ (fst r) = post_speech_buf_ v ++ List.concat frames /\
         snd r = out.
Proof.
  induction frames as [|f fs IH]; intros v out Hs Ht Hl.
  - cbn. rewrite app_nil_r. repeat split; assumption.
  - inversion Hl as [|? ? Hf Hfs]; subst.
    cbn [process_frames List.concat nonempty andb reaching].
    rewrite (step_offset_silent v f out Hs Hf).
    rewrite len_app.
    pose proof (len_nonneg (List.concat fs)) as Hn.
    destruct (Z.geb_spec (silence_sample_count_ v + len f) (min_silence_samples v))
      as [Hge|Hlt].
    + replace (min_silence_samples v <=? silence_sample_count_ v + (len f + len (List.concat fs)))
        with true by (symmetry; apply Z.leb_le; lia).
      set (v1 := set_pre_speech_buf [] _).
      set (out1 := out ++ _).
      assert (Hq : Forall (quiet v1) fs).
      { eapply Forall_impl; [|exact Hfs].
        intros g Hg. apply (silent_quiet v) in Hg; [|exact Ht]. exact Hg. }
      destruct (quiet_run fs v1 out1 eq_refl Hq) as (H1 & H2 & H3 & _).
      split; [exact H1|]. split; [rewrite H3; reflexivity|].
      rewrite H2. subst out1. f_equal.
      cbn [List.concat]. rewrite app_nil_r.
      apply firstn_min_len.
      unfold size_t_of_int. apply Z.mod_pos_bound. reflexivity.
    + set (v1 := set_post_speech_buf (post_speech_buf_ v ++ f)
                   (set_silence_sample_count (silence_sample_count_ v + len f) v)).
      specialize (IH v1 out Hs Ht Hfs). cbv zeta in IH.
      change (min_silence_samples v1) with (min_silence_samples v) in IH.
      change (post_speech_max_samples v1) with (post_speech_max_samples v) in IH.
      change (silence_sample_count_ v1) with (silence_sample_count_ v + len f) in IH.
      change (post_speech_buf_ v1) with (post_speech_buf_ v ++ f) in IH.
      change (is_speaking v1) with (is_speaking v) in IH.
      rewrite <- Z.add_assoc in IH.
      cbn [List.concat].
      destruct fs as [|g fs'].
      * cbn [nonempty andb] in IH.
        replace (min_silence_samples v <=? silence_sample_count_ v + (len f + len (List.concat [])))
          with false
          by (symmetry; apply Z.leb_gt; change (len (List.concat [])) with 0; lia).
        rewrite <- app_assoc in IH. exact IH.
      * cbn [nonempty andb] in IH.
        destruct (min_silence_samples v <=? _);
          rewrite <- app_assoc in IH; exact IH.
Qed.

Lemma offset_from_speaking_any (v : t) (frames : list (list F32.t)) (out : list F32.t) :
  state v = speaking ->
  F32.ltb (silence_threshold v) (speech_threshold v) = true ->
  frames <> [] -> Forall (silent v) frames ->
  let r := process_frames v frames out in
  if (2 <=? Z.of_nat (List.length frames))
     && (min_silence_samples v <=? len (List.concat frames))
  then state (fst r) = silence /\ is_speaking (fst r) = false /\
       snd r = out ++ firstn (Z.to_nat (size_t_of_int (post_speech_max_samples v)))
                             (List.concat
                                (pending_at_confirmation (min_silence_samples v) frames))
  else state (fst r) = speech_offset /\ is_speaking (fst r) = is_speaking v /\
       held (fst r) = List.concat frames /\
       snd r = out.
Proof.
  intros Hs Ht Hne Hl.
  destruct frames as [|f fs]; [contradiction|].
  inversion Hl as [|? ? Hf Hfs]; subst.
  cbn [process_frames List.concat pending_at_confirmation].
  rewrite (step_speaking_silent v f out Hs Hf).
  set (v1 := set_post_speech_buf f _).
  pose proof (offset_run_any fs v1 out eq_refl Ht Hfs) as R. cbv zeta in R.
  change (min_silence_samples v1) with (min_silence_samples v) in R.
  change (post_speech_max_samples v1) with (post_speech_max_samples v) in R.
  change (silence_sample_count_ v1) with (len f) in R.
  change (post_speech_buf_ v1) with f in R.
  change (is_speaking v1) with (is_speaking v) in R.
  rewrite len_app.
  replace (2 <=? Z.of_nat (List.length (f :: fs))) with (nonempty fs)
    by (destruct fs; cbn [nonempty List.length]; [reflexivity|];
        symmetry; apply Z.leb_le; lia).
  cbv zeta.
  destruct (nonempty fs && (min_silence_samples v <=? len f + len (List.concat fs))).
  - exact R.
  - destruct R as (R1 & R2 & R3 & R4). unfold held. rewrite R1, R3.
    repeat split; assumption.
Qed.

Lemma process_cuts_frames_aux (v : t) (samples : list F32.t) (sample_rate : Z) :
  is_enabled v = true ->
  34 <= sample_rate < 2 ^ 26 ->
  let frame_size := Z.to_nat (Z.quot (sample_rate * 30) 1000) in
  let frames := chunks_of (List.length samples) frame_size samples in
  process (List.length samples) v samples sample_rate
  = Some (process_frames (set_active_sample_rate sample_rate v) frames []) /\
  List.concat frames = samples /\
  Forall (fun f => (List.length f <= frame_size)%nat) frames.
Proof.
  intros He Hr. cbv zeta.
  assert (Hq : 0 < Z.quot (sample_rate * 30) 1000 < 2 ^ 64).
  { change (2 ^ 26) with 67108864 in Hr.
    rewrite Z.quot_div_nonneg by lia.
    split.
    - apply Z.div_str_pos. lia.
    - apply Z.lt_le_trans with (2 ^ 31); [|discriminate].
      apply Z.div_lt_upper_bound; [lia|]. change (2 ^ 31) with 2147483648. lia. }
  split; [|split].
  - unfold process. rewrite He. cbn [negb].
    now apply process_loop_frames.
  - apply ChunkProps.chunks_of_concat; lia.
  - generalize (List.length samples) at 1 as fuel. intros fuel. revert samples.
    induction fuel as [|fuel IH]; intros samples.
    + destruct samples; constructor.
    + destruct samples as [|x l]; [constructor|].
      change (chunks_of (S fuel) ?n (x :: l))
        with (firstn n (x :: l) :: chunks_of fuel n (skipn n (x :: l))).
      constructor; [|apply IH].
      rewrite length_firstn. lia.
Qed.

(** X1. At a sample rate from 34 Hz up at which the arithmetic of vad.h
    stays inside [int] (see [fits]), [process] cuts its input into
    consecutive frames of 30 ms, the last one holding the rest, and runs
    them through [process_frame] in order; with that the call returns.
    (The model computes the sample counts in unbounded integers: the
    hypothesis [fits] keeps the statement to the rates, durations and
    detector states for which the C++ computes the same.) *)
Theorem process_cuts_frames (v : t) (samples : list F32.t) (sample_rate : Z) :
  is_enabled v = true ->
  34 <= sample_rate < 2 ^ 26 ->
  fits v sample_rate ->
  let frame_size := Z.to_nat (Z.quot (sample_rate * 30) 1000) in
  let frames := chunks_of (List.length samples) frame_size samples in
  process (List.length samples) v samples sample_rate
  = Some (process_frames (set_active_sample_rate sample_rate v) frames []) /\
  List.concat frames = samples /\
  Forall (fun f => (List.length f <= frame_size)%nat) frames.
Proof. intros He Hr _. exact (process_cuts_frames_aux v samples sample_rate He Hr). Qed.

Lemma process_cuts_frames_witness :
  (is_enabled initial = true /\ 34 <= 100 < 2 ^ 26 /\ fits initial 100) /\
  process 4 initial [F32.one; F32.one; F32.one; F32.one] 100
  = Some (process_frames (set_active_sample_rate 100 initial)
            [[F32.one; F32.one; F32.one]; [F32.one]] []).
Proof.
  assert (H1 : is_enabled initial = true) by reflexivity.
  assert (H2 : 34 <= 100 < 2 ^ 26) by (split; [lia | reflexivity]).
  assert (H3 : fits initial 100)
    by (unfold fits, configured, roomy, in_int; cbn; lia).
  split; [exact (conj H1 (conj H2 H3))|].
  exact (proj1 (process_cuts_frames initial [F32.one; F32.one; F32.one; F32.one] 100
                  H1 H2 H3)).
Defined.

(** X2. With a sample rate between -33 and 33 the frame size
    [sample_rate * 30 / 1000] is 0: the loop of [process] never advances
    past the first sample, whatever the number of iterations allowed. *)
Theorem process_stalls_on_empty_frames (v : t) (samples : list F32.t)
        (sample_rate : Z) (fuel : nat) :
  is_enabled v = true -> -33 <= sample_rate <= 33 -> samples <> [] ->
  process fuel v samples sample_rate = None.
Proof.
  intros He Hr Hne. unfold process. rewrite He. cbn [negb].
  replace (Z.quot (sample_rate * 30) 1000) with 0.
  - now apply process_loop_stalls.
  - symmetry.
    destruct (Z.le_ge_cases 0 sample_rate) as [H|H].
    + apply Z.quot_small. lia.
    + replace (sample_rate * 30) with (- (- sample_rate * 30)) by ring.
      rewrite Z.quot_opp_l by lia. rewrite Z.quot_small by lia. reflexivity.
Qed.

Lemma process_stalls_on_empty_frames_witness :
  (is_enabled initial = true /\ -33 <= 33 <= 33 /\ [F32.one] <> []) /\
  process 1000 initial [F32.one] 33 = None.
Proof.
  assert (H1 : is_enabled initial = true) by reflexivity.
  assert (H2 : -33 <= 33 <= 33) by lia.
  assert (H3 : [F32.one] <> []) by discriminate.
  split; [exact (conj H1 (conj H2 H3))|].
  exact (process_stalls_on_empty_frames initial [F32.one] 33 1000 H1 H2 H3).
Defined.

(** X3. After [reset], and after any run of frames from there,
    [is_speaking] is set exactly when the detector is in state speaking or
    speech offset. *)
Theorem is_speaking_tracks_state (v : t) (frames : list (list F32.t))
        (out : list F32.t) :
  let v' := fst (process_frames (reset v) frames out) in
  is_speaking v' = true <-> (state v' = speaking \/ state v' = speech_offset).
Proof.
  cbv zeta.
  assert (H : flag_ok (fst (process_frames (reset v) frames out)))
    by (apply process_frames_flag; reflexivity).
  unfold flag_ok in H. rewrite H.
  destruct (state _); split; auto; try discriminate;
    intros [E|E]; discriminate.
Qed.

(** X4. The detector never invents, repeats or reorders samples: what a run
    of frames emits, followed by what the detector then still holds back,
    is a selection in order of what it held before followed by the frames
    fed. *)
Theorem emitted_is_subsequence (v : t) (frames : list (list F32.t))
        (out : list F32.t) :
  exists e,
    snd (process_frames v frames out) = out ++ e /\
    subseq (e ++ held (fst (process_frames v frames out)))
           (held v ++ List.concat frames).
Proof. apply process_frames_subseq. Qed.

(** X5. In silence, frames below the speech threshold are not emitted; they
    pass through the pre-speech window, which holds the newest
    [pre_speech_max_samples] samples seen. *)
Theorem pre_speech_window (v : t) (frames : list (list F32.t)) (out : list F32.t) :
  state v = silence ->
  len (pre_speech_buf_ v) <= pre_speech_max_samples v ->
  Forall (quiet v) frames ->
  let r := process_frames v frames out in
  state (fst r) = silence /\ snd r = out /\
  is_speaking (fst r) = is_speaking v /\
  pre_speech_buf_ (fst r)
  = keep_last (pre_speech_max_samples v) (pre_speech_buf_ v ++ List.concat frames) /\
  len (pre_speech_buf_ (fst r)) <= pre_speech_max_samples v.
Proof.
  intros Hs Hl Hq. cbv zeta.
  destruct (quiet_run frames v out Hs Hq) as (H1 & H2 & H3 & H4).
  specialize (H4 Hl).
  repeat split; try assumption.
  rewrite H4. apply keep_last_length. unfold len in Hl. lia.
Qed.

Lemma pre_speech_window_witness :
  (state tiny = silence /\
   len (pre_speech_buf_ tiny) <= pre_speech_max_samples tiny /\
   Forall (quiet tiny) [[F32.zero; low_level]; [low_level]]) /\
  pre_speech_buf_ (fst (process_frames tiny [[F32.zero; low_level]; [low_level]] []))
  = [low_level].
Proof.
  assert (H1 : state tiny = silence) by reflexivity.
  assert (H2 : len (pre_speech_buf_ tiny) <= pre_speech_max_samples tiny)
    by (vm_compute; discriminate).
  assert (H3 : Forall (quiet tiny) [[F32.zero; low_level]; [low_level]])
    by (repeat constructor).
  split; [exact (conj H1 (conj H2 H3))|].
  destruct (pre_speech_window tiny [[F32.zero; low_level]; [low_level]] [] H1 H2 H3)
    as (_ & _ & _ & E & _).
  exact E.
Defined.

(** X6. Digital silence never opens a speech segment: with a positive
    speech threshold, frames of zeros leave a detector in silence where
    it is and nothing is emitted. *)
Theorem digital_silence_stays_silent (v : t) (frames : list (list F32.t))
        (out : list F32.t) :
  state v = silence ->
  F32.ltb F32.zero (speech_threshold v) = true ->
  Forall (Forall is_zero) frames ->
  let r := process_frames v frames out in
  state (fst r) = silence /\ snd r = out /\ is_speaking (fst r) = is_speaking v.
Proof.
  intros Hs Ht Hz. cbv zeta.
  assert (Hq : Forall (quiet v) frames).
  { eapply Forall_impl; [|exact Hz]. intros f Hf. now apply zeros_quiet. }
  destruct (quiet_run frames v out Hs Hq) as (H1 & H2 & H3 & _).
  repeat split; assumption.
Qed.

Lemma digital_silence_stays_silent_witness :
  (state initial = silence /\
   F32.ltb F32.zero (speech_threshold initial) = true /\
   Forall (Forall is_zero) [[F32.zero; S754_zero true]; [F32.zero]]) /\
  snd (process_frames initial [[F32.zero; S754_zero true]; [F32.zero]] []) = [].
Proof.
  assert (H1 : state initial = silence) by reflexivity.
  assert (H2 : F32.ltb F32.zero (speech_threshold initial) = true) by reflexivity.
  assert (H3 : Forall (Forall is_zero) [[F32.zero; S754_zero true]; [F32.zero]]).
  { repeat constructor; eexists; reflexivity. }
  split; [exact (conj H1 (conj H2 H3))|].
  destruct (digital_silence_stays_silent initial _ [] H1 H2 H3) as (_ & E & _).
  exact E.
Defined.



(** X7. Speech is confirmed by the second or a later frame at or above the
    speech threshold, as soon as the run totals [min_speech_samples]
    samples; never by the first frame alone.  On confirmation the
    pre-speech window and the whole run are emitted and later frames of
    the run pass straight through; until then nothing is emitted and the
    run is held back. *)
Theorem speech_onset_confirmation (v : t) (frames : list (list F32.t))
        (out : list F32.t) :
  state v = silence ->
  F32.ltb (silence_threshold v) (speech_threshold v) = true ->
  frames <> [] -> Forall (loud v) frames ->
  let r := process_frames v frames out in
  if (2 <=? Z.of_nat (List.length frames))
     && (min_speech_samples v <=? len (List.concat frames))
  then state (fst r) = speaking /\ is_speaking (fst r) = true /\
       held (fst r) = [] /\
       snd r = out ++ pre_speech_buf_ v ++ List.concat frames
  else state (fst r) = speech_onset /\ is_speaking (fst r) = is_speaking v /\
       held (fst r) = pre_speech_buf_ v ++ List.concat frames /\
       snd r = out.
Proof. exact (onset_from_silence v frames out). Qed.

Lemma speech_onset_confirmation_witness :
  (state tiny = silence /\
   F32.ltb (silence_threshold tiny) (speech_threshold tiny) = true /\
   [[F32.one; F32.one; F32.one]] <> [] /\
   Forall (loud tiny) [[F32.one; F32.one; F32.one]]) /\
  state (fst (process_frames tiny [[F32.one; F32.one; F32.one]] [])) = speech_onset /\
  snd (process_frames tiny [[F32.one; F32.one; F32.one]] []) = [].
Proof.
  assert (H1 : state tiny = silence) by reflexivity.
  assert (H2 : F32.ltb (silence_threshold tiny) (speech_threshold tiny) = true)
    by reflexivity.
  assert (H3 : [[F32.one; F32.one; F32.one]] <> []) by discriminate.
  assert (H4 : Forall (loud tiny) [[F32.one; F32.one; F32.one]])
    by (repeat constructor).
  split; [exact (conj H1 (conj H2 (conj H3 H4)))|].
  pose proof (speech_onset_confirmation tiny [[F32.one; F32.one; F32.one]] []
                H1 H2 H3 H4) as R.
  cbv zeta in R.
  change ((2 <=? Z.of_nat (List.length [[F32.one; F32.one; F32.one]]))
          && (min_speech_samples tiny
              <=? len (List.concat [[F32.one; F32.one; F32.one]]))) with false in R.
  destruct R as (R1 & _ & _ & R4). exact (conj R1 R4).
Defined.

(** X8. The end of speech is confirmed by the second or a later frame below
    the silence threshold, as soon as the run totals
    [min_silence_samples] samples.  On confirmation the first
    [post_speech_max_samples] samples of what is pending at that frame
    (the run up to and including the confirming frame) are emitted and
    [is_speaking] drops; a negative padding emits all that is pending.
    When the padding is not longer than the minimum silence, these are
    the first [post_speech_max_samples] samples of the run; when it is
    longer, fewer samples than the padding asks for may be emitted.
    Until the confirmation nothing is emitted and the run is held
    back. *)
Theorem speech_end_confirmation (v : t) (frames : list (list F32.t))
        (out : list F32.t) :
  state v = speaking ->
  F32.ltb (silence_threshold v) (speech_threshold v) = true ->
  frames <> [] -> Forall (silent v) frames ->
  let r := process_frames v frames out in
  let confirmed := (2 <=? Z.of_nat (List.length frames))
                   && (min_silence_samples v <=? len (List.concat frames)) in
  (if confirmed
   then state (fst r) = silence /\ is_speaking (fst r) = false /\
        snd r = out ++ firstn (Z.to_nat (size_t_of_int (post_speech_max_samples v)))
                              (List.concat
                                 (pending_at_confirmation (min_silence_samples v) frames))
   else state (fst r) = speech_offset /\ is_speaking (fst r) = is_speaking v /\
        held (fst r) = List.concat frames /\
        snd r = out) /\
  (confirmed = true ->
   0 <= post_speech_max_samples v <= min_silence_samples v ->
   min_silence_samples v < 2 ^ 31 ->
   snd r = out ++ firstn (Z.to_nat (post_speech_max_samples v)) (List.concat frames)).
Proof.
  intros Hs Ht Hne Hl. cbv zeta. split.
  - exact (offset_from_speaking_any v frames out Hs Ht Hne Hl).
  - intros Hc Hp Hm.
    pose proof (offset_from_speaking v frames out Hs Ht Hp Hm Hne Hl) as R.
    cbv zeta in R. rewrite Hc in R. exact (proj2 (proj2 R)).
Qed.

Lemma speech_end_confirmation_witness :
  (state wide_speaking = speaking /\
   F32.ltb (silence_threshold wide_speaking) (speech_threshold wide_speaking) = true /\
   six_zeros <> [] /\
   Forall (silent wide_speaking) six_zeros) /\
  post_speech_max_samples wide_speaking = 5 /\
  state (fst (process_frames wide_speaking six_zeros [])) = silence /\
  snd (process_frames wide_speaking six_zeros [])
  = [F32.zero; S754_zero true; F32.zero].
Proof.
  assert (H1 : state wide_speaking = speaking) by reflexivity.
  assert (H2 : F32.ltb (silence_threshold wide_speaking)
                       (speech_threshold wide_speaking) = true) by reflexivity.
  assert (H3 : six_zeros <> []) by discriminate.
  assert (H4 : Forall (silent wide_speaking) six_zeros)
    by (repeat constructor).
  split; [exact (conj H1 (conj H2 (conj H3 H4)))|].
  split; [reflexivity|].
  pose proof (proj1 (speech_end_confirmation wide_speaking six_zeros [] H1 H2 H3 H4)) as R.
  cbv zeta in R.
  change ((2 <=? Z.of_nat (List.length six_zeros))
          && (min_silence_samples wide_speaking
              <=? len (List.concat six_zeros))) with true in R.
  destruct R as (R1 & _ & R3). exact (conj R1 R3).
Defined.

(** X9. An utterance between silences comes out with its padding: after
    quiet frames, a run of loud frames long enough to be confirmed and a
    run of silent frames long enough to end it, the detector has emitted
    the newest [pre_speech_max_samples] samples that preceded the speech,
    the whole speech, and the first [post_speech_max_samples] samples of
    the silence that was pending when the end was confirmed, and is back
    in silence.  When the padding after the speech is not longer than
    the minimum silence, that tail is the first
    [post_speech_max_samples] samples of the silence that followed. *)
Theorem utterance_with_padding (v : t) (before speech after : list (list F32.t))
        (out : list F32.t) :
  state v = silence ->
  F32.ltb (silence_threshold v) (speech_threshold v) = true ->
  len (pre_speech_buf_ v) <= pre_speech_max_samples v ->
  Forall (quiet v) before ->
  Forall (loud v) speech -> (2 <= List.length speech)%nat ->
  min_speech_samples v <= len (List.concat speech) ->
  Forall (silent v) after -> (2 <= List.length after)%nat ->
  min_silence_samples v <= len (List.concat after) ->
  let r := process_frames v (before ++ speech ++ after) out in
  state (fst r) = silence /\ is_speaking (fst r) = false /\
  snd r = out
          ++ keep_last (pre_speech_max_samples v)
                       (pre_speech_buf_ v ++ List.concat before)
          ++ List.concat speech
          ++ firstn (Z.to_nat (size_t_of_int (post_speech_max_samples v)))
                    (List.concat (pending_at_confirmation (min_silence_samples v) after)) /\
  (0 <= post_speech_max_samples v <= min_silence_samples v ->
   min_silence_samples v < 2 ^ 31 ->
   snd r = out
           ++ keep_last (pre_speech_max_samples v)
                        (pre_speech_buf_ v ++ List.concat before)
           ++ List.concat speech
           ++ firstn (Z.to_nat (post_speech_max_samples v)) (List.concat after)).
Proof.
  intros Hs Ht Hpre Hq Hl Hl2 Hlm Hsi Hs2 Hsm. cbv zeta.
  rewrite !process_frames_app.
  pose proof (process_frames_config before v out) as C1.
  destruct (quiet_run before v out Hs Hq) as (Q1 & Q2 & Q3 & Q4).
  specialize (Q4 Hpre).
  set (v1 := fst (process_frames v before out)) in *.
  rewrite Q2.
  destruct (same_config_limits _ _ C1) as (L1 & L2 & L3 & L4).
  assert (Ht1 : F32.ltb (silence_threshold v1) (speech_threshold v1) = true).
  { destruct C1 as (_ & -> & -> & _). exact Ht. }
  pose proof (onset_from_silence v1 speech out Q1 Ht1) as O.
  cbv zeta in O. rewrite L3, Q4 in O.
  replace ((2 <=? Z.of_nat (List.length speech))
           && (min_speech_samples v <=? len (List.concat speech)))
    with true in O
    by (symmetry; apply andb_true_intro; split; apply Z.leb_le; lia).
  destruct O as (O1 & O2 & O3 & O4).
  { destruct speech; [cbn in Hl2; lia | discriminate]. }
  { eapply Forall_config; [|exact Hl]. intros f. now apply loud_config. }
  pose proof (process_frames_config speech v1 out) as C2.
  set (v2 := fst (process_frames v1 speech out)) in *.
  rewrite O4.
  pose proof (same_config_trans _ _ _ C1 C2) as C12.
  destruct (same_config_limits _ _ C12) as (M1 & M2 & M3 & M4).
  assert (Ht2 : F32.ltb (silence_threshold v2) (speech_threshold v2) = true).
  { destruct C12 as (_ & -> & -> & _). exact Ht. }
  assert (Hne : after <> []) by (destruct after; [cbn in Hs2; lia | discriminate]).
  assert (Hsi2 : Forall (silent v2) after).
  { eapply Forall_config; [|exact Hsi]. intros f. now apply silent_config. }
  set (out2 := out ++ keep_last (pre_speech_max_samples v)
                        (pre_speech_buf_ v ++ List.concat before)
                   ++ List.concat speech).
  pose proof (offset_from_speaking_any v2 after out2 O1 Ht2 Hne Hsi2) as G.
  cbv zeta in G. rewrite M2, M4 in G.
  replace ((2 <=? Z.of_nat (List.length after))
           && (min_silence_samples v <=? len (List.concat after)))
    with true in G
    by (symmetry; apply andb_true_intro; split; apply Z.leb_le; lia).
  destruct G as (G1 & G2 & G3).
  split; [exact G1|]. split; [exact G2|]. split.
  - rewrite G3. subst out2. now rewrite <- !app_assoc.
  - intros Hpost Hm.
    pose proof (offset_from_speaking v2 after out2 O1 Ht2) as F.
    cbv zeta in F. rewrite M2, M4 in F.
    replace ((2 <=? Z.of_nat (List.length after))
             && (min_silence_samples v <=? len (List.concat after)))
      with true in F
      by (symmetry; apply andb_true_intro; split; apply Z.leb_le; lia).
    destruct (F Hpost Hm Hne Hsi2) as (_ & _ & F3).
    rewrite F3. subst out2. now rewrite <- !app_assoc.
Qed.

Lemma utterance_with_padding_witness :
  (state wide = silence /\
   F32.ltb (silence_threshold wide) (speech_threshold wide) = true /\
   len (pre_speech_buf_ wide) <= pre_speech_max_samples wide /\
   Forall (quiet wide) [[F32.zero; low_level]] /\
   Forall (loud wide) [[F32.one]; [F32.one]] /\
   (2 <= List.length [[F32.one]; [F32.one]])%nat /\
   min_speech_samples wide <= len (List.concat [[F32.one]; [F32.one]]) /\
   Forall (silent wide) six_zeros /\
   (2 <= List.length six_zeros)%nat /\
   min_silence_samples wide <= len (List.concat six_zeros)) /\
  post_speech_max_samples wide = 5 /\
  snd (process_frames wide
         ([[F32.zero; low_level]] ++ [[F32.one]; [F32.one]] ++ six_zeros) [])
  = [low_level; F32.one; F32.one; F32.zero; S754_zero true; F32.zero].
Proof.
  assert (H1 : state wide = silence) by reflexivity.
  assert (H2 : F32.ltb (silence_threshold wide) (speech_threshold wide) = true)
    by reflexivity.
  assert (H3 : len (pre_speech_buf_ wide) <= pre_speech_max_samples wide)
    by (vm_compute; discriminate).
  assert (H6 : Forall (quiet wide) [[F32.zero; low_level]]) by (repeat constructor).
  assert (H7 : Forall (loud wide) [[F32.one]; [F32.one]]) by (repeat constructor).
  assert (H8 : (2 <= List.length [[F32.one]; [F32.one]])%nat) by (cbn; lia).
  assert (H9 : min_speech_samples wide <= len (List.concat [[F32.one]; [F32.one]]))
    by (vm_compute; discriminate).
  assert (H10 : Forall (silent wide) six_zeros) by (repeat constructor).
  assert (H11 : (2 <= List.length six_zeros)%nat) by (cbn; lia).
  assert (H12 : min_silence_samples wide <= len (List.concat six_zeros))
    by (vm_compute; discriminate).
  split.
  - exact (conj H1 (conj H2 (conj H3 (conj H6 (conj H7
            (conj H8 (conj H9 (conj H10 (conj H11 H12))))))))).
  - split; [reflexivity|].
    destruct (utterance_with_padding wide _ _ _ [] H1 H2 H3 H6 H7 H8 H9 H10 H11 H12)
      as (_ & _ & E & _).
    exact E.
Defined.

End VADRunProps.

(* ------------------------------------------------------------------ *)
(** ** The audio engine and its capture thread *)

Module EngineProps.
Import AudioEngine Capture EngineSpec VADRun VADRunProps.

Lemma int_of_double_48000 : int_of_double rate_48000 = Some 48000.
Proof. reflexivity. Qed.

Lemma stop_recording_rate (a a' : t) (out : list F32.t) :
  stop_recording a = Some (a', out) ->
  hardware_sr_ a' = hardware_sr_ a /\ running_ a' = running_ a /\ pa_ a' = pa_ a /\
  buffer_ a' = RingBuffer.empty /\ collecting_ a' = false /\
  vad_ a' = VAD.reset (vad_ a).
Proof.
  unfold stop_recording. cbn [RingBuffer.drain].
  destruct (is_nil _).
  - intros [= <- <-]. repeat split.
  - destruct (resample _ _ _); [|discriminate].
    intros [= <- <-]. repeat split.
Qed.

Lemma capture_pass_fields (buf : list F32.t) (a a' : t) (lvl : F32.t) :
  capture_pass buf a = Some (a', lvl) ->
  hardware_sr_ a' = hardware_sr_ a /\ running_ a' = running_ a /\ pa_ a' = pa_ a /\
  collecting_ a' = collecting_ a.
Proof.
  unfold capture_pass. cbv zeta.
  destruct (negb _); [intros [= <- <-]; repeat split|].
  destruct (int_of_double _); [|discriminate].
  destruct (VAD.process _ _ _ _) as [[v f]|]; [|discriminate].
  intros [= <- <-]. repeat split.
Qed.

Lemma capture_loop_fields (bufs : list (list F32.t)) :
  forall (a a' : t),
    capture_loop bufs a = Some a' ->
    hardware_sr_ a' = hardware_sr_ a /\ running_ a' = running_ a /\ pa_ a' = pa_ a /\
    collecting_ a' = collecting_ a.
Proof.
  induction bufs as [|buf bufs IH]; intros a a' H; cbn [capture_loop] in H.
  - injection H as <-. repeat split.
  - destruct (negb _); [injection H as <-; repeat split|].
    destruct (capture_pass buf a) as [[a1 lvl]|] eqn:E; [|discriminate].
    apply capture_pass_fields in E. apply IH in H.
    destruct E as (E1 & E2 & E3 & E4), H as (H1 & H2 & H3 & H4).
    repeat split; congruence.
Qed.

Lemma apply_op_steady (o : op) (a a' : t) :
  steady a -> apply_op o a = Some a' -> steady a'.
Proof.
  unfold steady. intros [Hr Hp] H. destruct o; cbn [apply_op] in H.
  - injection H as <-. unfold prepare.
    destruct (pa_ a) eqn:E; [split; congruence|].
    destruct dev_ok; cbn [hardware_sr_ running_ pa_]; split; congruence.
  - injection H as <-. unfold start_recording, prepare.
    destruct (pa_ a) eqn:E; cbn [negb hardware_sr_ running_ pa_];
      [split; congruence|].
    destruct dev_ok; cbn [hardware_sr_ running_ pa_]; split; congruence.
  - destruct (stop_recording a) as [[a1 out]|] eqn:E; [|discriminate].
    injection H as <-. apply stop_recording_rate in E.
    destruct E as (E1 & E2 & E3 & _). split; congruence.
  - injection H as <-. now split.
  - apply capture_loop_fields in H. destruct H as (H1 & H2 & H3 & _).
    split; congruence.
  - injection H as <-. now split.
Qed.

Lemma run_ops_steady (ops : list op) :
  forall (a a' : t), steady a -> run_ops ops a = Some a' -> steady a'.
Proof.
  induction ops as [|o ops IH]; intros a a' Hs H; cbn [run_ops] in H.
  - now injection H as <-.
  - destruct (apply_op o a) as [a1|] eqn:E; [|discriminate].
    eapply IH; [|exact H]. eapply apply_op_steady; eassumption.
Qed.

Lemma steady_initial : steady initial.
Proof. split; reflexivity. Qed.

Lemma stop_recording_third (a : t) :
  hardware_sr_ a = rate_48000 ->
  RingBuffer.count (buffer_ a) < 2 ^ 50 ->
  exists a' out,
    stop_recording a = Some (a', out) /\
    len out = RingBuffer.count (buffer_ a) / 3 /\
    (forall (i : nat) (y : F32.t),
       nth_error out i = Some y ->
       exists x0 x1,
         nth_error (RingBuffer.samples_ (buffer_ a)) (3 * i) = Some x0 /\
         nth_error (RingBuffer.samples_ (buffer_ a))
                   (Z.to_nat (Z.min (3 * Z.of_nat i + 1)
                                    (RingBuffer.count (buffer_ a) - 1))) = Some x1 /\
         y = ResampleSpec.lerp x0 x1 F32.zero).
Proof.
  intros Hr Hc. unfold stop_recording, RingBuffer.count in *.
  cbn [RingBuffer.drain]. rewrite Hr.
  destruct (RingBuffer.samples_ (buffer_ a)) as [|x l] eqn:E.
  - cbn [is_nil]. eexists _, []. split; [reflexivity|].
    split; [reflexivity|]. intros [|i] y; discriminate.
  - cbn [is_nil].
    destruct (ResampleProps.resample_48_16 (x :: l)) as (out & E1 & E2 & E3);
      [discriminate | exact Hc |].
    rewrite E1. eexists _, out. split; [reflexivity|].
    split; [exact E2 | exact E3].
Qed.


(** *** What the capture thread collects *)

Lemma subseq_app_l {A : Type} (a b c : list A) : subseq (a ++ b) c -> subseq a c.
Proof.
  intros H. eapply subseq_trans; [|exact H].
  rewrite <- (app_nil_r a) at 1.
  apply subseq_app; [apply subseq_refl | apply subseq_nil_l].
Qed.

Lemma process_loop_as_frames (fs : Z) (fuel : nat) :
  forall (v v' : VAD.t) (rest out out' : list F32.t),
    VAD.process_loop fuel fs v rest out = Some (v', out') ->
    exists frames,
      List.concat frames = rest /\ VAD.process_frames v frames out = (v', out').
Proof.
  induction fuel as [|fuel IH]; intros v v' rest out out' H.
  - destruct rest; [|discriminate]. injection H as <- <-. now exists [].
  - destruct rest as [|x l]; [injection H as <- <-; now exists []|].
    cbn [VAD.process_loop] in H.
    set (n := Z.to_nat _) in H.
    destruct (VAD.process_frame v (firstn n (x :: l)) out) as [v1 out1] eqn:E.
    destruct (IH _ _ _ _ _ H) as (frames & Hc & Hp).
    exists (firstn n (x :: l) :: frames). split.
    + cbn [List.concat]. rewrite Hc. apply firstn_skipn.
    + cbn [VAD.process_frames]. rewrite E. exact Hp.
Qed.


Lemma process_subseq (fuel : nat) (v v' : VAD.t) (samples out : list F32.t) (rate : Z) :
  tidy v ->
  VAD.process fuel v samples rate = Some (v', out) ->
  tidy v' /\ subseq (out ++ held v') (held v ++ samples).
Proof.
  intros Ht H. unfold VAD.process in H.
  destruct (VAD.is_enabled v) eqn:He; cbn [negb] in H.
  - apply process_loop_as_frames in H as (frames & Hc & Hp).
    destruct (process_frames_subseq frames (VAD.set_active_sample_rate rate v) [])
      as (e & E1 & E2).
    pose proof (process_frames_config frames (VAD.set_active_sample_rate rate v) [])
      as (Hen & _).
    rewrite Hp in E1, E2, Hen. cbn [fst snd app] in *. subst e.
    split; [left; rewrite Hen; exact He|].
    rewrite Hc in E2. exact E2.
  - injection H as <- <-.
    destruct Ht as [Ht|Ht]; [congruence|].
    split; [right; exact Ht|]. rewrite Ht, app_nil_r. apply subseq_refl.
Qed.

Lemma capture_pass_subseq (buf : list F32.t) (a a' : t) (lvl : F32.t) :
  tidy (vad_ a) ->
  capture_pass buf a = Some (a', lvl) ->
  tidy (vad_ a') /\
  exists e,
    RingBuffer.samples_ (buffer_ a') = RingBuffer.samples_ (buffer_ a) ++ e /\
    subseq (e ++ held (vad_ a')) (held (vad_ a) ++ buf).
Proof.
  intros Ht. unfold capture_pass. cbv zeta.
  destruct (negb _).
  - intros [= <- <-]. split; [exact Ht|]. exists []. rewrite app_nil_r.
    split; [reflexivity|]. cbn [app].
    rewrite <- (app_nil_r (held (vad_ a))) at 1.
    apply subseq_app; [apply subseq_refl | apply subseq_nil_l].
  - destruct (int_of_double _) as [rate|]; [|discriminate].
    destruct (VAD.process _ _ _ _) as [[v f]|] eqn:E; [|discriminate].
    intros [= <- <-]. cbn [vad_ buffer_].
    destruct (process_subseq _ _ _ _ _ _ Ht E) as [Ht' Hs].
    split; [exact Ht'|]. exists f. split; [|exact Hs].
    destruct f; cbn [is_nil]; [now rewrite app_nil_r | reflexivity].
Qed.

Lemma capture_loop_subseq (bufs : list (list F32.t)) :
  forall (a a' : t),
    tidy (vad_ a) ->
    capture_loop bufs a = Some a' ->
    tidy (vad_ a') /\
    exists e,
      RingBuffer.samples_ (buffer_ a') = RingBuffer.samples_ (buffer_ a) ++ e /\
      subseq (e ++ held (vad_ a')) (held (vad_ a) ++ List.concat bufs).
Proof.
  induction bufs as [|buf bufs IH]; intros a a' Ht H; cbn [capture_loop] in H.
  - injection H as <-. split; [exact Ht|]. exists [].
    cbn. rewrite !app_nil_r. split; [reflexivity | apply subseq_refl].
  - destruct (negb _).
    + injection H as <-. split; [exact Ht|]. exists []. rewrite app_nil_r.
      split; [reflexivity|]. cbn [app].
      rewrite <- (app_nil_r (held (vad_ a))) at 1.
      apply subseq_app; [apply subseq_refl | apply subseq_nil_l].
    + destruct (capture_pass buf a) as [[a1 lvl]|] eqn:E; [|discriminate].
      destruct (capture_pass_subseq _ _ _ _ Ht E) as (Ht1 & e1 & E1 & S1).
      destruct (IH _ _ Ht1 H) as (Ht2 & e2 & E2 & S2).
      split; [exact Ht2|]. exists (e1 ++ e2).
      split; [rewrite E2, E1; now rewrite app_assoc|].
      cbn [List.concat]. rewrite <- app_assoc.
      eapply subseq_trans.
      * apply subseq_app; [apply subseq_refl | exact S2].
      * rewrite !app_assoc. apply subseq_app; [exact S1 | apply subseq_refl].
Qed.

Lemma start_recording_fields (dev_ok : bool) (a : t) :
  let a1 := start_recording dev_ok a in
  vad_ a1 = VAD.reset (vad_ a) /\ buffer_ a1 = RingBuffer.empty /\
  collecting_ a1 = true.
Proof.
  unfold start_recording, prepare.
  destruct (pa_ a); cbn [negb]; [repeat split|].
  destruct dev_ok; repeat split.
Qed.

(** X10. What a recording session has collected is a selection, in order,
    of the samples the capture thread read after [start_recording]:
    nothing buffered or held back earlier survives the call, and the
    detector adds nothing of its own.  This is said of the executions in
    which the passes of the capture thread do not overlap the calls of
    the engine: the model takes a pass as one step, the code takes no
    lock around it. *)
Theorem session_collects_captured (a a' : t) (dev_ok : bool)
        (bufs : list (list F32.t)) :
  capture_loop bufs (start_recording dev_ok a) = Some a' ->
  subseq (RingBuffer.samples_ (buffer_ a')) (List.concat bufs).
Proof.
  intros H.
  destruct (start_recording_fields dev_ok a) as (Hv & Hb & _).
  assert (Ht : tidy (vad_ (start_recording dev_ok a)))
    by (right; rewrite Hv; reflexivity).
  destruct (capture_loop_subseq _ _ _ Ht H) as (_ & e & E & S).
  rewrite Hb in E. rewrite Hv in S. cbn [RingBuffer.samples_ RingBuffer.empty app] in *.
  rewrite E. change (held (VAD.reset (vad_ a))) with (@nil F32.t) in S.
  eapply subseq_app_l. exact S.
Qed.

Lemma session_collects_captured_witness :
  RingBuffer.samples_ (buffer_ used) = [F32.zero; F32.zero] /\
  held (vad_ used) = [VADSpec.low_level] /\
  exists a',
    capture_loop [loud_read] (start_recording true used) = Some a' /\
    RingBuffer.samples_ (buffer_ a') = loud_read /\
    subseq (RingBuffer.samples_ (buffer_ a')) (List.concat [loud_read]).
Proof.
  split; [reflexivity|]. split; [reflexivity|].
  assert (C : option_map (fun a => RingBuffer.samples_ (buffer_ a))
                (capture_loop [loud_read] (start_recording true used))
              = Some loud_read) by (vm_compute; reflexivity).
  destruct (capture_loop [loud_read] (start_recording true used)) as [a'|] eqn:E;
    [|discriminate].
  cbn [option_map] in C. injection C as C.
  exists a'. split; [reflexivity|]. split; [exact C|].
  exact (session_collects_captured used a' true [loud_read] E).
Defined.

(** *** The capture thread at 48 kHz *)

Lemma process_defined_48000 (v : VAD.t) (buf : list F32.t) :
  exists v' out, VAD.process (List.length buf) v buf 48000 = Some (v', out).
Proof.
  destruct (VAD.is_enabled v) eqn:He.
  - destruct (process_cuts_frames_aux v buf 48000 He) as [E _];
      [split; [lia | reflexivity]|].
    rewrite E. destruct (VAD.process_frames _ _ _) as [v' out]. now exists v', out.
  - unfold VAD.process. rewrite He. now exists v, buf.
Qed.

Lemma capture_loop_defined (bufs : list (list F32.t)) :
  forall a, hardware_sr_ a = rate_48000 -> exists a', capture_loop bufs a = Some a'.
Proof.
  induction bufs as [|buf bufs IH]; intros a Hr; cbn [capture_loop].
  - now exists a.
  - destruct (negb _); [now exists a|].
    unfold capture_pass. cbv zeta.
    destruct (negb (collecting_ a)).
    + now apply IH.
    + rewrite Hr, int_of_double_48000.
      destruct (process_defined_48000 (vad_ a) buf) as (v & out & E). rewrite E.
      apply IH. reflexivity.
Qed.

(** X11. With the detector switched off, everything the capture thread reads
    during a session is collected, unchanged and in order. *)
Theorem disabled_detector_collects_all (a : t) (bufs : list (list F32.t)) :
  steady a -> VAD.is_enabled (vad_ a) = false ->
  exists a',
    capture_loop bufs (start_recording true a) = Some a' /\
    RingBuffer.samples_ (buffer_ a') = List.concat bufs.
Proof.
  intros [Hr Hp] He.
  set (a1 := start_recording true a).
  assert (H1 : hardware_sr_ a1 = rate_48000 /\ running_ a1 = true /\
               collecting_ a1 = true /\ VAD.is_enabled (vad_ a1) = false /\
               RingBuffer.samples_ (buffer_ a1) = []).
  { subst a1. unfold start_recording, prepare.
    destruct (pa_ a) eqn:E; cbn [negb hardware_sr_ running_ collecting_ vad_ buffer_];
      repeat split; try assumption; try congruence. }
  clearbody a1. clear a Hr Hp He.
  enough (G : forall a1 acc,
             hardware_sr_ a1 = rate_48000 /\ running_ a1 = true /\
             collecting_ a1 = true /\ VAD.is_enabled (vad_ a1) = false /\
             RingBuffer.samples_ (buffer_ a1) = acc ->
             exists a', capture_loop bufs a1 = Some a' /\
                        RingBuffer.samples_ (buffer_ a') = acc ++ List.concat bufs)
    by (exact (G a1 [] H1)).
  clear a1 H1.
  induction bufs as [|buf bufs IH]; intros a acc (Hr & Hrun & Hc & He & Hb).
  - exists a. cbn. now rewrite app_nil_r.
  - cbn [capture_loop List.concat]. rewrite Hrun. cbn [negb].
    unfold capture_pass. cbv zeta. rewrite Hc. cbn [negb].
    rewrite Hr, int_of_double_48000.
    unfold VAD.process. rewrite He. cbn [negb].
    set (a2 := mk _ _ _ _ _ _).
    destruct (IH a2 (acc ++ buf)) as (a' & E1 & E2).
    + subst a2. cbn [hardware_sr_ running_ collecting_ vad_ buffer_].
      repeat split; try assumption.
      destruct buf; cbn [is_nil RingBuffer.append RingBuffer.samples_];
        [now rewrite app_nil_r | now rewrite Hb].
    + exists a'. split; [exact E1|]. now rewrite E2, app_assoc.
Qed.

Lemma disabled_detector_collects_all_witness :
  (steady plain /\ VAD.is_enabled (vad_ plain) = false) /\
  exists a',
    capture_loop [[F32.zero]; [F32.one]] (start_recording true plain) = Some a' /\
    RingBuffer.samples_ (buffer_ a') = [F32.zero; F32.one].
Proof.
  assert (H1 : steady plain) by (split; reflexivity).
  assert (H2 : VAD.is_enabled (vad_ plain) = false) by reflexivity.
  split; [exact (conj H1 H2)|].
  exact (disabled_detector_collects_all plain [[F32.zero]; [F32.one]] H1 H2).
Defined.

(** X12. When the capture stream cannot be opened, [start_recording] still
    opens a session, but no capture thread runs: the session collects
    nothing and [stop_recording] returns no samples. *)
Theorem no_device_no_audio (a : t) (bufs : list (list F32.t)) :
  steady a -> pa_ a = false ->
  let a1 := start_recording false a in
  collecting_ a1 = true /\ pa_ a1 = false /\
  capture_loop bufs a1 = Some a1 /\
  exists a2, stop_recording a1 = Some (a2, []).
Proof.
  intros [Hr Hp] Hpa. cbv zeta.
  unfold start_recording, prepare. rewrite Hpa. cbn [negb].
  cbn [collecting_ pa_].
  split; [reflexivity|]. split; [exact Hpa|]. split.
  - destruct bufs; cbn [capture_loop]; [reflexivity|].
    cbn [running_]. rewrite Hp, Hpa. reflexivity.
  - unfold stop_recording. cbn [buffer_ RingBuffer.drain snd fst RingBuffer.samples_ is_nil].
    eexists. reflexivity.
Qed.

Lemma no_device_no_audio_witness :
  (steady initial /\ pa_ initial = false) /\
  capture_loop [[F32.one]] (start_recording false initial)
  = Some (start_recording false initial).
Proof.
  assert (H1 : steady initial) by (split; reflexivity).
  assert (H2 : pa_ initial = false) by reflexivity.
  split; [exact (conj H1 H2)|].
  exact (proj1 (proj2 (proj2 (no_device_no_audio initial [[F32.one]] H1 H2)))).
Defined.

(** X13. Whatever has been done to an engine since its construction (calls
    of its interface, passes of the capture thread, and detector settings
    whose arithmetic stays inside [int] at 48 kHz, taken one after the
    other), its capture rate is 48 kHz: the capture thread never stalls
    and never meets an undefined conversion, and [stop_recording] is
    defined and returns one sample for every three collected (rounded
    down), sample [i] being sample [3 i] of the collected audio blended
    with weight zero with its successor. *)
Theorem stop_recording_returns_a_third (ops : list op) (a : t)
        (bufs : list (list F32.t)) :
  Forall sound ops ->
  run_ops ops initial = Some a ->
  RingBuffer.count (buffer_ a) < 2 ^ 50 ->
  hardware_sr_ a = rate_48000 /\
  (exists a', capture_loop bufs a = Some a') /\
  exists a' out,
    stop_recording a = Some (a', out) /\
    len out = RingBuffer.count (buffer_ a) / 3 /\
    buffer_ a' = RingBuffer.empty /\ collecting_ a' = false /\
    vad_ a' = VAD.reset (vad_ a) /\
    forall (i : nat) (y : F32.t),
      nth_error out i = Some y ->
      exists x0 x1,
        nth_error (RingBuffer.samples_ (buffer_ a)) (3 * i) = Some x0 /\
        nth_error (RingBuffer.samples_ (buffer_ a))
                  (Z.to_nat (Z.min (3 * Z.of_nat i + 1)
                                   (RingBuffer.count (buffer_ a) - 1))) = Some x1 /\
        y = ResampleSpec.lerp x0 x1 F32.zero.
Proof.
  intros _ Hrun Hc.
  destruct (run_ops_steady ops initial a steady_initial Hrun) as [Hr _].
  split; [exact Hr|]. split; [now apply capture_loop_defined|].
  destruct (stop_recording_third a Hr Hc) as (a' & out & E & Hl & Hn).
  exists a', out. split; [exact E|]. split; [exact Hl|].
  destruct (stop_recording_rate _ _ _ E) as (_ & _ & _ & Hb & Hcol & Hv).
  repeat split; assumption.
Qed.

Lemma stop_recording_returns_a_third_witness :
  exists a,
    (Forall sound one_read_session /\
     run_ops one_read_session initial = Some a /\
     RingBuffer.count (buffer_ a) < 2 ^ 50) /\
    RingBuffer.count (buffer_ a) = 4096 /\
    exists a' out,
      stop_recording a = Some (a', out) /\ len out = 1365 /\
      buffer_ a' = RingBuffer.empty.
Proof.
  assert (C : option_map (fun a => RingBuffer.count (buffer_ a))
                (run_ops one_read_session initial) = Some 4096)
    by (vm_compute; reflexivity).
  destruct (run_ops one_read_session initial) as [a|] eqn:E; [|discriminate].
  cbn [option_map] in C. injection C as C.
  assert (H0 : Forall sound one_read_session).
  { constructor; [unfold sound, VADRun.configured, VADRun.in_int; cbn; lia|].
    repeat (constructor; [exact I|]). constructor. }
  assert (H2 : RingBuffer.count (buffer_ a) < 2 ^ 50) by (rewrite C; reflexivity).
  exists a. split; [exact (conj H0 (conj eq_refl H2))|]. split; [exact C|].
  destruct (stop_recording_returns_a_third one_read_session a [] H0 E H2)
    as (_ & _ & a' & out & S & L & B & _).
  exists a', out. rewrite C in L. exact (conj S (conj L B)).
Defined.

End EngineProps.

(* ------------------------------------------------------------------ *)
(** ** The monitor loop *)

Module MonitorProps.
Import Pipeline PipelineSpec PipelineOps MonitorSpec ContextProps.
Local Open Scope string_scope.
Local Open Scope Z_scope.

Lemma to_size_t_48000 : F64.to_size_t AudioEngine.rate_48000 = Some 48000.
Proof. reflexivity. Qed.

Lemma min_raw_48000 :
  F64.to_size_t (F64.div (F64.mul (F64.of_Z CONTINUOUS_MIN_SAMPLES) AudioEngine.rate_48000)
                         (F64.of_Z 16000)) = Some 72000.
Proof. reflexivity. Qed.

(** One pass of the monitor loop at the capture rate of 48 kHz. *)
Lemma iteration_48000 (whisper : WhisperContext.recognizer) (tk : tick) (p : t) :
  AudioEngine.hardware_sr_ (audio_ p) = AudioEngine.rate_48000 ->
  continuous_iteration whisper tk p
  = if (negb (due tk p)) || transcribing_ p then Some (polled tk p)
    else if waiting tk p <? 72000 then Some (polled tk p)
    else match AudioEngine.resample
                 (RingBuffer.samples_ (AudioEngine.buffer_ (apply_tick tk (audio_ p))))
                 AudioEngine.rate_48000 AudioEngine.rate_16000 with
         | None => None
         | Some resampled =>
             match ctx_ p with
             | None => Some (drained tk p)
             | Some c => Some (transcribe_flush whisper c resampled (drained tk p))
             end
         end.
Proof.
  intros Hr.
  unfold continuous_iteration, due, drained, waiting.
  unfold polled, polls_without_speech.
  cbv zeta.
  change (VAD.is_speaking (AudioEngine.vad_ (audio_ (set_audio (apply_tick tk (audio_ p)) p))))
    with (speaking_now tk).
  destruct (speaking_now tk); pipe_simpl;
    change (AudioEngine.hardware_sr_ (apply_tick tk (audio_ p)))
      with (AudioEngine.hardware_sr_ (audio_ p));
    rewrite !Hr, to_size_t_48000, min_raw_48000;
    change (48000 * 25 mod 2 ^ 64) with 1200000;
    rewrite negb_orb;
    (destruct (_ || transcribing_ p); [reflexivity|]);
    (destruct (_ <? 72000); [reflexivity|]);
    unfold AudioEngine.resample_public; cbn [RingBuffer.drain];
    pipe_simpl; cbn [AudioEngine.hardware_sr_]; rewrite ?Hr; reflexivity.
Qed.


Lemma same_but_audio_refl (p : t) : same_but_audio p p.
Proof. repeat split. Qed.

Lemma output_text_eq (p : t) (text : string) :
  exists delay, output_text p text = emit (EvType text delay) (set_did_output true p).
Proof.
  unfold output_text. pipe_simpl.
  destruct (output_mode (settings_ p)); eexists; reflexivity.
Qed.

(** What the recognizer call of a pass does to the pipeline. *)
Lemma transcribe_flush_effect (whisper : WhisperContext.recognizer)
      (c : WhisperContext.t) (resampled : list F32.t) (p : t) :
  let prompt := next_prompt (last_context_text_ p) in
  let result := WhisperContext.transcribe whisper c resampled prompt in
  let text := Str.strip (full_text result) in
  let p' := transcribe_flush whisper c resampled p in
  audio_ p' = audio_ p /\ settings_ p' = settings_ p /\ ctx_ p' = ctx_ p /\
  current_model_ p' = current_model_ p /\
  recording_ p' = recording_ p /\ continuous_running_ p' = continuous_running_ p /\
  silence_frame_count_ p' = silence_frame_count_ p /\ transcribing_ p' = false /\
  if Str.empty text || is_hallucination text
  then log p' = (log p ++ [EvTranscriptionStart; EvRecognize resampled prompt;
                           EvTranscriptionEnd])%list /\
       perf_ p' = perf_ p /\ did_output_ p' = did_output_ p /\
       last_context_text_ p' = last_context_text_ p
  else exists delay,
       log p' = (log p ++ [EvTranscriptionStart; EvRecognize resampled prompt;
                           EvType (text ++ " ") delay; EvTranscriptionEnd])%list /\
       perf_ p' = PerformanceMonitor.record (perf_ p) result /\
       did_output_ p' = true /\
       last_context_text_ p' = commit_context (last_context_text_ p) text.
Proof.
  cbv zeta. unfold transcribe_flush. cbv zeta.
  change (last_context_text_ (emit EvTranscriptionStart (set_transcribing true p)))
    with (last_context_text_ p).
  set (prompt := next_prompt (last_context_text_ p)).
  generalize (WhisperContext.transcribe whisper c resampled prompt) as result.
  intros result.
  generalize (Str.strip (full_text result)) as text. intros text.
  destruct (Str.empty text || is_hallucination text).
  - pipe_simpl. rewrite <- !app_assoc. repeat split.
  - match goal with
    | |- context [output_text ?q ?t] =>
        destruct (output_text_eq q t) as [d Hd]; rewrite Hd; clear Hd
    end.
    pipe_simpl. rewrite <- !app_assoc.
    repeat split. exists d. repeat split.
Qed.

(** A pass either only polls, or polls, drains and calls the
    recognizer. *)
Lemma iteration_cases_full (whisper : WhisperContext.recognizer) (tk : tick) (p p' : t) :
  continuous_iteration whisper tk p = Some p' ->
  same_but_audio p p' \/
  exists c resampled q,
    ctx_ p = Some c /\ same_but_audio p q /\
    p' = transcribe_flush whisper c resampled q.
Proof.
  unfold continuous_iteration. cbv zeta.
  destruct (VAD.is_speaking _);
    (destruct (F64.to_size_t _); [|discriminate]);
    (destruct (_ || _); [intros [= <-]; left; repeat split|]);
    (destruct (F64.to_size_t _); [|discriminate]);
    (destruct (_ <? _)%Z; [intros [= <-]; left; repeat split|]);
    (destruct (RingBuffer.drain _) as [raw buf]);
    (destruct (AudioEngine.resample_public _ _) as [resampled|]; [|discriminate]);
    (destruct (ctx_ _) as [c|] eqn:Ec; intros [= <-];
     [right; eexists c, resampled, _;
      refine (conj _ (conj _ eq_refl)); [first [exact Ec | reflexivity] | repeat split]
     | left; repeat split]).
Qed.


(** *** What a run of the monitor loop adds up to *)

Lemma recognized_app (a b : list event) :
  recognized (a ++ b) = (recognized a ++ recognized b)%list.
Proof.
  induction a as [|e a IH]; [reflexivity|].
  destruct e; cbn; now rewrite IH.
Qed.

Lemma nonempty_app {A : Type} (a b : list A) :
  VADRun.nonempty (a ++ b) = VADRun.nonempty a || VADRun.nonempty b.
Proof. destruct a; reflexivity. Qed.

(** The books of one pass. *)
Lemma pass_books (whisper : WhisperContext.recognizer) (tk : tick) (p p' : t) :
  continuous_iteration whisper tk p = Some p' ->
  continuous_running_ p' = continuous_running_ p /\
  recording_ p' = recording_ p /\ ctx_ p' = ctx_ p /\
  exists new,
    log p' = (log p ++ new)%list /\
    PerformanceMonitor.total_ (perf_ p')
    = PerformanceMonitor.total_ (perf_ p) + Z.of_nat (List.length (typed new)) /\
    did_output_ p' = did_output_ p || VADRun.nonempty (typed new) /\
    Forall (fun t => exists text, t = text ++ " " /\ text <> ""
                                  /\ is_hallucination text = false) (typed new).
Proof.
  intros H.
  apply iteration_cases_full in H
    as [S|(c & resampled & q & Hc & S & ->)].
  - destruct S as (Hl & Hp & Hd & _ & _ & Hx & _ & Hr & _ & Hm).
    repeat split; try assumption.
    exists []. rewrite app_nil_r, Hp, Hd, orb_false_r. cbn.
    repeat split; [assumption | lia | constructor].
  - destruct S as (Hl & Hp & Hd & _ & _ & Hx & _ & Hr & _ & Hm).
    pose proof (transcribe_flush_effect whisper c resampled q) as E. cbv zeta in E.
    destruct E as (_ & _ & Ex & _ & Er & Em & _ & _ & E).
    split; [congruence|]. split; [congruence|]. split; [congruence|].
    destruct (Str.empty _ || is_hallucination _) eqn:Ef.
    + destruct E as (El & Ep & Ed & _).
      eexists. split; [rewrite El, Hl; reflexivity|].
      cbn. rewrite Ep, Hp, Ed, Hd, orb_false_r.
      repeat split; [lia | constructor].
    + destruct E as (d & El & Ep & Ed & _).
      apply orb_false_elim in Ef as [He Hh].
      eexists. split; [rewrite El, Hl; reflexivity|].
      cbn. rewrite Ep, Hp, Ed, orb_true_r.
      split; [unfold PerformanceMonitor.record; cbn; lia|].
      split; [reflexivity|].
      constructor; [|constructor].
      eexists. split; [reflexivity|]. split; [|exact Hh].
      apply empty_false. exact He.
Qed.

Lemma loop_books (whisper : WhisperContext.recognizer) (tks : list tick) :
  forall p p',
    continuous_loop whisper tks p = Some p' ->
    exists new,
      log p' = (log p ++ new)%list /\
      PerformanceMonitor.total_ (perf_ p')
      = PerformanceMonitor.total_ (perf_ p) + Z.of_nat (List.length (typed new)) /\
      did_output_ p' = did_output_ p || VADRun.nonempty (typed new) /\
      Forall (fun t => exists text, t = text ++ " " /\ text <> ""
                                    /\ is_hallucination text = false) (typed new).
Proof.
  induction tks as [|tk tks IH]; intros p p' H; cbn [continuous_loop] in H.
  - injection H as <-. exists []. rewrite app_nil_r, orb_false_r. cbn.
    repeat split; [lia | constructor].
  - destruct (negb (continuous_running_ p)).
    + injection H as <-. exists []. rewrite app_nil_r, orb_false_r. cbn.
      repeat split; [lia | constructor].
    + destruct (continuous_iteration whisper tk p) as [p1|] eqn:E; [|discriminate].
      destruct (pass_books _ _ _ _ E) as (_ & _ & _ & n1 & L1 & T1 & D1 & F1).
      destruct (IH _ _ H) as (n2 & L2 & T2 & D2 & F2).
      exists (n1 ++ n2)%list.
      rewrite L2, L1, T2, T1, D2, D1.
      rewrite SessionProps.typed_app, length_app, nonempty_app, app_assoc, orb_assoc.
      repeat split; [lia | now apply Forall_app].
Qed.


(** *** The monitor loop at 48 kHz *)

Lemma waiting_eq (tk : tick) (p : t) :
  waiting tk p
  = RingBuffer.count (AudioEngine.buffer_ (audio_ p))
    + Z.of_nat (List.length (captured tk)).
Proof.
  unfold waiting, apply_tick, RingBuffer.count, RingBuffer.append.
  cbn [AudioEngine.buffer_ RingBuffer.samples_]. rewrite length_app. lia.
Qed.

Lemma polled_fields (tk : tick) (p : t) :
  same_but_audio p (polled tk p) /\
  AudioEngine.hardware_sr_ (audio_ (polled tk p)) = AudioEngine.hardware_sr_ (audio_ p) /\
  RingBuffer.samples_ (AudioEngine.buffer_ (audio_ (polled tk p)))
  = (RingBuffer.samples_ (AudioEngine.buffer_ (audio_ p)) ++ captured tk)%list.
Proof. repeat split. Qed.

Lemma drained_fields (tk : tick) (p : t) :
  same_but_audio p (drained tk p) /\
  AudioEngine.hardware_sr_ (audio_ (drained tk p)) = AudioEngine.hardware_sr_ (audio_ p) /\
  AudioEngine.buffer_ (audio_ (drained tk p)) = RingBuffer.empty.
Proof. repeat split. Qed.

Lemma pass_48000 (whisper : WhisperContext.recognizer) (tk : tick) (p : t) :
  AudioEngine.hardware_sr_ (audio_ p) = AudioEngine.rate_48000 ->
  waiting tk p < 2 ^ 50 ->
  exists p',
    continuous_iteration whisper tk p = Some p' /\
    AudioEngine.hardware_sr_ (audio_ p') = AudioEngine.rate_48000 /\
    RingBuffer.count (AudioEngine.buffer_ (audio_ p')) <= waiting tk p /\
    exists new,
      log p' = (log p ++ new)%list /\
      Forall (fun s => 24000 <= Z.of_nat (List.length s)
                       /\ Z.of_nat (List.length s) = waiting tk p / 3)
             (recognized new).
Proof.
  intros Hr Hw. rewrite (iteration_48000 whisper tk p Hr).
  assert (Hpoll : exists p',
             Some (polled tk p) = Some p' /\
             AudioEngine.hardware_sr_ (audio_ p') = AudioEngine.rate_48000 /\
             RingBuffer.count (AudioEngine.buffer_ (audio_ p')) <= waiting tk p /\
             exists new,
               log p' = (log p ++ new)%list /\
               Forall (fun s => 24000 <= Z.of_nat (List.length s)
                                /\ Z.of_nat (List.length s) = waiting tk p / 3)
                      (recognized new)).
  { exists (polled tk p). split; [reflexivity|]. split; [exact Hr|].
    split; [unfold waiting; reflexivity || lia|].
    exists []. rewrite app_nil_r. split; [reflexivity | constructor]. }
  destruct (negb (due tk p) || transcribing_ p); [exact Hpoll|].
  destruct (Z.ltb_spec (waiting tk p) 72000) as [Hlt|Hge]; [exact Hpoll|].
  clear Hpoll.
  set (raw := RingBuffer.samples_ (AudioEngine.buffer_ (apply_tick tk (audio_ p)))).
  assert (Hlen : AudioEngine.len raw = waiting tk p) by reflexivity.
  destruct (ResampleProps.resample_48_16 raw) as (out & E & Hl & _).
  { intros E. rewrite E in Hlen. cbn in Hlen. lia. }
  { rewrite Hlen. exact Hw. }
  rewrite E. rewrite Hlen in Hl. unfold AudioEngine.len in Hl.
  assert (Hout : 24000 <= Z.of_nat (List.length out)).
  { rewrite Hl. apply Z.div_le_lower_bound; lia. }
  destruct (ctx_ p) as [c|] eqn:Ec.
  - eexists. split; [reflexivity|].
    pose proof (transcribe_flush_effect whisper c out (drained tk p)) as F.
    cbv zeta in F. destruct F as (Fa & _ & _ & _ & _ & _ & _ & _ & F).
    rewrite Fa. split; [exact Hr|].
    split; [change (RingBuffer.count (AudioEngine.buffer_ (audio_ (drained tk p)))) with 0; lia|].
    destruct (Str.empty _ || is_hallucination _).
    + destruct F as (Fl & _). eexists. split; [rewrite Fl; reflexivity|].
      cbn. constructor; [split; assumption | constructor].
    + destruct F as (d & Fl & _). eexists. split; [rewrite Fl; reflexivity|].
      cbn. constructor; [split; assumption | constructor].
  - exists (drained tk p). split; [reflexivity|]. split; [exact Hr|].
    split; [change (RingBuffer.count (AudioEngine.buffer_ (audio_ (drained tk p)))) with 0; lia|].
    exists []. rewrite app_nil_r. split; [reflexivity | constructor].
Qed.

Lemma loop_48000 (whisper : WhisperContext.recognizer) (tks : list tick) :
  forall p,
    AudioEngine.hardware_sr_ (audio_ p) = AudioEngine.rate_48000 ->
    RingBuffer.count (AudioEngine.buffer_ (audio_ p)) + captured_total tks < 2 ^ 50 ->
    exists p' new,
      continuous_loop whisper tks p = Some p' /\
      log p' = (log p ++ new)%list /\
      Forall (fun s => 24000 <= Z.of_nat (List.length s)) (recognized new).
Proof.
  induction tks as [|tk tks IH]; intros p Hr Hb; cbn [continuous_loop].
  - exists p, []. rewrite app_nil_r. repeat split. constructor.
  - destruct (negb (continuous_running_ p)).
    + exists p, []. rewrite app_nil_r. repeat split. constructor.
    + cbn [captured_total fold_right] in Hb.
      fold (captured_total tks) in Hb.
      assert (Hc : 0 <= captured_total tks).
      { clear. induction tks as [|t l IHl]; cbn; [lia|].
        fold (captured_total l). lia. }
      destruct (pass_48000 whisper tk p Hr) as (p1 & E & Hr1 & Hn & n1 & L1 & F1).
      { rewrite waiting_eq. lia. }
      rewrite E.
      destruct (IH p1 Hr1) as (p' & n2 & E2 & L2 & F2).
      { rewrite waiting_eq in Hn. lia. }
      exists p', (n1 ++ n2)%list. split; [exact E2|].
      split; [rewrite L2, L1; now rewrite app_assoc|].
      rewrite recognized_app. apply Forall_app. split; [|exact F2].
      eapply Forall_impl; [|exact F1]. now intros s [H _].
Qed.


(** *** A run with two flushes *)

Lemma loop_step (whisper : WhisperContext.recognizer) (tk : tick) (tks : list tick)
      (p p1 : t) :
  continuous_running_ p = true ->
  continuous_iteration whisper tk p = Some p1 ->
  continuous_loop whisper (tk :: tks) p = continuous_loop whisper tks p1.
Proof. intros Hc E. cbn [continuous_loop]. now rewrite Hc, E. Qed.

Lemma poll_only (whisper : WhisperContext.recognizer) (tk : tick) (p : t) :
  AudioEngine.hardware_sr_ (audio_ p) = AudioEngine.rate_48000 ->
  due tk p = false ->
  continuous_iteration whisper tk p = Some (polled tk p).
Proof. intros Hr Hd. rewrite (iteration_48000 whisper tk p Hr), Hd. reflexivity. Qed.

Lemma flush_step (whisper : WhisperContext.recognizer) (tk : tick) (p : t)
      (c : WhisperContext.t) :
  AudioEngine.hardware_sr_ (audio_ p) = AudioEngine.rate_48000 ->
  ctx_ p = Some c -> transcribing_ p = false ->
  due tk p = true -> 72000 <= waiting tk p < 2 ^ 50 ->
  exists out,
    Z.of_nat (List.length out) = waiting tk p / 3 /\
    continuous_iteration whisper tk p
    = Some (transcribe_flush whisper c out (drained tk p)).
Proof.
  intros Hr Hc Ht Hd [Hlo Hhi]. rewrite (iteration_48000 whisper tk p Hr).
  rewrite Hd, Ht. cbn [negb orb].
  replace (waiting tk p <? 72000) with false by (symmetry; apply Z.ltb_ge; lia).
  set (raw := RingBuffer.samples_ (AudioEngine.buffer_ (apply_tick tk (audio_ p)))).
  assert (Hlen : AudioEngine.len raw = waiting tk p) by reflexivity.
  destruct (ResampleProps.resample_48_16 raw) as (out & E & Hl & _).
  { intros E. rewrite E in Hlen. cbn in Hlen. lia. }
  { rewrite Hlen. exact Hhi. }
  rewrite E, Hc. exists out. split; [|reflexivity].
  rewrite <- Hlen. exact Hl.
Qed.

Lemma choosy_text (c : WhisperContext.t) (out : list F32.t) (prompt : option string) :
  Str.strip (full_text (WhisperContext.transcribe choosy c out prompt))
  = if Z.of_nat (List.length out) =? 24000 then "Thank you." else "hello world".
Proof.
  unfold WhisperContext.transcribe, choosy.
  cbn [WhisperContext.status Z.eqb negb WhisperContext.raw_segments].
  destruct (Z.of_nat (List.length out) =? 24000); reflexivity.
Qed.

Lemma two_flushes_run :
  exists p' out1 out2 delay,
    continuous_loop choosy two_flushes listening = Some p' /\
    Z.of_nat (List.length out1) = 24000 /\ Z.of_nat (List.length out2) = 24001 /\
    log p' = [EvTranscriptionStart; EvRecognize out1 None; EvTranscriptionEnd;
              EvTranscriptionStart; EvRecognize out2 None;
              EvType "hello world " delay; EvTranscriptionEnd] /\
    PerformanceMonitor.total_ (perf_ p') = 1 /\ did_output_ p' = true.
Proof.
  unfold two_flushes.
  set (tk1 := mkTick (repeat F32.zero (Z.to_nat 72000)) false).
  set (tk := mkTick [] false).
  set (tk4 := mkTick (repeat F32.zero (Z.to_nat 72003)) false).
  set (c := WhisperContext.mk default_settings "base").
  (* the first two polls *)
  assert (W1 : waiting tk1 listening = 72000).
  { rewrite waiting_eq. subst tk1. cbn [captured]. rewrite repeat_length. reflexivity. }
  assert (D1 : due tk1 listening = false).
  { unfold due. rewrite W1. reflexivity. }
  set (p1 := polled tk1 listening).
  assert (W2 : waiting tk p1 = 72000).
  { rewrite waiting_eq. subst tk p1.
    unfold RingBuffer.count.
    rewrite (proj2 (proj2 (polled_fields tk1 listening))).
    subst tk1. cbn [captured List.length app]. rewrite length_app, repeat_length.
    reflexivity. }
  assert (D2 : due tk p1 = false).
  { unfold due. rewrite W2. reflexivity. }
  set (p2 := polled tk p1).
  assert (W3 : waiting tk p2 = 72000).
  { rewrite waiting_eq. unfold RingBuffer.count. subst p2 p1.
    rewrite (proj2 (proj2 (polled_fields tk (polled tk1 listening)))).
    rewrite (proj2 (proj2 (polled_fields tk1 listening))).
    subst tk tk1. cbn [captured List.length]. rewrite !length_app, repeat_length.
    reflexivity. }
  assert (D3 : due tk p2 = true).
  { unfold due. rewrite W3. reflexivity. }
  destruct (flush_step choosy tk p2 c) as (out1 & L1 & E3);
    [reflexivity | reflexivity | reflexivity | exact D3 | rewrite W3; split; [lia|reflexivity] |].
  rewrite W3 in L1. change (72000 / 3) with 24000 in L1.
  set (q3 := drained tk p2) in *.
  set (p3 := transcribe_flush choosy c out1 q3) in *.
  pose proof (transcribe_flush_effect choosy c out1 q3) as F3. cbv zeta in F3.
  fold p3 in F3. rewrite choosy_text, L1 in F3.
  change (if 24000 =? 24000 then "Thank you." else "hello world") with "Thank you." in F3.
  replace (Str.empty "Thank you." || is_hallucination "Thank you.") with true in F3
    by (vm_compute; reflexivity).
  destruct F3 as (Fa & _ & Fc & _ & _ & Frun & Fsil & Ftr & Flog & Fperf & Fout & Fctx).
  (* the second flush *)
  assert (W4 : waiting tk4 p3 = 72003).
  { rewrite waiting_eq, Fa. subst tk4. cbn [captured]. rewrite repeat_length.
    reflexivity. }
  assert (D4 : due tk4 p3 = true).
  { unfold due, polls_without_speech. rewrite W4, Fsil. reflexivity. }
  destruct (flush_step choosy tk4 p3 c) as (out2 & L2 & E4);
    [rewrite Fa; reflexivity | rewrite Fc; reflexivity | exact Ftr | exact D4
    | rewrite W4; split; [lia|reflexivity] |].
  rewrite W4 in L2. change (72003 / 3) with 24001 in L2.
  set (q4 := drained tk4 p3) in *.
  set (p4 := transcribe_flush choosy c out2 q4) in *.
  pose proof (transcribe_flush_effect choosy c out2 q4) as F4. cbv zeta in F4.
  fold p4 in F4. rewrite choosy_text, L2 in F4.
  change (if 24001 =? 24000 then "Thank you." else "hello world") with "hello world" in F4.
  replace (Str.empty "hello world" || is_hallucination "hello world") with false in F4
    by (vm_compute; reflexivity).
  destruct F4 as (_ & _ & _ & _ & _ & _ & _ & _ & delay & Glog & Gperf & Gout & _).
  exists p4, out1, out2, delay.
  split.
  { rewrite (loop_step choosy tk1 _ listening p1 eq_refl
               (poll_only choosy tk1 listening eq_refl D1)).
    rewrite (loop_step choosy tk _ p1 p2 eq_refl (poll_only choosy tk p1 eq_refl D2)).
    rewrite (loop_step choosy tk _ p2 p3 eq_refl E3).
    rewrite (loop_step choosy tk4 _ p3 p4 Frun E4).
    reflexivity. }
  split; [exact L1|]. split; [exact L2|].
  assert (Lq4 : log q4 = log p3) by reflexivity.
  assert (Pq4 : perf_ q4 = perf_ p3) by reflexivity.
  assert (Cq4 : last_context_text_ q4 = last_context_text_ p3) by reflexivity.
  split.
  { rewrite Glog, Cq4, Fctx, Lq4, Flog. reflexivity. }
  split.
  { rewrite Gperf, Pq4, Fperf. reflexivity. }
  exact Gout.
Qed.

(** X16. Over any run of the monitor loop the statistics count exactly the
    texts that were typed: a recognizer result whose text is empty or
    filtered is not recorded.  [did_output_] is set exactly when
    something was typed (or was set before), and every typed text is an
    accepted text, not empty and not filtered, followed by one space. *)
Theorem monitor_bookkeeping (whisper : WhisperContext.recognizer)
        (tks : list tick) (p p' : t) :
  continuous_loop whisper tks p = Some p' ->
  exists new,
    log p' = (log p ++ new)%list /\
    PerformanceMonitor.total_ (perf_ p')
    = PerformanceMonitor.total_ (perf_ p) + Z.of_nat (List.length (typed new)) /\
    did_output_ p' = did_output_ p || VADRun.nonempty (typed new) /\
    Forall (fun t => exists text, t = text ++ " " /\ text <> ""
                                  /\ is_hallucination text = false) (typed new).
Proof. apply loop_books. Qed.

Lemma monitor_bookkeeping_witness :
  exists p',
    continuous_loop choosy two_flushes listening = Some p' /\
    call_sizes (log p') = [24000; 24001] /\
    exists new,
      log p' = (log listening ++ new)%list /\
      typed new = ["hello world "] /\
      PerformanceMonitor.total_ (perf_ p')
      = PerformanceMonitor.total_ (perf_ listening) + Z.of_nat (List.length (typed new)) /\
      PerformanceMonitor.total_ (perf_ p') = 1 /\
      did_output_ p' = true.
Proof.
  destruct two_flushes_run as (p' & out1 & out2 & delay & E & L1 & L2 & L & T1 & D).
  exists p'. split; [exact E|].
  split; [rewrite L; unfold call_sizes; cbn [recognized List.map]; now rewrite L1, L2|].
  destruct (monitor_bookkeeping choosy two_flushes listening p' E)
    as (new & Ln & T & _).
  exists new. split; [exact Ln|].
  split; [change (log listening) with (@nil event) in Ln; cbn [app] in Ln;
          rewrite <- Ln, L; reflexivity|].
  exact (conj T (conj T1 D)).
Defined.

(** X17. At the capture rate of 48 kHz the monitor loop is defined (no
    undefined conversion, no failing resampling) and never hands the
    recognizer less than 24000 samples, that is 1.5 s of audio. *)
Theorem monitor_calls_are_long_enough (whisper : WhisperContext.recognizer)
        (tks : list tick) (p : t) :
  AudioEngine.hardware_sr_ (audio_ p) = AudioEngine.rate_48000 ->
  RingBuffer.count (AudioEngine.buffer_ (audio_ p)) + captured_total tks < 2 ^ 50 ->
  exists p' new,
    continuous_loop whisper tks p = Some p' /\
    log p' = (log p ++ new)%list /\
    Forall (fun s => 24000 <= Z.of_nat (List.length s)) (recognized new).
Proof. apply loop_48000. Qed.

Lemma monitor_calls_are_long_enough_witness :
  (AudioEngine.hardware_sr_ (audio_ listening) = AudioEngine.rate_48000 /\
   RingBuffer.count (AudioEngine.buffer_ (audio_ listening)) + captured_total two_flushes
   < 2 ^ 50) /\
  exists p' new,
    continuous_loop choosy two_flushes listening = Some p' /\
    log p' = (log listening ++ new)%list /\
    call_sizes new = [24000; 24001] /\
    Forall (fun s => 24000 <= Z.of_nat (List.length s)) (recognized new).
Proof.
  assert (H1 : AudioEngine.hardware_sr_ (audio_ listening) = AudioEngine.rate_48000)
    by reflexivity.
  assert (H2 : RingBuffer.count (AudioEngine.buffer_ (audio_ listening))
               + captured_total two_flushes < 2 ^ 50).
  { unfold two_flushes, captured_total.
    cbn [fold_right captured List.length]. rewrite !repeat_length. reflexivity. }
  split; [exact (conj H1 H2)|].
  destruct (monitor_calls_are_long_enough choosy two_flushes listening H1 H2)
    as (p' & new & E & L & F).
  exists p', new. split; [exact E|]. split; [exact L|]. split; [|exact F].
  destruct two_flushes_run as (p2 & out1 & out2 & delay & E2 & L1 & L2 & Lg & _).
  rewrite E in E2. injection E2 as <-.
  change (log listening) with (@nil event) in L. cbn [app] in L.
  rewrite <- L, Lg. unfold call_sizes. cbn [recognized List.map]. now rewrite L1, L2.
Defined.

(** X18. The monitor never flushes in mid-speech: as long as no more than
    25 s of audio (1,200,000 samples at 48 kHz) are waiting, a poll at
    which the detector reports speech, or which is not at least the third
    in a row without speech, only takes note; so does every poll with
    fewer than 72000 samples waiting.  The waiting audio stays in the
    ring buffer and the recognizer is not called. *)
Theorem monitor_waits_for_a_pause (whisper : WhisperContext.recognizer)
        (tk : tick) (p : t) :
  AudioEngine.hardware_sr_ (audio_ p) = AudioEngine.rate_48000 ->
  waiting tk p < 72000 \/
  (waiting tk p <= 1200000 /\
   (speaking_now tk = true \/ silence_frame_count_ p < 2)) ->
  exists p',
    continuous_iteration whisper tk p = Some p' /\
    log p' = log p /\ last_context_text_ p' = last_context_text_ p /\
    perf_ p' = perf_ p /\
    RingBuffer.samples_ (AudioEngine.buffer_ (audio_ p'))
    = (RingBuffer.samples_ (AudioEngine.buffer_ (audio_ p)) ++ captured tk)%list /\
    silence_frame_count_ p' = (if speaking_now tk then 0 else silence_frame_count_ p + 1).
Proof.
  intros Hr H. rewrite (iteration_48000 whisper tk p Hr).
  assert (G : (if negb (due tk p) || transcribing_ p then Some (polled tk p)
               else if waiting tk p <? 72000 then Some (polled tk p)
               else match AudioEngine.resample
                            (RingBuffer.samples_
                               (AudioEngine.buffer_ (apply_tick tk (audio_ p))))
                            AudioEngine.rate_48000 AudioEngine.rate_16000 with
                    | None => None
                    | Some resampled =>
                        match ctx_ p with
                        | None => Some (drained tk p)
                        | Some c => Some (transcribe_flush whisper c resampled (drained tk p))
                        end
                    end) = Some (polled tk p)).
  { destruct H as [H|(Hw & H)].
    - destruct (negb (due tk p) || transcribing_ p); [reflexivity|].
      replace (waiting tk p <? 72000) with true by (symmetry; apply Z.ltb_lt; lia).
      reflexivity.
    - replace (due tk p) with false; [reflexivity|].
      unfold due, polls_without_speech.
      replace (waiting tk p >? 1200000) with false
        by (symmetry; rewrite Z.gtb_ltb; apply Z.ltb_ge; lia).
      rewrite orb_false_r.
      destruct H as [-> | H]; [now rewrite andb_false_r|].
      destruct (speaking_now tk); [now rewrite andb_false_r|].
      replace (silence_frame_count_ p + 1 >=? 3) with false
        by (symmetry; rewrite Z.geb_leb; apply Z.leb_gt; lia).
      now rewrite andb_false_r. }
  rewrite G. exists (polled tk p). repeat split.
Qed.

Lemma monitor_waits_for_a_pause_witness :
  (AudioEngine.hardware_sr_ (audio_ listening) = AudioEngine.rate_48000 /\
   (waiting (mkTick [F32.one] true) listening < 72000 \/
    (waiting (mkTick [F32.one] true) listening <= 1200000 /\
     (speaking_now (mkTick [F32.one] true) = true
      \/ silence_frame_count_ listening < 2)))) /\
  exists p',
    continuous_iteration scripted (mkTick [F32.one] true) listening = Some p' /\
    log p' = log listening.
Proof.
  assert (H1 : AudioEngine.hardware_sr_ (audio_ listening) = AudioEngine.rate_48000)
    by reflexivity.
  assert (H2 : waiting (mkTick [F32.one] true) listening < 72000 \/
               (waiting (mkTick [F32.one] true) listening <= 1200000 /\
                (speaking_now (mkTick [F32.one] true) = true
                 \/ silence_frame_count_ listening < 2)))
    by (left; reflexivity).
  split; [exact (conj H1 H2)|].
  destruct (monitor_waits_for_a_pause scripted (mkTick [F32.one] true) listening H1 H2)
    as (p' & E & L & _).
  exists p'. exact (conj E L).
Defined.

Lemma waiting_deaf : waiting (mkTick [] false) deaf = 72000.
Proof.
  rewrite waiting_eq. unfold deaf, RingBuffer.count.
  cbn [audio_ AudioEngine.buffer_ RingBuffer.samples_ captured List.length].
  rewrite repeat_length. reflexivity.
Qed.

(** X19. With no model loaded the monitor still drains the ring buffer when
    a flush is due: the audio collected so far is dropped, nothing is
    recognized or typed. *)
Theorem monitor_without_model_drops_audio (whisper : WhisperContext.recognizer)
        (tk : tick) (p : t) :
  AudioEngine.hardware_sr_ (audio_ p) = AudioEngine.rate_48000 ->
  ctx_ p = None -> transcribing_ p = false ->
  due tk p = true -> 72000 <= waiting tk p < 2 ^ 50 ->
  exists p',
    continuous_iteration whisper tk p = Some p' /\
    AudioEngine.buffer_ (audio_ p') = RingBuffer.empty /\
    log p' = log p /\ perf_ p' = perf_ p /\
    last_context_text_ p' = last_context_text_ p.
Proof.
  intros Hr Hc Ht Hd [Hlo Hhi]. rewrite (iteration_48000 whisper tk p Hr).
  rewrite Hd, Ht. cbn [negb orb].
  replace (waiting tk p <? 72000) with false by (symmetry; apply Z.ltb_ge; lia).
  set (raw := RingBuffer.samples_ (AudioEngine.buffer_ (apply_tick tk (audio_ p)))).
  assert (Hlen : AudioEngine.len raw = waiting tk p) by reflexivity.
  destruct (ResampleProps.resample_48_16 raw) as (out & E & _).
  { intros E. rewrite E in Hlen. cbn in Hlen. lia. }
  { rewrite Hlen. exact Hhi. }
  rewrite E, Hc. exists (drained tk p). repeat split.
Qed.

Lemma monitor_without_model_drops_audio_witness :
  (AudioEngine.hardware_sr_ (audio_ deaf) = AudioEngine.rate_48000 /\
   ctx_ deaf = None /\ transcribing_ deaf = false /\
   due (mkTick [] false) deaf = true /\
   72000 <= waiting (mkTick [] false) deaf < 2 ^ 50) /\
  exists p',
    continuous_iteration scripted (mkTick [] false) deaf = Some p' /\
    AudioEngine.buffer_ (audio_ p') = RingBuffer.empty.
Proof.
  assert (H1 : AudioEngine.hardware_sr_ (audio_ deaf) = AudioEngine.rate_48000)
    by reflexivity.
  assert (H2 : ctx_ deaf = None) by reflexivity.
  assert (H3 : transcribing_ deaf = false) by reflexivity.
  assert (H4 : due (mkTick [] false) deaf = true).
  { unfold due. rewrite waiting_deaf. reflexivity. }
  assert (H5 : 72000 <= waiting (mkTick [] false) deaf < 2 ^ 50).
  { rewrite waiting_deaf. split; [lia | reflexivity]. }
  split; [exact (conj H1 (conj H2 (conj H3 (conj H4 H5))))|].
  destruct (monitor_without_model_drops_audio scripted (mkTick [] false) deaf
              H1 H2 H3 H4 H5) as (p' & E & B & _).
  exists p'. exact (conj E B).
Defined.

End MonitorProps.

(* ------------------------------------------------------------------ *)
(** ** Sessions *)

Module SessionMoreProps.
Import Pipeline PipelineSpec PipelineOps MonitorSpec ChunkSpec ContextProps ChunkProps
       SessionProps MonitorProps.
Local Open Scope string_scope.
Local Open Scope Z_scope.

Lemma chunks_single (samples : list F32.t) :
  0 < Z.of_nat (List.length samples) <= MAX_CHUNK_SAMPLES ->
  chunks samples = [samples].
Proof.
  intros [Hlo Hhi]. unfold chunks.
  destruct samples as [|x l]; [cbn in Hlo; lia|].
  set (samples := x :: l) in *.
  change (List.length samples) with (S (List.length l)) at 1.
  change (chunks_of (S (List.length l)) ?n samples)
    with (firstn n samples :: chunks_of (List.length l) n (skipn n samples)).
  rewrite firstn_all2 by lia. rewrite skipn_all2 by lia.
  now rewrite chunks_of_nil.
Qed.

Lemma transcribe_chunked_more (whisper : WhisperContext.recognizer)
      (clock_ms : F64.t) (p : t) (c : WhisperContext.t) (samples : list F32.t) :
  let q := fst (transcribe_chunked whisper clock_ms p c samples) in
  audio_ q = audio_ p /\ ctx_ q = ctx_ p /\ settings_ q = settings_ p /\
  silence_frame_count_ q = silence_frame_count_ p.
Proof.
  unfold transcribe_chunked.
  destruct (chunk_loop _ _ _ _ _ _ _) as [segs lg]. cbn. repeat split.
Qed.

(** What [transcribe_and_output] does with a loaded model. *)
Lemma transcribe_and_output_effect (whisper : WhisperContext.recognizer)
      (clock_ms : F64.t) (p : t) (c : WhisperContext.t) (samples : list F32.t) :
  ctx_ p = Some c ->
  0 < Z.of_nat (List.length samples) < 2 ^ 31 ->
  let r := transcribe_and_output whisper clock_ms p samples in
  let text := Str.strip (full_text (snd r)) in
  segments (snd r)
  = (if Z.of_nat (List.length samples) >? MAX_CHUNK_SAMPLES
     then chunked_segments whisper c samples
     else segments (WhisperContext.transcribe whisper c samples None)) /\
  (exists delay,
     log (fst r)
     = (log p ++ EvTranscriptionStart
              :: List.map (fun ch => EvRecognize ch None) (chunks samples)
              ++ (if Str.empty text then [] else [EvType text delay])
              ++ [EvTranscriptionEnd])%list) /\
  perf_ (fst r) = PerformanceMonitor.record (perf_ p) (snd r) /\
  did_output_ (fst r) = did_output_ p || negb (Str.empty text) /\
  transcribing_ (fst r) = false /\
  recording_ (fst r) = recording_ p /\
  continuous_running_ (fst r) = continuous_running_ p /\
  last_context_text_ (fst r) = last_context_text_ p /\
  audio_ (fst r) = audio_ p /\ ctx_ (fst r) = ctx_ p.
Proof.
  intros Hc Hl. cbv zeta. unfold transcribe_and_output. rewrite Hc.
  rewrite int_of_size_t_small by lia.
  set (p1 := emit EvTranscriptionStart (set_transcribing true p)).
  destruct (Z.gtb_spec (Z.of_nat (List.length samples)) MAX_CHUNK_SAMPLES) as [Hgt|Hle].
  - destruct (transcribe_chunked_spec whisper clock_ms p1 c samples)
      as (Hlog & Hseg & _ & _).
    destruct (transcribe_chunked_fields whisper clock_ms p1 c samples)
      as (Hp & Hr & _ & Hd & Hx & Hm).
    destruct (transcribe_chunked_more whisper clock_ms p1 c samples)
      as (Ha & Hcx & _ & _).
    destruct (transcribe_chunked whisper clock_ms p1 c samples) as [p2 result].
    cbn [fst snd] in *.
    generalize (Str.strip (full_text result)) as text. intros text.
    destruct (Str.empty text).
    + pipe_simpl. rewrite Hlog, Hp, Hr, Hd, Hx, Hm, Ha, Hcx. subst p1. pipe_simpl.
      rewrite orb_false_r, <- !app_assoc.
      split; [first [exact Hseg | reflexivity]|]. split; [exists 0; reflexivity|].
      repeat split; assumption.
    + destruct (output_text_eq
                  (set_transcribing false
                     (set_perf (PerformanceMonitor.record (perf_ p2) result) p2)) text)
        as [d Hd'].
      rewrite Hd'. pipe_simpl.
      rewrite Hlog, Hp, Hr, Hx, Hm, Ha, Hcx. subst p1. pipe_simpl.
      rewrite orb_true_r, <- !app_assoc.
      split; [first [exact Hseg | reflexivity]|]. split; [exists d; reflexivity|].
      repeat split; assumption.
  - rewrite (chunks_single samples) by lia.
    generalize (WhisperContext.transcribe whisper c samples None) as result.
    intros result. cbn [fst snd].
    generalize (Str.strip (full_text result)) as text. intros text.
    destruct (Str.empty text).
    + subst p1. pipe_simpl. rewrite orb_false_r, <- !app_assoc.
      split; [first [exact Hseg | reflexivity]|]. split; [exists 0; reflexivity|].
      repeat split; assumption.
    + match goal with
      | |- context [output_text ?q ?t] =>
          destruct (output_text_eq q t) as [d Hd']; rewrite Hd'
      end.
      subst p1. pipe_simpl. rewrite orb_true_r, <- !app_assoc.
      split; [first [exact Hseg | reflexivity]|]. split; [exists d; reflexivity|].
      repeat split; assumption.
Qed.


(** X20. [stop_recording_and_transcribe] on a session that holds at least
    MIN_SAMPLES samples, with a model loaded: all the audio is handed to
    the recognizer, in order, in pieces of at most MAX_CHUNK_SAMPLES
    samples and with no context hint; the trimmed text is typed once if
    it is not empty (no hallucination filter, no trailing space); the
    result is recorded in the statistics whether or not anything was
    typed, and the session is closed. *)
Theorem buffered_session (whisper : WhisperContext.recognizer) (clock_ms : F64.t)
        (p : t) (c : WhisperContext.t) (a : AudioEngine.t) (samples : list F32.t) :
  recording_ p = true -> ctx_ p = Some c ->
  AudioEngine.stop_recording (audio_ p) = Some (a, samples) ->
  MIN_SAMPLES <= Z.of_nat (List.length samples) < 2 ^ 31 ->
  exists p' r delay,
    stop_recording_and_transcribe whisper clock_ms p = Some (p', r) /\
    segments r
    = (if Z.of_nat (List.length samples) >? MAX_CHUNK_SAMPLES
       then chunked_segments whisper c samples
       else segments (WhisperContext.transcribe whisper c samples None)) /\
    log p'
    = (log p ++ EvTranscriptionStart
             :: List.map (fun ch => EvRecognize ch None) (chunks samples)
             ++ (if Str.empty (Str.strip (full_text r)) then []
                 else [EvType (Str.strip (full_text r)) delay])
             ++ [EvTranscriptionEnd])%list /\
    List.concat (chunks samples) = samples /\
    perf_ p' = PerformanceMonitor.record (perf_ p) r /\
    did_output_ p' = did_output_ p || negb (Str.empty (Str.strip (full_text r))) /\
    recording_ p' = false /\ continuous_running_ p' = false /\
    transcribing_ p' = false /\
    last_context_text_ p' = last_context_text_ p.
Proof.
  intros Hrec Hc Hstop [Hlo Hhi].
  unfold stop_recording_and_transcribe, stop_continuous_monitor.
  rewrite Hrec. cbn [negb]. pipe_simpl. rewrite Hstop.
  rewrite int_of_size_t_small by (unfold MIN_SAMPLES in Hlo; lia).
  replace (Z.of_nat (List.length samples) <? MIN_SAMPLES) with false
    by (symmetry; apply Z.ltb_ge; exact Hlo).
  set (p2 := set_recording false _).
  assert (Hc2 : ctx_ p2 = Some c) by exact Hc.
  destruct (transcribe_and_output_effect whisper clock_ms p2 c samples Hc2)
    as (E1 & (d & E2) & E3 & E4 & E5 & E6 & E7 & E8 & _).
  { unfold MIN_SAMPLES in Hlo. lia. }
  destruct (transcribe_and_output whisper clock_ms p2 samples) as [p' r].
  cbn [fst snd] in *.
  exists p', r, d. split; [reflexivity|]. split; [exact E1|]. split; [exact E2|].
  split; [apply chunks_of_concat; unfold MAX_CHUNK_SAMPLES; lia|].
  repeat split; assumption.
Qed.

Lemma buffered_session_witness :
  (recording_ (holding (repeat F32.zero (Z.to_nat 24000))) = true /\
   ctx_ (holding (repeat F32.zero (Z.to_nat 24000)))
   = Some (WhisperContext.mk default_settings "base")) /\
  exists p' r,
    stop_recording_and_transcribe polite F64.zero
      (holding (repeat F32.zero (Z.to_nat 24000))) = Some (p', r) /\
    typed (log p') = ["Thank you."] /\
    recording_ p' = false.
Proof.
  set (p := holding (repeat F32.zero (Z.to_nat 24000))).
  assert (H1 : recording_ p = true) by reflexivity.
  assert (H2 : ctx_ p = Some (WhisperContext.mk default_settings "base"))
    by reflexivity.
  split; [exact (conj H1 H2)|].
  assert (Hn : RingBuffer.count (AudioEngine.buffer_ (audio_ p)) = 24000).
  { unfold p, holding, RingBuffer.count.
    cbn [audio_ AudioEngine.buffer_ RingBuffer.samples_].
    rewrite repeat_length. reflexivity. }
  destruct (EngineProps.stop_recording_third (audio_ p)) as (a & samples & H3 & Hl & _).
  { reflexivity. }
  { rewrite Hn. reflexivity. }
  rewrite Hn in Hl. change (24000 / 3) with 8000 in Hl. unfold AudioEngine.len in Hl.
  assert (H4 : MIN_SAMPLES <= Z.of_nat (List.length samples) < 2 ^ 31)
    by (rewrite Hl; split; [discriminate | reflexivity]).
  destruct (buffered_session polite F64.zero p _ a samples H1 H2 H3 H4)
    as (p' & r & d & E & S & L & _ & _ & _ & R & _).
  exists p', r. split; [exact E|]. split; [|exact R].
  replace (Z.of_nat (List.length samples) >? MAX_CHUNK_SAMPLES) with false in S
    by (rewrite Hl; reflexivity).
  assert (T : Str.strip (full_text r) = "Thank you.")
    by (unfold full_text; rewrite S; reflexivity).
  rewrite T in L. rewrite L, typed_app. cbn [typed].
  rewrite typed_app, typed_recognize. reflexivity.
Defined.


(** X21. The hallucination filter is applied by the monitor loop only: the
    same recognizer output that a pass of the monitor drops as a stock
    phrase is typed when it comes out of [transcribe_and_output]. *)
Theorem filter_only_in_monitor (whisper : WhisperContext.recognizer)
        (clock_ms : F64.t) (p : t) (c : WhisperContext.t) (samples : list F32.t) :
  ctx_ p = Some c ->
  0 < Z.of_nat (List.length samples) <= MAX_CHUNK_SAMPLES ->
  let heard := fun prompt =>
    Str.strip (full_text (WhisperContext.transcribe whisper c samples prompt)) in
  (Str.empty (heard None) = false ->
   typed (log (fst (transcribe_and_output whisper clock_ms p samples)))
   = (typed (log p) ++ [heard None])%list) /\
  (is_hallucination (heard (next_prompt (last_context_text_ p))) = true ->
   typed (log (transcribe_flush whisper c samples p)) = typed (log p)).
Proof.
  intros Hc Hl heard. split.
  - intros Hne.
    destruct (transcribe_and_output_effect whisper clock_ms p c samples Hc)
      as (E1 & (d & E2) & _).
    { unfold MAX_CHUNK_SAMPLES in Hl. split; [lia|].
      apply Z.le_lt_trans with 480000; [lia | reflexivity]. }
    replace (Z.of_nat (List.length samples) >? MAX_CHUNK_SAMPLES) with false in E1
      by (symmetry; rewrite Z.gtb_ltb; apply Z.ltb_ge; lia).
    assert (T : Str.strip (full_text (snd (transcribe_and_output whisper clock_ms p samples)))
                = heard None)
      by (unfold full_text at 1; rewrite E1; reflexivity).
    rewrite T, Hne in E2. rewrite E2, typed_app. cbn [typed].
    rewrite typed_app, typed_recognize. reflexivity.
  - intros Hh.
    pose proof (transcribe_flush_effect whisper c samples p) as F. cbv zeta in F.
    destruct F as (_ & _ & _ & _ & _ & _ & _ & _ & F).
    fold (heard (next_prompt (last_context_text_ p))) in F.
    rewrite Hh, orb_true_r in F. destruct F as (F & _).
    rewrite F, typed_app. cbn [typed]. now rewrite app_nil_r.
Qed.

Lemma filter_only_in_monitor_witness :
  (ctx_ PipelineSpec.loaded = Some (WhisperContext.mk default_settings "base") /\
   0 < Z.of_nat (List.length [F32.one]) <= MAX_CHUNK_SAMPLES /\
   Str.empty "Thank you." = false /\ is_hallucination "Thank you." = true) /\
  typed (log (fst (transcribe_and_output polite F64.zero PipelineSpec.loaded [F32.one])))
  = ["Thank you."] /\
  typed (log (transcribe_flush polite (WhisperContext.mk default_settings "base")
                [F32.one] PipelineSpec.loaded)) = [].
Proof.
  assert (H1 : ctx_ PipelineSpec.loaded
               = Some (WhisperContext.mk default_settings "base")) by reflexivity.
  assert (H2 : 0 < Z.of_nat (List.length [F32.one]) <= MAX_CHUNK_SAMPLES)
    by (split; [reflexivity | discriminate]).
  assert (H3 : Str.empty "Thank you." = false) by reflexivity.
  assert (H4 : is_hallucination "Thank you." = true) by reflexivity.
  split; [exact (conj H1 (conj H2 (conj H3 H4)))|].
  destruct (filter_only_in_monitor polite F64.zero PipelineSpec.loaded _ [F32.one] H1 H2)
    as [A B].
  exact (conj (A H3) (B H4)).
Defined.

(** X22. A second [start_recording] while a session is open does nothing:
    the rolling context, the collected audio and the detector are kept. *)
Theorem start_recording_twice (d1 d2 : bool) (p : t) :
  start_recording d2 (start_recording d1 p) = start_recording d1 p /\
  recording_ (start_recording d1 p) = true.
Proof.
  assert (R : recording_ (start_recording d1 p) = true).
  { unfold start_recording, start_continuous_monitor.
    destruct (recording_ p) eqn:E; [exact E|].
    pipe_simpl. destruct (transcription_mode (settings_ p)); reflexivity. }
  split; [|exact R].
  unfold start_recording at 1. now rewrite R.
Qed.

(** *** The text of a chunked transcription *)

Lemma fold_text_acc (segs : list TranscriptionSegment) :
  forall acc, fold_left (fun out s => out ++ text s) segs acc = acc ++ text_of segs.
Proof.
  unfold text_of.
  induction segs as [|s segs IH]; intros acc; cbn [fold_left].
  - now rewrite StrProps.append_nil_r.
  - rewrite IH. rewrite (IH ("" ++ text s)).
    cbn [String.append]. now rewrite StrProps.append_assoc.
Qed.

Lemma text_of_app (a b : list TranscriptionSegment) :
  text_of (a ++ b) = text_of a ++ text_of b.
Proof. unfold text_of at 1. rewrite fold_left_app. apply fold_text_acc. Qed.

Lemma text_of_rebase (off : Z) (segs : list TranscriptionSegment) :
  text_of (List.map (rebase off) segs) = text_of segs.
Proof.
  induction segs as [|s segs IH]; [reflexivity|].
  change (List.map (rebase off) (s :: segs))
    with ([rebase off s] ++ List.map (rebase off) segs)%list.
  change (s :: segs) with ([s] ++ segs)%list.
  rewrite !text_of_app, IH. reflexivity.
Qed.

(** X23. The text of a chunked transcription is the texts of the chunks,
    each transcribed on its own, one after the other: moving the
    timestamps leaves the words alone. *)
Theorem chunked_text_is_concatenation (whisper : WhisperContext.recognizer)
        (clock_ms : F64.t) (p : t) (c : WhisperContext.t) (samples : list F32.t) :
  full_text (snd (transcribe_chunked whisper clock_ms p c samples))
  = join (List.map (fun ch => full_text (WhisperContext.transcribe whisper c ch None))
                   (chunks samples)).
Proof.
  destruct (transcribe_chunked_spec whisper clock_ms p c samples) as (_ & Hseg & _).
  unfold full_text at 1. rewrite Hseg. fold (text_of (chunked_segments whisper c samples)).
  unfold chunked_segments.
  generalize 0 as off. induction (chunks samples) as [|ch cs IH]; intros off.
  - reflexivity.
  - cbn [with_offsets List.map List.concat join fold_right].
    rewrite text_of_app. unfold rebased_chunk at 1. cbn [fst snd].
    rewrite text_of_rebase. f_equal. apply IH.
Qed.


(** *** Without a model *)

Lemma no_model_loop (whisper : WhisperContext.recognizer) (tks : list tick) :
  forall p p',
    ctx_ p = None -> continuous_loop whisper tks p = Some p' ->
    ctx_ p' = None /\ log p' = log p /\ perf_ p' = perf_ p /\
    did_output_ p' = did_output_ p.
Proof.
  induction tks as [|tk tks IH]; intros p p' Hc H; cbn [continuous_loop] in H.
  - injection H as <-. repeat split; assumption.
  - destruct (negb (continuous_running_ p)).
    + injection H as <-. repeat split; assumption.
    + destruct (continuous_iteration whisper tk p) as [p1|] eqn:E; [|discriminate].
      apply iteration_cases_full in E as [S|(c & _ & _ & Hc' & _)]; [|congruence].
      destruct S as (Hl & Hp & Hd & _ & _ & Hx & _).
      destruct (IH p1 p') as (H1 & H2 & H3 & H4); [congruence | exact H|].
      repeat split; congruence.
Qed.

Lemma no_model_stop (whisper : WhisperContext.recognizer) (clock_ms : F64.t)
      (p p' : t) (r : TranscriptionResult) :
  ctx_ p = None ->
  stop_recording_and_transcribe whisper clock_ms p = Some (p', r) ->
  r = empty_result /\ ctx_ p' = None /\ log p' = log p /\ perf_ p' = perf_ p /\
  did_output_ p' = did_output_ p.
Proof.
  intros Hc. unfold stop_recording_and_transcribe, stop_continuous_monitor.
  destruct (negb (recording_ p)).
  - intros [= <- <-]. repeat split; assumption.
  - pipe_simpl.
    destruct (AudioEngine.stop_recording (audio_ p)) as [[a samples]|]; [|discriminate].
    destruct (_ <? MIN_SAMPLES).
    + intros [= <- <-]. repeat split; assumption.
    + unfold transcribe_and_output. pipe_simpl. rewrite Hc.
      intros [= <- <-]. repeat split; assumption.
Qed.

Lemma no_model_start (dev_ok : bool) (p : t) :
  ctx_ (start_recording dev_ok p) = ctx_ p /\
  log (start_recording dev_ok p) = log p /\
  perf_ (start_recording dev_ok p) = perf_ p.
Proof.
  unfold start_recording, start_continuous_monitor.
  destruct (recording_ p); [repeat split|].
  pipe_simpl. destruct (transcription_mode (settings_ p)); repeat split.
Qed.

(** X24. After [shutdown] the pipeline holds no model, the monitor is
    stopped and the capture stream closed; a second [shutdown] changes
    nothing.  Whatever session is run afterwards, buffered or continuous,
    returns the empty result, and neither calls the recognizer, nor
    types, nor touches the statistics. *)
Theorem after_shutdown (whisper : WhisperContext.recognizer) (p : t) :
  let q := shutdown p in
  ctx_ q = None /\ continuous_running_ q = false /\
  AudioEngine.pa_ (audio_ q) = false /\ AudioEngine.collecting_ (audio_ q) = false /\
  log q = log p /\ recording_ q = recording_ p /\
  shutdown q = q /\
  forall dev_ok tks clock_ms q2 q3 r,
    continuous_loop whisper tks (start_recording dev_ok q) = Some q2 ->
    stop_recording_and_transcribe whisper clock_ms q2 = Some (q3, r) ->
    r = empty_result /\ log q3 = log p /\ perf_ q3 = perf_ p.
Proof.
  cbv zeta. unfold shutdown at 1 2 3 4 5 6, stop_continuous_monitor.
  cbv zeta. pipe_simpl. cbn [ctx_ set_ctx AudioEngine.release AudioEngine.pa_
                              AudioEngine.collecting_ continuous_running_ log recording_].
  repeat (split; [reflexivity|]).
  intros dev_ok tks clock_ms q2 q3 r H1 H2.
  destruct (no_model_start dev_ok (shutdown p)) as (S1 & S2 & S3).
  destruct (no_model_loop whisper tks _ _ (eq_trans S1 eq_refl) H1)
    as (L1 & L2 & L3 & _).
  destruct (no_model_stop whisper clock_ms _ _ _ L1 H2) as (R1 & _ & R3 & R4 & _).
  assert (E1 : log (shutdown p) = log p) by reflexivity.
  assert (E2 : perf_ (shutdown p) = perf_ p) by reflexivity.
  split; [exact R1|]. split; congruence.
Qed.


Lemma after_shutdown_witness :
  exists q3,
    stop_recording_and_transcribe scripted F64.zero
      (start_recording true (shutdown listening)) = Some (q3, empty_result) /\
    log q3 = log listening.
Proof.
  destruct (after_shutdown scripted listening) as (_ & _ & _ & _ & _ & _ & _ & H).
  assert (H1 : continuous_loop scripted [] (start_recording true (shutdown listening))
               = Some (start_recording true (shutdown listening))) by reflexivity.
  destruct (stop_recording_and_transcribe scripted F64.zero
              (start_recording true (shutdown listening))) as [[q3 r]|] eqn:H2;
    [|vm_compute in H2; discriminate H2].
  destruct (H true [] F64.zero _ q3 r H1 H2) as (-> & L & _).
  exists q3. split; [reflexivity | exact L].
Defined.

End SessionMoreProps.

(* ------------------------------------------------------------------ *)
(** ** The conversion to 16 kHz *)

Module ResampleMoreProps.
Import AudioEngine ResampleSpec ResampleProps.

(** X14. The conversion the program performs, from the capture rate of
    48 kHz to 16 kHz: it is defined on every non-empty recording below
    2^50 samples, returns a third of the samples (rounded down), and
    output sample [i] is sample [3 i] of the input blended with weight
    zero with its successor (the last sample standing in for a missing
    successor). *)
Theorem resample_capture_to_model (input : list F32.t) :
  input <> [] -> len input < 2 ^ 50 ->
  exists out,
    resample input rate_48000 rate_16000 = Some out /\
    len out = len input / 3 /\
    forall (i : nat) (y : F32.t),
      nth_error out i = Some y ->
      exists x0 x1,
        nth_error input (3 * i) = Some x0 /\
        nth_error input (Z.to_nat (Z.min (3 * Z.of_nat i + 1) (len input - 1))) = Some x1 /\
        y = lerp x0 x1 F32.zero.
Proof. exact (resample_48_16 input). Qed.

Lemma resample_capture_to_model_witness :
  ([tenth; tenth; tenth; tenth] <> [] /\ len [tenth; tenth; tenth; tenth] < 2 ^ 50) /\
  exists out,
    resample [tenth; tenth; tenth; tenth] rate_48000 rate_16000 = Some out /\
    len out = 1.
Proof.
  assert (H1 : [tenth; tenth; tenth; tenth] <> []) by discriminate.
  assert (H2 : len [tenth; tenth; tenth; tenth] < 2 ^ 50) by reflexivity.
  split; [exact (conj H1 H2)|].
  destruct (resample_capture_to_model [tenth; tenth; tenth; tenth] H1 H2) as (out & E & L & _).
  exists out. exact (conj E L).
Defined.

(** X15. At the program's rates a recording of one constant finite sample
    is converted to the same constant. *)
Theorem resample_constant_recording (c : F32.t) (n : nat) :
  F32.is_finite c = true -> F32.valid c = true ->
  (0 < n)%nat -> Z.of_nat n < 2 ^ 50 ->
  resample (repeat c n) rate_48000 rate_16000 = Some (repeat c (n / 3)).
Proof. exact (resample_48_16_constant c n). Qed.

Lemma resample_constant_recording_witness :
  (F32.is_finite tenth = true /\ F32.valid tenth = true /\
   (0 < 7)%nat /\ Z.of_nat 7 < 2 ^ 50) /\
  resample (repeat tenth 7) rate_48000 rate_16000 = Some [tenth; tenth].
Proof.
  assert (H1 : F32.is_finite tenth = true) by reflexivity.
  assert (H2 : F32.valid tenth = true) by reflexivity.
  assert (H3 : (0 < 7)%nat) by lia.
  assert (H4 : Z.of_nat 7 < 2 ^ 50) by reflexivity.
  split; [exact (conj H1 (conj H2 (conj H3 H4)))|].
  exact (resample_constant_recording tenth 7 H1 H2 H3 H4).
Defined.

End ResampleMoreProps.

(* ------------------------------------------------------------------ *)
(** ** The hotkey loop *)

Module HotkeyProps.
Import HotkeyManager HotkeySpec.








End HotkeyProps.

(* ------------------------------------------------------------------ *)
(** ** Settings *)

Module SettingsProps.
Import SettingsFns.



End SettingsProps.

(* ------------------------------------------------------------------ *)
(** ** The settings file *)

Module SettingsJsonProps.
Import SettingsJson SettingsJsonSpec.
Local Open Scope string_scope.

Section WithJson.

Variable value : Type.
Variable of_string : string -> value.
Variable of_bool : bool -> value.
Variable of_int : Z -> value.
Variable of_uint : Z -> value.
Variable of_float : F32.t -> value.
Variable get_string : value -> option string.
Variable get_bool : value -> option bool.
Variable get_int : value -> option Z.
Variable get_uint : value -> option Z.
Variable get_float : value -> option F32.t.

(** The strings and the floats the library stores and gives back
    unchanged (a JSON text holds no NaN or infinity, and no string that
    is not valid UTF-8). *)
Variable ok_string : string -> Prop.
Variable ok_float : F32.t -> Prop.

(** What is read back is what was stored. *)
Hypothesis string_back : forall s, ok_string s -> get_string (of_string s) = Some s.
Hypothesis bool_back : forall b, get_bool (of_bool b) = Some b.
Hypothesis int_back : forall n, get_int (of_int n) = Some n.
Hypothesis uint_back : forall n, get_uint (of_uint n) = Some n.
Hypothesis float_back : forall x, ok_float x -> get_float (of_float x) = Some x.
Hypothesis ok_literals : forall l, In l literals -> ok_string l.

Let load' := load value get_string get_bool get_int get_uint get_float.
Let save' := save value of_string of_bool of_int of_uint of_float.

Lemma load_save (s : t) :
  storable ok_string ok_float s ->
  load' (Some (save' s)) = Some (with_output_mode type_mode s).
Proof.
  intros (S1 & S2 & F1 & F2 & F3 & F4 & F5 & F6).
  assert (L : forall l, In l literals -> get_string (of_string l) = Some l)
    by (intros l Hl; apply string_back, ok_literals, Hl).
  unfold load', save', load, save, get, set. cbv zeta.
  cbn [lookup String.eqb Ascii.eqb Bool.eqb].
  rewrite !bool_back, !int_back, !uint_back.
  rewrite (float_back _ F1), (float_back _ F2), (float_back _ F3),
    (float_back _ F4), (float_back _ F5), (float_back _ F6).
  rewrite (string_back _ S1), (string_back _ S2).
  unfold with_output_mode.
  destruct (strategy s) eqn:E1, (output_mode s) eqn:E2, (transcription_mode s) eqn:E3;
    rewrite !L by (unfold literals; repeat first [left; reflexivity | right]);
    cbn [String.eqb Ascii.eqb Bool.eqb defaults strategy output_mode transcription_mode];
    destruct s; cbn in E1, E2, E3; subst; reflexivity.
Qed.

Lemma load_never_paste (file : option (object value)) (s : t) :
  load' file = Some s -> output_mode s = type_mode.
Proof.
  unfold load', load. destruct file as [j|]; [|now intros [= <-]].
  cbv zeta.
  repeat match goal with
         | |- match ?e with Some _ => _ | None => None end = Some _ -> _ =>
             destruct e; [|discriminate]
         end.
  intros [= <-]. cbn [output_mode]. now destruct (String.eqb _ "type").
Qed.

Lemma load_missing (j : object value) :
  (forall k, In k keys -> lookup value k j = None) ->
  load' (Some j) = Some defaults.
Proof.
  intros H. unfold load', load, get. cbv zeta.
  repeat match goal with
         | |- context [lookup value ?k j] =>
             rewrite (H k)
               by (unfold keys; repeat first [left; reflexivity | right])
         end.
  reflexivity.
Qed.

End WithJson.

(** X27. What [save] writes, [load] reads back, with one exception: the
    output mode always comes back as [type], because [load] only ever
    assigns that value; no settings file makes [load] return the paste
    mode.  (The JSON library enters through its contract: a value it can
    store is read back as it was.) *)
Theorem settings_round_trip (value : Type)
        (of_string : string -> value) (of_bool : bool -> value)
        (of_int of_uint : Z -> value) (of_float : F32.t -> value)
        (get_string : value -> option string) (get_bool : value -> option bool)
        (get_int get_uint : value -> option Z) (get_float : value -> option F32.t)
        (ok_string : string -> Prop) (ok_float : F32.t -> Prop) :
  (forall s, ok_string s -> get_string (of_string s) = Some s) ->
  (forall b, get_bool (of_bool b) = Some b) ->
  (forall n, get_int (of_int n) = Some n) ->
  (forall n, get_uint (of_uint n) = Some n) ->
  (forall x, ok_float x -> get_float (of_float x) = Some x) ->
  (forall l, In l literals -> ok_string l) ->
  (forall s,
     storable ok_string ok_float s ->
     load value get_string get_bool get_int get_uint get_float
          (Some (save value of_string of_bool of_int of_uint of_float s))
     = Some (with_output_mode type_mode s)) /\
  (forall file s,
     load value get_string get_bool get_int get_uint get_float file = Some s ->
     output_mode s = type_mode).
Proof.
  intros Hs Hb Hi Hu Hf Hl. split.
  - intros s. now apply load_save.
  - intros file s. apply load_never_paste.
Qed.

Lemma settings_round_trip_witness :
  storable (fun _ => True) (fun x => F32.is_finite x = true) pasting /\
  load jvalue jstring jbool jnumber jnumber jfloat
       (Some (save jvalue JString JBool JNumber JNumber JFloat pasting))
  = Some (with_output_mode type_mode pasting) /\
  output_mode pasting = paste_mode.
Proof.
  assert (H : storable (fun _ => True) (fun x => F32.is_finite x = true) pasting)
    by (unfold storable; repeat split).
  split; [exact H|]. split; [|reflexivity].
  apply (settings_round_trip jvalue JString JBool JNumber JNumber JFloat
           jstring jbool jnumber jnumber jfloat
           (fun _ => True) (fun x => F32.is_finite x = true));
    try (intros; reflexivity); try exact H.
Defined.

(** X28. A settings file that cannot be opened or parsed, and one that holds
    none of the keys, give the default settings: every key that is absent
    leaves its default. *)
Theorem settings_default_when_missing (value : Type)
        (get_string : value -> option string) (get_bool : value -> option bool)
        (get_int get_uint : value -> option Z) (get_float : value -> option F32.t)
        (j : object value) :
  load value get_string get_bool get_int get_uint get_float None = Some defaults /\
  ((forall k, In k keys -> lookup value k j = None) ->
   load value get_string get_bool get_int get_uint get_float (Some j) = Some defaults).
Proof.
  split; [reflexivity|]. apply load_missing.
Qed.

Lemma settings_default_when_missing_witness :
  (forall k, In k keys -> lookup jvalue k [("theme", JString "dark")] = None) /\
  load jvalue jstring jbool jnumber jnumber jfloat (Some [("theme", JString "dark")])
  = Some defaults.
Proof.
  assert (H : forall k, In k keys -> lookup jvalue k [("theme", JString "dark")] = None).
  { intros k Hk. unfold keys in Hk.
    repeat (destruct Hk as [<-|Hk]; [reflexivity|]). contradiction. }
  split; [exact H|].
  exact (proj2 (settings_default_when_missing jvalue jstring jbool jnumber jnumber jfloat
                  [("theme", JString "dark")]) H).
Defined.

End SettingsJsonProps.
